(** * A shallow embedding of the fake HLML library

    Source files embedded here:
    - [src/pkg/fakehlml/fake_hlml.h]: the call identities of the
      error-injection table and the test-only control operations;
    - [src/hack/fake_libhlml/fake_libhlml.c]: the device registry, the
      error-injection table, the event queue and the HLML entry points.

    The two global structures [main_struct] and [flow_control], the
    heap-allocated event sets and the text printed on standard output make up
    one explicit [state]; every C function becomes a function from a state to
    an [outcome]. *)

From Stdlib Require Import ZArith Ascii String List Lia.
From stdpp Require Import base decidable option numbers list gmap strings.

(** ** C strings *)

(** A [char] is an [ascii]; a string in memory is the bytes before the first
    NUL. For a [const char *] argument the list holds the bytes found at the
    pointer, and the end of the list terminates the string like a NUL does. *)
Definition NUL : ascii := zero.

Fixpoint c_str (s : list ascii) : list ascii :=
  match s with
  | [] => []
  | c :: t => if decide (c = NUL) then [] else c :: c_str t
  end.

Definition strlen (s : list ascii) : nat := length (c_str s).

Definition uchar (c : ascii) : nat := nat_of_ascii c.

(** The sign of the result of [strcmp]/[strncmp]: the characters are compared
    as [unsigned char] and the scan stops at the first difference, at a NUL, or
    (for [strncmp]) after [n] characters. *)
Definition cmp_chars (c1 c2 : ascii) : Z :=
  if (uchar c1 <? uchar c2)%nat then (-1)%Z else 1%Z.

Fixpoint strcmp (s1 s2 : list ascii) : Z :=
  let c2 := hd NUL s2 in
  match s1 with
  | [] => if decide (NUL = c2) then 0%Z else cmp_chars NUL c2
  | c1 :: t1 =>
      if decide (c1 = c2)
      then if decide (c1 = NUL) then 0%Z else strcmp t1 (tl s2)
      else cmp_chars c1 c2
  end.

Fixpoint strncmp (s1 s2 : list ascii) (n : nat) : Z :=
  match n with
  | O => 0%Z
  | S n' =>
      let c1 := hd NUL s1 in
      let c2 := hd NUL s2 in
      if decide (c1 = c2)
      then if decide (c1 = NUL) then 0%Z else strncmp (tl s1) (tl s2) n'
      else cmp_chars c1 c2
  end.

(** [snprintf(buf, size, "%s", src)] on a buffer whose string value was [old]:
    at most [size - 1] characters of [src] and a NUL are stored; with
    [size = 0] nothing is stored. *)
Definition snprintf_s (old : list ascii) (size : nat) (src : list ascii) : list ascii :=
  match size with
  | O => old
  | S k => take k (c_str src)
  end.

(** [strncpy(dst, src, n)] stores exactly [n] bytes: the characters of [src]
    (at most [n] of them) and NUL padding. [strncpy_bytes] is those [n] bytes;
    [strncpy] overwrites the first [n] bytes of the buffer [dst], and a
    buffer shorter than [n] is overrun. *)
Definition strncpy_bytes (src : list ascii) (n : nat) : list ascii :=
  take n (c_str src) ++ replicate (n - strlen src) NUL.

Definition strncpy (dst src : list ascii) (n : nat) : option (list ascii) :=
  if decide (n ≤ length dst) then Some (strncpy_bytes src n ++ drop n dst) else None.

(** ** Machine integers *)

Definition to_uint (z : Z) : Z := (z mod 2 ^ 32)%Z.
Definition to_int (z : Z) : Z := ((z + 2 ^ 31) mod 2 ^ 32 - 2 ^ 31)%Z.

(** ** [sscanf(s, "%x", &v)]

    White space is skipped, then an optional sign, an optional [0x] prefix and
    the longest run of hexadecimal digits are read; [None] is a matching
    failure, which leaves [v] as it was. A value that does not fit an
    [unsigned int] is kept modulo [2^32]. *)
Definition is_space (c : ascii) : bool :=
  let n := uchar c in (n =? 32)%nat || ((9 <=? n)%nat && (n <=? 13)%nat).

Definition hex_digit (c : ascii) : option Z :=
  let n := uchar c in
  if ((48 <=? n) && (n <=? 57))%nat then Some (Z.of_nat (n - 48))
  else if ((97 <=? n) && (n <=? 102))%nat then Some (Z.of_nat (n - 87))
  else if ((65 <=? n) && (n <=? 70))%nat then Some (Z.of_nat (n - 55))
  else None.

Fixpoint skip_spaces (s : list ascii) : list ascii :=
  match s with
  | c :: t => if is_space c then skip_spaces t else s
  | [] => []
  end.

Fixpoint hex_digits (acc : option Z) (s : list ascii) : option Z :=
  match s with
  | [] => acc
  | c :: t =>
      match hex_digit c with
      | Some d => hex_digits (Some (default 0%Z acc * 16 + d)%Z) t
      | None => acc
      end
  end.

Definition skip_0x (s : list ascii) : list ascii :=
  match s with
  | c0 :: cx :: t =>
      if decide (uchar c0 = 48 ∧ (uchar cx = 120 ∨ uchar cx = 88)) then t else s
  | _ => s
  end.

Definition sscanf_x (s : list ascii) : option Z :=
  let s := skip_spaces (c_str s) in
  let '(neg, s) :=
    match s with
    | c :: t =>
        if decide (uchar c = 45) then (true, t)
        else if decide (uchar c = 43) then (false, t) else (false, s)
    | [] => (false, s)
    end in
  match hex_digits None (skip_0x s) with
  | Some v => Some (to_uint (if neg then - v else v))
  | None => None
  end.

(** ** Constants of the library *)

Definition DEVICES_MAX : Z := 8.
Definition FAKE_EVENTS_MAX : Z := 8.
Definition NAME_MAX : Z := 64.
Definition SERIAL_MAX : Z := 64.

(** The enumeration [call_identity_t] of [fake_hlml.h]; its values index the
    error-injection table. All enumerators are non-negative. *)
Definition call_identity_t := N.

Definition FAKE_INIT : call_identity_t := 0%N.
Definition FAKE_INIT_WITH_FLAGS : call_identity_t := 1%N.
Definition FAKE_SHUTDOWN : call_identity_t := 2%N.
Definition FAKE_DEVICE_GET_COUNT : call_identity_t := 3%N.
Definition FAKE_DEVICE_GET_HANDLE_BY_PCI_BUS_ID : call_identity_t := 4%N.
Definition FAKE_DEVICE_GET_HANDLE_BY_INDEX : call_identity_t := 5%N.
Definition FAKE_DEVICE_GET_HANDLE_BY_UUID : call_identity_t := 6%N.
Definition FAKE_DEVICE_GET_NAME : call_identity_t := 7%N.
Definition FAKE_DEVICE_GET_PCI_INFO : call_identity_t := 8%N.
Definition FAKE_DEVICE_GET_SERIAL : call_identity_t := 9%N.
Definition FAKE_DEVICE_REGISTER_EVENTS : call_identity_t := 10%N.
Definition FAKE_EVENT_SET_CREATE : call_identity_t := 11%N.
Definition FAKE_EVENT_SET_FREE : call_identity_t := 12%N.
Definition FAKE_EVENT_SET_WAIT : call_identity_t := 13%N.
Definition FAKE_CALL_IDENTITY_MAX : call_identity_t := 14%N.

(** Modelled from the spec: the vendor header [hlml.h], which declares
    [hlml_return_t], is not among the sources. The statuses are the "fixed
    enumerated result set" of the specification (Success, InvalidArgument,
    NotFound, Uninitialized, InsufficientSize, Timeout, NotSupported,
    OutOfMemory) under the names the C file uses. [HLML_SUCCESS] is the
    enumerator of value zero: [reset] stores [false] in the table and a
    zero-initialised table injects nothing. *)
Inductive hlml_return_t : Set :=
  | HLML_SUCCESS
  | HLML_ERROR_UNINITIALIZED
  | HLML_ERROR_INVALID_ARGUMENT
  | HLML_ERROR_NOT_SUPPORTED
  | HLML_ERROR_NOT_FOUND
  | HLML_ERROR_INSUFFICIENT_SIZE
  | HLML_ERROR_TIMEOUT
  | HLML_ERROR_MEMORY.

#[global] Instance hlml_return_t_eq_dec : EqDecision hlml_return_t.
Proof. solve_decision. Defined.

(** ** Data model *)

Record device_info_t := {
  pci_addr : list ascii;
  device_id : Z;
  vendor_id : Z;
  serial : list ascii;
  index : Z
}.

(** An [hlml_device_t] is a [void *]: NULL, or the address of
    [main_struct.devices_info[n]], written [Some n]. The handle stays an alias
    of the registry entry: reading through it sees the entry as it is now. *)
Definition hlml_device_t := option nat.

Record main_struct_t := {
  initialized : bool;
  devices_num : Z;
  devices_info : list device_info_t
}.

Record flow_control_t := {
  func_ret : list hlml_return_t;
  events : list (list ascii);
  events_num : Z
}.

Record hlml_device_events := { device_info : hlml_device_t }.

Record hlml_event_set := { dev_events : list hlml_device_events }.

(** An [hlml_event_set_t] is NULL or the address of a block that [calloc]
    returned. *)
Definition hlml_event_set_t := option nat.

(** The two structures of the vendor header that the C file writes to, with
    the fields it names: the event record [{device, event_type}] and, of the
    PCI information, the bus id and the combined device id. *)
Record hlml_event_data := {
  device : hlml_device_t;
  event_type : Z
}.

Record hlml_pci_info_t := {
  bus_id : list ascii;
  pci_device_id : Z
}.

Record state := {
  main_struct : main_struct_t;
  flow_control : flow_control_t;
  heap : gmap nat hlml_event_set;
  stdout : list string
}.

(** What a call does: it returns a value in a new state, it stops the process
    at a failed [assert], or it has no defined behaviour in C (an access
    outside an array, a NULL or dangling pointer followed). *)
Inductive outcome (A : Type) : Type :=
  | Returns (a : A) (st : state)
  | Aborts
  | Undefined.
Arguments Returns {A} a st.
Arguments Aborts {A}.
Arguments Undefined {A}.

Definition set_main_struct (m : main_struct_t) (st : state) : state :=
  {| main_struct := m; flow_control := flow_control st;
     heap := heap st; stdout := stdout st |}.

Definition set_flow_control (f : flow_control_t) (st : state) : state :=
  {| main_struct := main_struct st; flow_control := f;
     heap := heap st; stdout := stdout st |}.

Definition set_heap (h : gmap nat hlml_event_set) (st : state) : state :=
  {| main_struct := main_struct st; flow_control := flow_control st;
     heap := h; stdout := stdout st |}.

Definition printf (line : string) (st : state) : state :=
  {| main_struct := main_struct st; flow_control := flow_control st;
     heap := heap st; stdout := stdout st ++ [line] |}.

Definition set_initialized (b : bool) (m : main_struct_t) : main_struct_t :=
  {| initialized := b; devices_num := devices_num m;
     devices_info := devices_info m |}.

Definition set_devices_num (n : Z) (m : main_struct_t) : main_struct_t :=
  {| initialized := initialized m; devices_num := n;
     devices_info := devices_info m |}.

Definition set_devices_info (l : list device_info_t) (m : main_struct_t) : main_struct_t :=
  {| initialized := initialized m; devices_num := devices_num m;
     devices_info := l |}.

Definition set_func_ret (t : list hlml_return_t) (f : flow_control_t) : flow_control_t :=
  {| func_ret := t; events := events f; events_num := events_num f |}.

Definition set_events (e : list (list ascii)) (f : flow_control_t) : flow_control_t :=
  {| func_ret := func_ret f; events := e; events_num := events_num f |}.

Definition set_events_num (n : Z) (f : flow_control_t) : flow_control_t :=
  {| func_ret := func_ret f; events := events f; events_num := n |}.

(** The zero-initialised globals of a freshly loaded library. *)
Definition zero_device_info : device_info_t :=
  {| pci_addr := []; device_id := 0; vendor_id := 0; serial := []; index := 0 |}.

Definition zero_event_set : hlml_event_set :=
  {| dev_events := replicate (Z.to_nat DEVICES_MAX) {| device_info := None |} |}.

Definition initial_state : state :=
  {| main_struct :=
       {| initialized := false; devices_num := 0;
          devices_info := replicate (Z.to_nat DEVICES_MAX) zero_device_info |};
     flow_control :=
       {| func_ret := replicate (N.to_nat FAKE_CALL_IDENTITY_MAX) HLML_SUCCESS;
          events := replicate (Z.to_nat FAKE_EVENTS_MAX) [];
          events_num := 0 |};
     heap := ∅;
     stdout := [] |}.

(** ** The library *)

Section Hlml.

(** Two constants of the vendor header [hlml.h], which is not among the
    sources, are taken as parameters: the size of a PCI address buffer and the
    event-type bit of a critical error. *)
Variable PCI_ADDR_LEN : nat.
Variable HLML_EVENT_CRITICAL_ERR : Z.

Definition newline : string := String "010" EmptyString.

Definition log_call (name : string) (st : state) : state :=
  printf (name ++ " called" ++ newline) st.

(** The macro [RETURN_IF_FAKE_ERROR(call_id)]: [early] is what the enclosing
    function returns with the forced status, [rest] is the code after the
    macro. *)
Definition RETURN_IF_FAKE_ERROR {A : Type} (call_id : call_identity_t)
    (st : state) (early : hlml_return_t → outcome A) (rest : outcome A) : outcome A :=
  match func_ret (flow_control st) !! N.to_nat call_id with
  | None => Undefined
  | Some forced => if decide (forced ≠ HLML_SUCCESS) then early forced else rest
  end.

(** *** Test-only control operations *)

Definition add_device (pci_addr' pci_device_id pci_vendor_id serial' : option (list ascii))
    (index' : Z) (st : state) : outcome unit :=
  let m := main_struct st in
  let n := devices_num m in
  if decide (0 ≤ n < DEVICES_MAX)%Z then
    match devices_info m !! Z.to_nat n, pci_device_id, pci_vendor_id with
    | Some d, Some device_hex, Some vendor_hex =>
        let d' :=
          {| pci_addr :=
               match pci_addr' with
               | Some s => snprintf_s (pci_addr d) PCI_ADDR_LEN s
               | None => []
               end;
             device_id := default (device_id d) (sscanf_x device_hex);
             vendor_id := default (vendor_id d) (sscanf_x vendor_hex);
             serial :=
               match serial' with
               | Some s => snprintf_s (serial d) (Z.to_nat SERIAL_MAX) s
               | None => []
               end;
             index := index' |} in
        Returns tt
          (set_main_struct
             (set_devices_num (n + 1)
                (set_devices_info (<[Z.to_nat n := d']> (devices_info m)) m)) st)
    | _, _, _ => Undefined
    end
  else Undefined.

(** The loop of [reset] over the call identities; [false] converts to the
    enumerator of value zero, [HLML_SUCCESS]. *)
Fixpoint reset_loop (table : list hlml_return_t) (call_id todo : nat)
    : option (list hlml_return_t) :=
  match todo with
  | O => Some table
  | S todo' =>
      if decide (call_id < length table)
      then reset_loop (<[call_id := HLML_SUCCESS]> table) (S call_id) todo'
      else None
  end.

Definition reset (st : state) : outcome unit :=
  let m := set_devices_num 0 (set_initialized false (main_struct st)) in
  let f := set_events_num 0 (flow_control st) in
  match reset_loop (func_ret f) 0 (N.to_nat FAKE_CALL_IDENTITY_MAX) with
  | Some table =>
      Returns tt (set_flow_control (set_func_ret table f) (set_main_struct m st))
  | None => Undefined
  end.

Definition add_critical_event (serial' : option (list ascii)) (st : state) : outcome unit :=
  let f := flow_control st in
  if decide (events_num f = FAKE_EVENTS_MAX) then
    Returns tt (printf "ERROR: maximum number of fake evets reached" st)
  else if decide (0 ≤ events_num f < FAKE_EVENTS_MAX)%Z then
    let k := Z.to_nat (events_num f) in
    match events f !! k with
    | Some old =>
        let new :=
          match serial' with
          | Some s => snprintf_s old (Z.to_nat SERIAL_MAX) s
          | None => []
          end in
        Returns tt
          (set_flow_control
             (set_events_num (events_num f + 1) (set_events (<[k := new]> (events f)) f)) st)
    | None => Undefined
    end
  else Undefined.

Definition reset_events (st : state) : outcome unit :=
  Returns tt (set_flow_control (set_events_num 0 (flow_control st)) st).

Definition set_error (call_id : call_identity_t) (errCode : hlml_return_t)
    (st : state) : outcome unit :=
  if decide (call_id < FAKE_CALL_IDENTITY_MAX)%N then
    let f := flow_control st in
    if decide (N.to_nat call_id < length (func_ret f)) then
      Returns tt
        (set_flow_control (set_func_ret (<[N.to_nat call_id := errCode]> (func_ret f)) f) st)
    else Undefined
  else Aborts.

(** *** Supported APIs

    An output parameter [T *p] is an [option T]: [None] is a NULL pointer,
    [Some v] a pointer to an object that holds [v]; the function returns its
    status together with the object after the call. *)

Definition hlml_init_with_flags (flags : Z) (st : state) : outcome hlml_return_t :=
  let st := log_call "hlml_init_with_flags" st in
  RETURN_IF_FAKE_ERROR FAKE_INIT_WITH_FLAGS st (λ e, Returns e st)
    (Returns HLML_SUCCESS (set_main_struct (set_initialized true (main_struct st)) st)).

Definition hlml_init (st : state) : outcome hlml_return_t :=
  let st := log_call "hlml_init" st in
  RETURN_IF_FAKE_ERROR FAKE_INIT st (λ e, Returns e st)
    (hlml_init_with_flags 0 st).

Definition hlml_shutdown (st : state) : outcome hlml_return_t :=
  let st := log_call "hlml_shutdown" st in
  RETURN_IF_FAKE_ERROR FAKE_SHUTDOWN st (λ e, Returns e st)
    (Returns HLML_SUCCESS (set_main_struct (set_initialized false (main_struct st)) st)).

Definition hlml_device_get_count (device_count : option Z) (st : state)
    : outcome (hlml_return_t * option Z) :=
  let st := log_call "hlml_device_get_count" st in
  RETURN_IF_FAKE_ERROR FAKE_DEVICE_GET_COUNT st (λ e, Returns (e, device_count) st)
    (match device_count with
     | None => Returns (HLML_ERROR_INVALID_ARGUMENT, device_count) st
     | Some _ =>
         Returns (HLML_SUCCESS, Some (to_uint (devices_num (main_struct st)))) st
     end).

(** The scan of [hlml_device_get_handle_by_pci_bus_id] from entry [n] with
    [todo] entries to go: [Some (Some n)] when the loop returns entry [n],
    [Some None] when it runs to its end, [None] when it leaves the array. *)
Fixpoint pci_bus_id_loop (devices : list device_info_t) (pci_addr' : list ascii)
    (n todo : nat) : option (option nat) :=
  match todo with
  | O => Some None
  | S todo' =>
      match devices !! n with
      | None => None
      | Some d =>
          if decide (strncmp pci_addr' (pci_addr d) PCI_ADDR_LEN ≠ 0%Z)
          then Some (Some n)
          else pci_bus_id_loop devices pci_addr' (S n) todo'
      end
  end.

Definition hlml_device_get_handle_by_pci_bus_id (pci_addr' : option (list ascii))
    (device' : option hlml_device_t) (st : state)
    : outcome (hlml_return_t * option hlml_device_t) :=
  let st := log_call "hlml_device_get_handle_by_pci_bus_id" st in
  RETURN_IF_FAKE_ERROR FAKE_DEVICE_GET_HANDLE_BY_PCI_BUS_ID st
    (λ e, Returns (e, device') st)
    (let m := main_struct st in
     if negb (initialized m) then Returns (HLML_ERROR_UNINITIALIZED, device') st
     else
       match device', pci_addr' with
       | Some _, Some addr =>
           match pci_bus_id_loop (devices_info m) addr 0 (Z.to_nat (devices_num m)) with
           | None => Undefined
           | Some (Some n) => Returns (HLML_SUCCESS, Some (Some n)) st
           | Some None => Returns (HLML_ERROR_NOT_FOUND, device') st
           end
       | _, _ => Returns (HLML_ERROR_INVALID_ARGUMENT, device') st
       end).

Fixpoint index_loop (devices : list device_info_t) (index' : Z)
    (n todo : nat) : option (option nat) :=
  match todo with
  | O => Some None
  | S todo' =>
      match devices !! n with
      | None => None
      | Some d =>
          if decide (index' = index d)
          then Some (Some n)
          else index_loop devices index' (S n) todo'
      end
  end.

Definition hlml_device_get_handle_by_index (index' : Z)
    (device' : option hlml_device_t) (st : state)
    : outcome (hlml_return_t * option hlml_device_t) :=
  let st := log_call "hlml_device_get_handle_by_index" st in
  RETURN_IF_FAKE_ERROR FAKE_DEVICE_GET_HANDLE_BY_INDEX st
    (λ e, Returns (e, device') st)
    (let m := main_struct st in
     if negb (initialized m) then Returns (HLML_ERROR_UNINITIALIZED, device') st
     else
       match device' with
       | Some _ =>
           if decide (devices_num m ≤ to_int index')%Z
           then Returns (HLML_ERROR_INVALID_ARGUMENT, device') st
           else
             match index_loop (devices_info m) index' 0 (Z.to_nat (devices_num m)) with
             | None => Undefined
             | Some (Some n) => Returns (HLML_SUCCESS, Some (Some n)) st
             | Some None => Returns (HLML_ERROR_NOT_FOUND, device') st
             end
       | None => Returns (HLML_ERROR_INVALID_ARGUMENT, device') st
       end).

Definition hlml_device_get_handle_by_UUID (uuid : option (list ascii))
    (device' : option hlml_device_t) (st : state)
    : outcome (hlml_return_t * option hlml_device_t) :=
  let st := log_call "hlml_device_get_handle_by_UUID" st in
  Returns (HLML_SUCCESS, device') st.

Definition hlml_device_get_name (device' : hlml_device_t)
    (name : option (list ascii)) (length' : Z) (st : state)
    : outcome (hlml_return_t * option (list ascii)) :=
  let st := log_call "hlml_device_get_name" st in
  Returns (HLML_SUCCESS, name) st.

Definition hlml_device_get_pci_info (device' : hlml_device_t)
    (pci : option hlml_pci_info_t) (st : state)
    : outcome (hlml_return_t * option hlml_pci_info_t) :=
  let st := log_call "hlml_device_get_pci_info" st in
  RETURN_IF_FAKE_ERROR FAKE_DEVICE_GET_PCI_INFO st (λ e, Returns (e, pci) st)
    (let m := main_struct st in
     if negb (initialized m) then Returns (HLML_ERROR_UNINITIALIZED, pci) st
     else
       match device', pci with
       | Some n, Some _ =>
           match devices_info m !! n, PCI_ADDR_LEN with
           | Some d, S k =>
               Returns
                 (HLML_SUCCESS,
                  Some {| bus_id := take k (c_str (pci_addr d));
                          pci_device_id :=
                            to_uint (Z.lor (device_id d) (Z.shiftl (vendor_id d) 16)) |})
                 st
           | _, _ => Undefined
           end
       | _, _ => Returns (HLML_ERROR_INVALID_ARGUMENT, pci) st
       end).

(** Every entry point that is not wired to the state, [name] being its
    [__func__]. *)
Definition hlml_not_supported (name : string) (st : state) : outcome hlml_return_t :=
  let st := log_call name st in
  Returns HLML_ERROR_NOT_SUPPORTED st.

(** The scan of [hlml_device_register_events] over the slots of an event set,
    from slot [i] with [todo] slots to go; the result is the value of [i] when
    the loop is left and the slots as they are then. *)
Fixpoint register_loop (device_info' : hlml_device_t) (slots : list hlml_device_events)
    (i todo : nat) : option (nat * list hlml_device_events) :=
  match todo with
  | O => Some (i, slots)
  | S todo' =>
      match slots !! i with
      | None => None
      | Some dev_events' =>
          match device_info dev_events' with
          | None => Some (i, <[i := {| device_info := device_info' |}]> slots)
          | Some p =>
              if decide (Some p = device_info') then Some (i, slots)
              else register_loop device_info' slots (S i) todo'
          end
      end
  end.

Definition hlml_device_register_events (device' : hlml_device_t) (event_types : Z)
    (set' : hlml_event_set_t) (st : state) : outcome hlml_return_t :=
  let st := log_call "hlml_device_register_events" st in
  RETURN_IF_FAKE_ERROR FAKE_DEVICE_REGISTER_EVENTS st (λ e, Returns e st)
    (match set' with
     | None => Undefined
     | Some l =>
         match heap st !! l with
         | None => Undefined
         | Some event_set =>
             match register_loop device' (dev_events event_set) 0 (Z.to_nat DEVICES_MAX) with
             | None => Undefined
             | Some (i, slots) =>
                 let st := set_heap (<[l := {| dev_events := slots |}]> (heap st)) st in
                 if decide (Z.of_nat i = DEVICES_MAX)
                 then Returns HLML_ERROR_INVALID_ARGUMENT st
                 else Returns HLML_SUCCESS st
             end
         end
     end).

(** [calloc] is the environment's: [calloc_fails] tells whether it returns
    NULL; otherwise it returns a zeroed block at an address not in use. *)
Definition hlml_event_set_create (calloc_fails : bool) (set' : option hlml_event_set_t)
    (st : state) : outcome (hlml_return_t * option hlml_event_set_t) :=
  let st := log_call "hlml_event_set_create" st in
  RETURN_IF_FAKE_ERROR FAKE_EVENT_SET_CREATE st (λ e, Returns (e, set') st)
    (if negb (initialized (main_struct st)) then Returns (HLML_ERROR_UNINITIALIZED, set') st
     else
       match set' with
       | None => Returns (HLML_ERROR_INVALID_ARGUMENT, set') st
       | Some _ =>
           if calloc_fails then Returns (HLML_ERROR_MEMORY, set') st
           else
             let l := fresh (dom (heap st)) in
             Returns (HLML_SUCCESS, Some (Some l))
               (set_heap (<[l := zero_event_set]> (heap st)) st)
       end).

Definition hlml_event_set_free (set' : hlml_event_set_t) (st : state)
    : outcome hlml_return_t :=
  let st := log_call "hlml_event_set_free" st in
  RETURN_IF_FAKE_ERROR FAKE_EVENT_SET_FREE st (λ e, Returns e st)
    (if negb (initialized (main_struct st)) then Returns HLML_ERROR_UNINITIALIZED st
     else
       match set' with
       | None => Returns HLML_ERROR_INVALID_ARGUMENT st
       | Some l =>
           match heap st !! l with
           | None => Undefined
           | Some _ => Returns HLML_SUCCESS (set_heap (delete l (heap st)) st)
           end
       end).

(** The scan of [hlml_event_set_wait] from slot [i] with [todo] slots to go:
    [Some (Some (i, p))] when slot [i], which points to registry entry [p],
    has the pending event; [Some None] when the loop ends at an empty slot or
    after the last one. The right operand of [&&] is evaluated only when
    [events_num > 0]. *)
Fixpoint wait_loop (f : flow_control_t) (devices : list device_info_t)
    (slots : list hlml_device_events) (i todo : nat) : option (option (nat * nat)) :=
  match todo with
  | O => Some None
  | S todo' =>
      match slots !! i with
      | None => None
      | Some dev_events' =>
          match device_info dev_events' with
          | None => Some None
          | Some p =>
              if decide (0 < events_num f)%Z then
                match events f !! Z.to_nat (events_num f - 1), devices !! p with
                | Some ev, Some d =>
                    if decide (strcmp ev (serial d) = 0%Z) then Some (Some (i, p))
                    else wait_loop f devices slots (S i) todo'
                | _, _ => None
                end
              else wait_loop f devices slots (S i) todo'
          end
      end
  end.

Definition hlml_event_set_wait (set' : hlml_event_set_t) (data : option hlml_event_data)
    (timeoutms : Z) (st : state) : outcome (hlml_return_t * option hlml_event_data) :=
  let st := log_call "hlml_event_set_wait" st in
  RETURN_IF_FAKE_ERROR FAKE_EVENT_SET_WAIT st (λ e, Returns (e, data) st)
    (if negb (initialized (main_struct st)) then Returns (HLML_ERROR_UNINITIALIZED, data) st
     else
       match set', data with
       | Some l, Some _ =>
           match heap st !! l with
           | None => Undefined
           | Some event_set =>
               let f := flow_control st in
               let devices := devices_info (main_struct st) in
               match wait_loop f devices (dev_events event_set) 0 (Z.to_nat DEVICES_MAX) with
               | None => Undefined
               | Some None => Returns (HLML_ERROR_TIMEOUT, data) st
               | Some (Some (i, p)) =>
                   let st :=
                     printf ("fake HLML: event for device "
                             ++ string_of_list_ascii (c_str (default [] (serial <$> (devices !! p))))
                             ++ " found") st in
                   let event_type' := Z.lor 0 HLML_EVENT_CRITICAL_ERR in
                   let st := set_flow_control (set_events_num (events_num f - 1) f) st in
                   if decide (event_type' ≠ 0%Z)
                   then Returns (HLML_SUCCESS,
                                 Some {| device := Some p; event_type := event_type' |}) st
                   else Returns (HLML_ERROR_TIMEOUT, data) st
               end
           end
       | _, _ => Returns (HLML_ERROR_INVALID_ARGUMENT, data) st
       end).

(** [serial'] is the caller's buffer, byte by byte, and [length'] the size the
    caller announces for it. *)
Definition hlml_device_get_serial (device' : hlml_device_t)
    (serial' : option (list ascii)) (length' : Z) (st : state)
    : outcome (hlml_return_t * option (list ascii)) :=
  let st := log_call "hlml_device_get_serial" st in
  match serial' with
  | Some buf =>
      if decide (0 < length')%Z then
        match func_ret (flow_control st) !! N.to_nat FAKE_DEVICE_GET_SERIAL with
        | None => Undefined
        | Some forced =>
            if decide (forced ≠ HLML_SUCCESS) then
              match buf with
              | [] => Undefined
              | _ :: rest => Returns (forced, Some (NUL :: rest)) st
              end
            else
              match device' with
              | None =>
                  match buf with
                  | [] => Undefined
                  | _ :: rest => Returns (HLML_SUCCESS, Some (NUL :: rest)) st
                  end
              | Some n =>
                  if decide (to_int length' < SERIAL_MAX)%Z
                  then Returns (HLML_ERROR_INSUFFICIENT_SIZE, serial') st
                  else
                    match devices_info (main_struct st) !! n with
                    | None => Undefined
                    | Some d =>
                        match strncpy buf (serial d) (Z.to_nat length') with
                        | None => Undefined
                        | Some buf' => Returns (HLML_SUCCESS, Some buf') st
                        end
                    end
              end
        end
      else Aborts
  | None => Aborts
  end.

(** ** Calls and runs

    One constructor per operation, with its arguments; [run_call] dispatches
    to the function and keeps the status when there is one. *)
Inductive call : Type :=
  | Call_add_device (pci_addr' pci_device_id pci_vendor_id serial' : option (list ascii))
      (index' : Z)
  | Call_reset
  | Call_add_critical_event (serial' : option (list ascii))
  | Call_reset_events
  | Call_set_error (call_id : call_identity_t) (errCode : hlml_return_t)
  | Call_hlml_init
  | Call_hlml_init_with_flags (flags : Z)
  | Call_hlml_shutdown
  | Call_hlml_device_get_count (device_count : option Z)
  | Call_hlml_device_get_handle_by_pci_bus_id (pci_addr' : option (list ascii))
      (device' : option hlml_device_t)
  | Call_hlml_device_get_handle_by_index (index' : Z) (device' : option hlml_device_t)
  | Call_hlml_device_get_handle_by_UUID (uuid : option (list ascii))
      (device' : option hlml_device_t)
  | Call_hlml_device_get_name (device' : hlml_device_t) (name : option (list ascii))
      (length' : Z)
  | Call_hlml_device_get_pci_info (device' : hlml_device_t) (pci : option hlml_pci_info_t)
  | Call_hlml_device_get_serial (device' : hlml_device_t) (serial' : option (list ascii))
      (length' : Z)
  | Call_hlml_device_register_events (device' : hlml_device_t) (event_types : Z)
      (set' : hlml_event_set_t)
  | Call_hlml_event_set_create (calloc_fails : bool) (set' : option hlml_event_set_t)
  | Call_hlml_event_set_free (set' : hlml_event_set_t)
  | Call_hlml_event_set_wait (set' : hlml_event_set_t) (data : option hlml_event_data)
      (timeoutms : Z)
  | Call_hlml_not_supported (name : string).

Definition status_only {A : Type} (o : outcome A) (status : A → option hlml_return_t)
    : outcome (option hlml_return_t) :=
  match o with
  | Returns a st => Returns (status a) st
  | Aborts => Aborts
  | Undefined => Undefined
  end.

Definition run_call (c : call) (st : state) : outcome (option hlml_return_t) :=
  match c with
  | Call_add_device a d v s i => status_only (add_device a d v s i st) (λ _, None)
  | Call_reset => status_only (reset st) (λ _, None)
  | Call_add_critical_event s => status_only (add_critical_event s st) (λ _, None)
  | Call_reset_events => status_only (reset_events st) (λ _, None)
  | Call_set_error id e => status_only (set_error id e st) (λ _, None)
  | Call_hlml_init => status_only (hlml_init st) Some
  | Call_hlml_init_with_flags flags => status_only (hlml_init_with_flags flags st) Some
  | Call_hlml_shutdown => status_only (hlml_shutdown st) Some
  | Call_hlml_device_get_count p =>
      status_only (hlml_device_get_count p st) (λ r, Some r.1)
  | Call_hlml_device_get_handle_by_pci_bus_id a p =>
      status_only (hlml_device_get_handle_by_pci_bus_id a p st) (λ r, Some r.1)
  | Call_hlml_device_get_handle_by_index i p =>
      status_only (hlml_device_get_handle_by_index i p st) (λ r, Some r.1)
  | Call_hlml_device_get_handle_by_UUID u p =>
      status_only (hlml_device_get_handle_by_UUID u p st) (λ r, Some r.1)
  | Call_hlml_device_get_name d n len =>
      status_only (hlml_device_get_name d n len st) (λ r, Some r.1)
  | Call_hlml_device_get_pci_info d p =>
      status_only (hlml_device_get_pci_info d p st) (λ r, Some r.1)
  | Call_hlml_device_get_serial d s len =>
      status_only (hlml_device_get_serial d s len st) (λ r, Some r.1)
  | Call_hlml_device_register_events d t s =>
      status_only (hlml_device_register_events d t s st) Some
  | Call_hlml_event_set_create fails p =>
      status_only (hlml_event_set_create fails p st) (λ r, Some r.1)
  | Call_hlml_event_set_free s => status_only (hlml_event_set_free s st) Some
  | Call_hlml_event_set_wait s d t =>
      status_only (hlml_event_set_wait s d t st) (λ r, Some r.1)
  | Call_hlml_not_supported name => status_only (hlml_not_supported name st) Some
  end.

(** The state after a sequence of calls, when every one of them returns. *)
Fixpoint run_calls (cs : list call) (st : state) : option state :=
  match cs with
  | [] => Some st
  | c :: cs' =>
      match run_call c st with
      | Returns _ st' => run_calls cs' st'
      | _ => None
      end
  end.

(** The entry of the error-injection table that an entry point consults. *)
Definition call_identity (c : call) : option call_identity_t :=
  match c with
  | Call_hlml_init => Some FAKE_INIT
  | Call_hlml_init_with_flags _ => Some FAKE_INIT_WITH_FLAGS
  | Call_hlml_shutdown => Some FAKE_SHUTDOWN
  | Call_hlml_device_get_count _ => Some FAKE_DEVICE_GET_COUNT
  | Call_hlml_device_get_handle_by_pci_bus_id _ _ =>
      Some FAKE_DEVICE_GET_HANDLE_BY_PCI_BUS_ID
  | Call_hlml_device_get_handle_by_index _ _ => Some FAKE_DEVICE_GET_HANDLE_BY_INDEX
  | Call_hlml_device_get_pci_info _ _ => Some FAKE_DEVICE_GET_PCI_INFO
  | Call_hlml_device_get_serial _ _ _ => Some FAKE_DEVICE_GET_SERIAL
  | Call_hlml_device_register_events _ _ _ => Some FAKE_DEVICE_REGISTER_EVENTS
  | Call_hlml_event_set_create _ _ => Some FAKE_EVENT_SET_CREATE
  | Call_hlml_event_set_free _ => Some FAKE_EVENT_SET_FREE
  | Call_hlml_event_set_wait _ _ _ => Some FAKE_EVENT_SET_WAIT
  | _ => None
  end.

(** ** Well-formed states

    The arrays have the sizes the C declarations give them, the two counters
    stay within their arrays, the stored strings fit their buffers, and every
    device association of an event set is NULL or points into the registry.
    These hold of the freshly loaded library and every call that returns keeps
    them ([wf_initial_state], [run_call_wf]). *)

Definition valid_device (h : hlml_device_t) : Prop :=
  match h with
  | None => True
  | Some n => (Z.of_nat n < DEVICES_MAX)%Z
  end.

Definition fits (size : Z) (s : list ascii) : Prop :=
  (NUL ∉ s) ∧ (Z.of_nat (length s) < size)%Z.

Definition wf_event_set (es : hlml_event_set) : Prop :=
  length (dev_events es) = Z.to_nat DEVICES_MAX
  ∧ Forall (λ s, valid_device (device_info s)) (dev_events es).

Definition wf_state (st : state) : Prop :=
  length (devices_info (main_struct st)) = Z.to_nat DEVICES_MAX
  ∧ (0 ≤ devices_num (main_struct st) ≤ DEVICES_MAX)%Z
  ∧ Forall (λ d, fits SERIAL_MAX (serial d)) (devices_info (main_struct st))
  ∧ length (func_ret (flow_control st)) = N.to_nat FAKE_CALL_IDENTITY_MAX
  ∧ length (events (flow_control st)) = Z.to_nat FAKE_EVENTS_MAX
  ∧ (0 ≤ events_num (flow_control st) ≤ FAKE_EVENTS_MAX)%Z
  ∧ Forall (fits SERIAL_MAX) (events (flow_control st))
  ∧ map_Forall (λ _ es, wf_event_set es) (heap st).

#[global] Instance valid_device_dec (h : hlml_device_t) : Decision (valid_device h).
Proof. destruct h; simpl; apply _. Defined.

#[global] Instance fits_dec (size : Z) (s : list ascii) : Decision (fits size s).
Proof. unfold fits. apply _. Defined.

#[global] Instance wf_event_set_dec (es : hlml_event_set) : Decision (wf_event_set es).
Proof. unfold wf_event_set. apply _. Defined.

#[global] Instance wf_state_dec (st : state) : Decision (wf_state st).
Proof. unfold wf_state. apply _. Defined.

(** The device handles a call passes are NULL or point into the registry. *)
Definition valid_call (c : call) : Prop :=
  match c with
  | Call_hlml_device_register_events d _ _ => valid_device d
  | _ => True
  end.

(** ** Vocabulary of the specification *)

(** No status is forced for [call_id]. *)
Definition no_fake_error (call_id : call_identity_t) (st : state) : Prop :=
  func_ret (flow_control st) !! N.to_nat call_id = Some HLML_SUCCESS.

(** The devices registered so far, in insertion order. *)
Definition registered_devices (st : state) : list device_info_t :=
  take (Z.to_nat (devices_num (main_struct st))) (devices_info (main_struct st)).

(** The devices registered in an event set, in registration order: the
    associations before the first empty slot. *)
Fixpoint registered (slots : list hlml_device_events) : list nat :=
  match slots with
  | [] => []
  | s :: rest =>
      match device_info s with
      | None => []
      | Some p => p :: registered rest
      end
  end.

(** The most recently queued event, if the queue is not empty. *)
Definition tail_event (f : flow_control_t) : option (list ascii) :=
  if decide (0 < events_num f)%Z then events f !! Z.to_nat (events_num f - 1) else None.

(** The serial of the registry entry a handle points to. *)
Definition serial_at (st : state) (p : nat) : option (list ascii) :=
  serial <$> (devices_info (main_struct st) !! p).

(** Two states that differ at most in what was printed. *)
Definition same_library_state (st st' : state) : Prop :=
  main_struct st' = main_struct st
  ∧ flow_control st' = flow_control st
  ∧ heap st' = heap st.

(** A call that leaves the forced status of [op] alone: neither [reset] nor a
    [set_error] for [op]. *)
Definition keeps_error (op : call_identity_t) (c : call) : Prop :=
  match c with
  | Call_reset => False
  | Call_set_error call_id _ => call_id ≠ op
  | _ => True
  end.

(** The entry points that consult the table through [RETURN_IF_FAKE_ERROR]. *)
Definition checks_table_first (c : call) : Prop :=
  match c with
  | Call_hlml_device_get_serial _ _ _ => False
  | _ => is_Some (call_identity c)
  end.

Definition string_to_chars (s : string) : list ascii := list_ascii_of_string s.

(** ** Example runs

    Two devices with serials "S1" and "S2", the library initialized, and an
    event set (the first block [calloc] returns, at address 0) in which both
    are registered. *)
Definition state_after (cs : list call) : state :=
  default initial_state (run_calls cs initial_state).

Definition one_device (index' : Z) : list call :=
  [Call_add_device (Some (string_to_chars "0000:19:00.0"))
     (Some (string_to_chars "1020")) (Some (string_to_chars "1da3"))
     (Some (string_to_chars "S1")) index';
   Call_hlml_init].

Definition two_devices : list call :=
  [Call_add_device (Some (string_to_chars "0000:19:00.0"))
     (Some (string_to_chars "1020")) (Some (string_to_chars "1da3"))
     (Some (string_to_chars "S1")) 0;
   Call_add_device (Some (string_to_chars "0000:1a:00.0"))
     (Some (string_to_chars "1020")) (Some (string_to_chars "1da3"))
     (Some (string_to_chars "S2")) 1;
   Call_hlml_init].

Definition two_devices_armed : list call :=
  two_devices
  ++ [Call_hlml_event_set_create false (Some None);
      Call_hlml_device_register_events (Some 0) 2 (Some 0);
      Call_hlml_device_register_events (Some 1) 2 (Some 0)].

Definition armed_event_set : hlml_event_set :=
  {| dev_events :=
       {| device_info := Some 0 |} :: {| device_info := Some 1 |}
       :: replicate 6 {| device_info := None |} |}.

(** Eight devices, and an event set in which all eight are registered. *)
Definition eight_devices : list call :=
  (λ i, Call_add_device None (Some (string_to_chars "1020"))
          (Some (string_to_chars "1da3")) None (Z.of_nat i)) <$> seq 0 8.

Definition eight_devices_armed : list call :=
  eight_devices
  ++ [Call_hlml_init; Call_hlml_event_set_create false (Some None)]
  ++ ((λ i, Call_hlml_device_register_events (Some i) 2 (Some 0)) <$> seq 0 8).

Definition full_event_set : hlml_event_set :=
  {| dev_events := (λ i, {| device_info := Some i |}) <$> seq 0 8 |}.

(** A buffer of 2^31 bytes. *)
Definition huge_length : Z := 2147483648.
Definition huge_buffer : list ascii := replicate (Z.to_nat huge_length) "x"%char.

(** ** Further vocabulary *)

(** The entry points that test the initialized flag. *)
Definition tests_initialized (c : call) : Prop :=
  match c with
  | Call_hlml_device_get_handle_by_pci_bus_id _ _
  | Call_hlml_device_get_handle_by_index _ _
  | Call_hlml_device_get_pci_info _ _
  | Call_hlml_event_set_create _ _
  | Call_hlml_event_set_free _
  | Call_hlml_event_set_wait _ _ _ => True
  | _ => False
  end.

(** The parts of the library state, and for every operation the parts it has
    an assignment to. *)
Inductive component : Set :=
  | Initialized_flag
  | Device_registry
  | Error_table
  | Event_queue
  | Event_sets.

#[global] Instance component_eq_dec : EqDecision component.
Proof. solve_decision. Defined.

Definition writes (c : call) : list component :=
  match c with
  | Call_add_device _ _ _ _ _ => [Device_registry]
  | Call_reset => [Initialized_flag; Device_registry; Error_table; Event_queue]
  | Call_add_critical_event _ => [Event_queue]
  | Call_reset_events => [Event_queue]
  | Call_set_error _ _ => [Error_table]
  | Call_hlml_init | Call_hlml_init_with_flags _ | Call_hlml_shutdown => [Initialized_flag]
  | Call_hlml_device_register_events _ _ _ => [Event_sets]
  | Call_hlml_event_set_create _ _ | Call_hlml_event_set_free _ => [Event_sets]
  | Call_hlml_event_set_wait _ _ _ => [Event_queue]
  | _ => []
  end.

Definition unchanged (k : component) (st st' : state) : Prop :=
  match k with
  | Initialized_flag => initialized (main_struct st') = initialized (main_struct st)
  | Device_registry =>
      devices_num (main_struct st') = devices_num (main_struct st)
      ∧ devices_info (main_struct st') = devices_info (main_struct st)
  | Error_table => func_ret (flow_control st') = func_ret (flow_control st)
  | Event_queue =>
      events_num (flow_control st') = events_num (flow_control st)
      ∧ events (flow_control st') = events (flow_control st)
  | Event_sets => heap st' = heap st
  end.

(** The slot of an event set that holds device [p], and the empty slot. *)
Definition slot_of (p : nat) : hlml_device_events := {| device_info := Some p |}.
Definition empty_slot : hlml_device_events := {| device_info := None |}.

(** An event set without holes and without a device held twice: its slots
    hold distinct devices and then only empty slots. *)
Definition compact_event_set (es : hlml_event_set) : Prop :=
  ∃ (regs : list nat) (k : nat),
    dev_events es = (slot_of <$> regs) ++ replicate k empty_slot ∧ NoDup regs.

(** ** Facts about C strings *)

Lemma cmp_chars_nonzero (c1 c2 : ascii) : cmp_chars c1 c2 ≠ 0%Z.
Proof. unfold cmp_chars. destruct (uchar c1 <? uchar c2)%nat; lia. Qed.

Lemma c_str_no_NUL (s : list ascii) : NUL ∉ s → c_str s = s.
Proof.
  induction s as [|c t IH]; simpl; [done|].
  intros Hnot. apply not_elem_of_cons in Hnot as [Hc Ht].
  destruct (decide (c = NUL)); [congruence|]. by rewrite IH.
Qed.

Lemma c_str_NUL_free (s : list ascii) : NUL ∉ c_str s.
Proof.
  induction s as [|c t IH]; simpl; [apply not_elem_of_nil|].
  destruct (decide (c = NUL)); [apply not_elem_of_nil|].
  apply not_elem_of_cons. split; [congruence|done].
Qed.

Lemma strcmp_zero (s1 s2 : list ascii) : strcmp s1 s2 = 0%Z ↔ c_str s1 = c_str s2.
Proof.
  revert s2. induction s1 as [|c1 t1 IH]; intros [|c2 t2]; simpl.
  - by destruct (decide (NUL = NUL)).
  - destruct (decide (NUL = c2)) as [<-|Hne].
    + by destruct (decide (NUL = NUL)).
    + destruct (decide (c2 = NUL)); [congruence|].
      split; [|done]. intros H. by apply cmp_chars_nonzero in H.
  - destruct (decide (c1 = NUL)) as [->|Hne].
    + by destruct (decide (NUL = NUL)).
    + destruct (decide (c1 = NUL)); [congruence|].
      split; [|done]. intros H. by apply cmp_chars_nonzero in H.
  - destruct (decide (c1 = c2)) as [<-|Hne].
    + destruct (decide (c1 = NUL)); [done|].
      rewrite IH. split; [by intros ->|by intros [=]].
    + destruct (decide (c1 = NUL)) as [->|H1], (decide (c2 = NUL)) as [->|H2];
        try congruence; (split; [intros H; by apply cmp_chars_nonzero in H|]);
        try done; intros [=]; congruence.
Qed.

Lemma strcmp_zero_fits (size : Z) (s1 s2 : list ascii) :
  fits size s1 → fits size s2 → strcmp s1 s2 = 0%Z ↔ s1 = s2.
Proof.
  intros [H1 _] [H2 _]. rewrite strcmp_zero.
  by rewrite (c_str_no_NUL s1), (c_str_no_NUL s2).
Qed.

Lemma strncmp_zero (s1 s2 : list ascii) (n : nat) :
  strncmp s1 s2 n = 0%Z ↔ take n (c_str s1) = take n (c_str s2).
Proof.
  revert s1 s2. induction n as [|n IH]; intros s1 s2; simpl; [by rewrite !take_0|].
  destruct s1 as [|c1 t1], s2 as [|c2 t2]; simpl.
  - by destruct (decide (NUL = NUL)).
  - destruct (decide (NUL = c2)) as [<-|Hne].
    + by destruct (decide (NUL = NUL)).
    + destruct (decide (c2 = NUL)); [congruence|].
      split; [|done]. intros H. by apply cmp_chars_nonzero in H.
  - destruct (decide (c1 = NUL)) as [->|Hne].
    + by destruct (decide (NUL = NUL)).
    + destruct (decide (c1 = NUL)); [congruence|].
      split; [|done]. intros H. by apply cmp_chars_nonzero in H.
  - destruct (decide (c1 = c2)) as [<-|Hne].
    + destruct (decide (c1 = NUL)); [done|].
      rewrite IH. simpl. split; [by intros ->|by intros [=]].
    + destruct (decide (c1 = NUL)) as [->|H1], (decide (c2 = NUL)) as [->|H2];
        try congruence; (split; [intros H; by apply cmp_chars_nonzero in H|]);
        try done; simpl; intros [=]; congruence.
Qed.

Lemma fits_snprintf_s (old src : list ascii) :
  fits SERIAL_MAX (snprintf_s old (Z.to_nat SERIAL_MAX) src).
Proof.
  change (Z.to_nat SERIAL_MAX) with (S 63). simpl. split.
  - intros Hin. apply elem_of_take in Hin as (i & Hi & _).
    apply list_elem_of_lookup_2 in Hi. by apply c_str_NUL_free in Hi.
  - rewrite length_take. unfold SERIAL_MAX. lia.
Qed.

Lemma fits_nil : fits SERIAL_MAX [].
Proof. split; [apply not_elem_of_nil|]. unfold SERIAL_MAX. simpl. lia. Qed.

(** A string that fits a buffer of [SERIAL_MAX] bytes is copied whole by a
    [strncpy] of at least [SERIAL_MAX] bytes, NUL included. *)
Lemma c_str_strncpy_bytes (src rest : list ascii) (n : nat) :
  fits SERIAL_MAX src → (SERIAL_MAX ≤ Z.of_nat n)%Z →
  c_str (strncpy_bytes src n ++ rest) = src.
Proof.
  intros [Hnul Hlen] Hn. unfold strncpy_bytes, strlen.
  rewrite (c_str_no_NUL src Hnul).
  rewrite take_ge by lia.
  destruct (n - length src) as [|k] eqn:Hk; [lia|]. simpl.
  rewrite <- app_assoc. simpl. clear Hlen Hk.
  induction src as [|c t IH]; simpl.
  - by destruct (decide (NUL = NUL)).
  - apply not_elem_of_cons in Hnul as [Hc Ht].
    destruct (decide (c = NUL)); [congruence|]. by rewrite IH.
Qed.

(** ** The error-injection macro *)

Lemma RETURN_IF_FAKE_ERROR_none {A : Type} (call_id : call_identity_t) (st : state)
    (early : hlml_return_t → outcome A) (rest : outcome A) :
  no_fake_error call_id st → RETURN_IF_FAKE_ERROR call_id st early rest = rest.
Proof. unfold no_fake_error, RETURN_IF_FAKE_ERROR. by intros ->. Qed.

Lemma RETURN_IF_FAKE_ERROR_forced {A : Type} (call_id : call_identity_t) (st : state)
    (early : hlml_return_t → outcome A) (rest : outcome A) (forced : hlml_return_t) :
  func_ret (flow_control st) !! N.to_nat call_id = Some forced →
  forced ≠ HLML_SUCCESS →
  RETURN_IF_FAKE_ERROR call_id st early rest = early forced.
Proof.
  unfold RETURN_IF_FAKE_ERROR. intros -> Hne.
  by destruct (decide (forced ≠ HLML_SUCCESS)).
Qed.

Lemma to_uint_small (z : Z) : (0 ≤ z < 2 ^ 32)%Z → to_uint z = z.
Proof. intros H. unfold to_uint. by apply Z.mod_small. Qed.

Lemma to_int_small (z : Z) : (0 ≤ z < 2 ^ 31)%Z → to_int z = z.
Proof. intros H. unfold to_int. rewrite Z.mod_small; lia. Qed.

Lemma to_int_large (z : Z) : (2 ^ 31 ≤ z < 2 ^ 32)%Z → to_int z = (z - 2 ^ 32)%Z.
Proof.
  intros H. unfold to_int.
  replace (z + 2 ^ 31)%Z with ((z - 2 ^ 31) + 1 * 2 ^ 32)%Z by lia.
  rewrite Z.mod_add by lia. rewrite Z.mod_small; lia.
Qed.

(** ** The loop of [reset] *)

Lemma reset_loop_spec (table : list hlml_return_t) (call_id todo : nat) :
  call_id + todo = length table →
  reset_loop table call_id todo
  = Some (take call_id table ++ replicate todo HLML_SUCCESS).
Proof.
  revert table call_id. induction todo as [|todo IH]; intros table call_id Hlen; simpl.
  - rewrite take_ge by lia. by rewrite app_nil_r.
  - destruct (decide (call_id < length table)); [|lia].
    rewrite IH by (rewrite length_insert; lia).
    f_equal. rewrite (take_S_r _ _ HLML_SUCCESS).
    + rewrite take_insert_ge by lia. by rewrite <- app_assoc.
    + by apply list_lookup_insert_eq.
Qed.

Lemma reset_loop_all (table : list hlml_return_t) :
  length table = N.to_nat FAKE_CALL_IDENTITY_MAX →
  reset_loop table 0 (N.to_nat FAKE_CALL_IDENTITY_MAX)
  = Some (replicate (N.to_nat FAKE_CALL_IDENTITY_MAX) HLML_SUCCESS).
Proof. intros Hlen. rewrite reset_loop_spec by lia. by rewrite take_0. Qed.

(** ** Well-formedness is an invariant *)

Lemma wf_initial_state : wf_state initial_state.
Proof. by apply (bool_decide_unpack _). Qed.

(** C6. [reset] is idempotent, and from every state it leaves the device
    count at zero, the initialized flag cleared, every entry of the
    error-injection table at Success and the event queue empty. *)
Theorem reset_idempotent_and_clears (st : state) :
  wf_state st →
  ∃ st1,
    reset st = Returns tt st1
    ∧ reset st1 = Returns tt st1
    ∧ devices_num (main_struct st1) = 0%Z
    ∧ initialized (main_struct st1) = false
    ∧ length (func_ret (flow_control st1)) = N.to_nat FAKE_CALL_IDENTITY_MAX
    ∧ (∀ call_id : call_identity_t,
         (call_id < FAKE_CALL_IDENTITY_MAX)%N →
         func_ret (flow_control st1) !! N.to_nat call_id = Some HLML_SUCCESS)
    ∧ events_num (flow_control st1) = 0%Z.
Proof.
  intros (_ & _ & _ & Hret & _). unfold reset. cbv zeta.
  change (func_ret (set_events_num 0 (flow_control st)))
    with (func_ret (flow_control st)).
  rewrite (reset_loop_all _ Hret). eexists. split; [reflexivity|].
  cbn [flow_control main_struct func_ret set_flow_control set_main_struct
       set_func_ret set_events_num set_devices_num set_initialized
       devices_num initialized events_num events devices_info heap stdout].
  rewrite reset_loop_all by apply length_replicate.
  repeat split.
  intros call_id Hlt. apply lookup_replicate_2. lia.
Qed.

(** C9. [set_error] asserts that the call identity is one of the enumerated
    ones: outside them the process aborts; inside them the call returns and
    has overwritten the table entry of that one operation and nothing else. *)
Theorem set_error_overwrites_one_entry
    (call_id : call_identity_t) (errCode : hlml_return_t) (st : state) :
  wf_state st →
  ((call_id < FAKE_CALL_IDENTITY_MAX)%N →
     ∃ st',
       set_error call_id errCode st = Returns tt st'
       ∧ func_ret (flow_control st') !! N.to_nat call_id = Some errCode
       ∧ (∀ other : call_identity_t,
            other ≠ call_id →
            func_ret (flow_control st') !! N.to_nat other
            = func_ret (flow_control st) !! N.to_nat other)
       ∧ length (func_ret (flow_control st')) = length (func_ret (flow_control st))
       ∧ events (flow_control st') = events (flow_control st)
       ∧ events_num (flow_control st') = events_num (flow_control st)
       ∧ main_struct st' = main_struct st
       ∧ heap st' = heap st
       ∧ stdout st' = stdout st)
  ∧ (¬ (call_id < FAKE_CALL_IDENTITY_MAX)%N → set_error call_id errCode st = Aborts).
Proof.
  intros (_ & _ & _ & Hret & _). unfold set_error. split.
  - intros Hlt. destruct (decide (call_id < FAKE_CALL_IDENTITY_MAX)%N); [|done].
    destruct (decide (N.to_nat call_id < length (func_ret (flow_control st)))); [|lia].
    eexists. split; [reflexivity|]. simpl. repeat split.
    + by apply list_lookup_insert_eq.
    + intros other Hne. apply list_lookup_insert_ne. lia.
    + apply length_insert.
  - intros Hge. by destruct (decide (call_id < FAKE_CALL_IDENTITY_MAX)%N).
Qed.

(** C10. [hlml_device_get_count] does not look at the initialized flag: with
    no forced status and a non-NULL output pointer it returns Success and
    stores the device count, whatever the flag; with no forced status it never
    returns Uninitialized. The two lookups do return Uninitialized when the
    flag is clear. *)
Theorem hlml_device_get_count_ignores_initialized (st : state) :
  wf_state st →
  no_fake_error FAKE_DEVICE_GET_COUNT st →
  (∀ old : Z,
     hlml_device_get_count (Some old) st
     = Returns (HLML_SUCCESS, Some (devices_num (main_struct st)))
         (log_call "hlml_device_get_count" st))
  ∧ (∀ (device_count : option Z) r st',
       hlml_device_get_count device_count st = Returns r st' →
       r.1 ≠ HLML_ERROR_UNINITIALIZED)
  ∧ (initialized (main_struct st) = false →
     (∀ pci_addr' device',
        no_fake_error FAKE_DEVICE_GET_HANDLE_BY_PCI_BUS_ID st →
        hlml_device_get_handle_by_pci_bus_id pci_addr' device' st
        = Returns (HLML_ERROR_UNINITIALIZED, device')
            (log_call "hlml_device_get_handle_by_pci_bus_id" st))
     ∧ (∀ index' device',
          no_fake_error FAKE_DEVICE_GET_HANDLE_BY_INDEX st →
          hlml_device_get_handle_by_index index' device' st
          = Returns (HLML_ERROR_UNINITIALIZED, device')
              (log_call "hlml_device_get_handle_by_index" st))).
Proof.
  intros (_ & Hnum & _) Hno. unfold DEVICES_MAX in Hnum. split_and!.
  - intros old. unfold hlml_device_get_count.
    rewrite RETURN_IF_FAKE_ERROR_none by done. simpl.
    rewrite to_uint_small; [done|lia].
  - intros device_count r st'. unfold hlml_device_get_count.
    rewrite RETURN_IF_FAKE_ERROR_none by done.
    destruct device_count; intros [= <- _]; done.
  - intros Huninit. split.
    + intros pci_addr' device' Hno'. unfold hlml_device_get_handle_by_pci_bus_id.
      rewrite RETURN_IF_FAKE_ERROR_none by done. simpl. by rewrite Huninit.
    + intros index' device' Hno'. unfold hlml_device_get_handle_by_index.
      rewrite RETURN_IF_FAKE_ERROR_none by done. simpl. by rewrite Huninit.
Qed.

(** ** The event queue stays within its array *)

Lemma wait_loop_found_positive (f : flow_control_t) (devices : list device_info_t)
    (slots : list hlml_device_events) (todo i : nat) (found : nat * nat) :
  wait_loop f devices slots i todo = Some (Some found) → (0 < events_num f)%Z.
Proof.
  revert i. induction todo as [|todo IH]; intros i; simpl; [done|].
  repeat case_match; try done; eauto.
Qed.

Ltac unfold_calls :=
  unfold status_only, add_device, reset, add_critical_event, reset_events, set_error,
    hlml_init, hlml_init_with_flags, hlml_shutdown, hlml_device_get_count,
    hlml_device_get_handle_by_pci_bus_id, hlml_device_get_handle_by_index,
    hlml_device_get_handle_by_UUID, hlml_device_get_name, hlml_device_get_pci_info,
    hlml_device_get_serial, hlml_device_register_events, hlml_event_set_create,
    hlml_event_set_free, hlml_event_set_wait, hlml_not_supported,
    RETURN_IF_FAKE_ERROR in *.

(** What a call that returns can do to the count of pending events: leave it,
    clear it, add one below the bound, or take one from a non-empty queue. *)
Lemma run_call_events_num (c : call) (st st' : state) (r : option hlml_return_t) :
  run_call c st = Returns r st' →
  events_num (flow_control st') = events_num (flow_control st)
  ∨ events_num (flow_control st') = 0%Z
  ∨ ((0 ≤ events_num (flow_control st) < FAKE_EVENTS_MAX)%Z
     ∧ events_num (flow_control st') = (events_num (flow_control st) + 1)%Z)
  ∨ ((0 < events_num (flow_control st))%Z
     ∧ events_num (flow_control st') = (events_num (flow_control st) - 1)%Z).
Proof.
  intros Hrun. destruct c; simpl in Hrun; unfold_calls; cbv zeta in Hrun;
    repeat case_match; simplify_eq; simpl; auto.
  all: try match goal with
  | H : wait_loop _ _ _ _ _ = Some (Some _) |- _ =>
      apply wait_loop_found_positive in H; simpl in H
  end.
  all: auto.
Qed.

(** C5. The queue of pending events never holds more than 8: at 8 entries
    [add_critical_event] changes neither the entries nor the count, reports
    nothing to its caller and only prints a diagnostic; every operation that
    returns keeps [0 <= events_num <= 8], and so does every run of operations
    that starts within the bound, as the freshly loaded library does. *)
Theorem events_num_never_exceeds_bound (st : state) :
  (0 ≤ events_num (flow_control st) ≤ FAKE_EVENTS_MAX)%Z →
  (∀ serial' : option (list ascii),
     events_num (flow_control st) = FAKE_EVENTS_MAX →
     ∃ st',
       add_critical_event serial' st = Returns tt st'
       ∧ flow_control st' = flow_control st
       ∧ main_struct st' = main_struct st
       ∧ heap st' = heap st
       ∧ stdout st' = stdout st ++ ["ERROR: maximum number of fake evets reached"%string])
  ∧ (∀ (c : call) r st',
       run_call c st = Returns r st' →
       (0 ≤ events_num (flow_control st') ≤ FAKE_EVENTS_MAX)%Z)
  ∧ (∀ (cs : list call) st',
       run_calls cs st = Some st' →
       (0 ≤ events_num (flow_control st') ≤ FAKE_EVENTS_MAX)%Z).
Proof.
  intros Hbound. split; [|split].
  - intros serial' Hfull. unfold add_critical_event. cbv zeta.
    destruct (decide (events_num (flow_control st) = FAKE_EVENTS_MAX)); [|done].
    eexists. split; [reflexivity|]. done.
  - intros c r st' Hrun. apply run_call_events_num in Hrun. lia.
  - intros cs. revert st Hbound. induction cs as [|c cs IH]; intros st Hbound st'; simpl.
    + by intros [= <-].
    + destruct (run_call c st) as [r st1| |] eqn:Hrun; try done.
      apply IH. apply run_call_events_num in Hrun. lia.
Qed.

(** ** Every call keeps the state well formed *)

Lemma register_loop_wf (device_info' : hlml_device_t) (slots slots' : list hlml_device_events)
    (todo i i' : nat) :
  valid_device device_info' →
  Forall (λ s, valid_device (device_info s)) slots →
  register_loop device_info' slots i todo = Some (i', slots') →
  length slots' = length slots ∧ Forall (λ s, valid_device (device_info s)) slots'.
Proof.
  intros Hdev Hall. revert i. induction todo as [|todo IH]; intros i; simpl.
  - by intros [= <- <-].
  - repeat case_match; try done.
    + by intros [= <- <-].
    + eauto.
    + intros [= <- <-]. split; [apply length_insert|]. by apply Forall_insert.
Qed.

Lemma add_device_wf (pci_addr' pci_device_id pci_vendor_id serial' : option (list ascii))
    (index' : Z) (st st' : state) :
  wf_state st →
  add_device pci_addr' pci_device_id pci_vendor_id serial' index' st = Returns tt st' →
  wf_state st'.
Proof.
  intros (Hinfo & Hnum & Hserial & Hret & Hev & Hevnum & Hevserial & Hheap).
  unfold add_device. cbv zeta.
  destruct (decide (0 ≤ devices_num (main_struct st) < DEVICES_MAX)%Z); [|done].
  destruct (devices_info (main_struct st) !! Z.to_nat (devices_num (main_struct st)))
    as [d|] eqn:Hd; [|done].
  destruct pci_device_id; [|done]. destruct pci_vendor_id; [|done].
  intros [= <-]. unfold wf_state; simpl. rewrite length_insert.
  split_and!; try done; try lia.
  apply Forall_insert; [done|]. simpl.
  destruct serial'; [|apply fits_nil].
  apply (fits_snprintf_s []).
Qed.

Lemma reset_wf (st st' : state) : wf_state st → reset st = Returns tt st' → wf_state st'.
Proof.
  intros (Hinfo & Hnum & Hserial & Hret & Hev & Hevnum & Hevserial & Hheap).
  unfold reset. cbv zeta.
  change (func_ret (set_events_num 0 (flow_control st)))
    with (func_ret (flow_control st)).
  rewrite reset_loop_all by done. intros [= <-].
  unfold wf_state; simpl. split_and!; try done; unfold DEVICES_MAX, FAKE_EVENTS_MAX; lia.
Qed.

Lemma add_critical_event_wf (serial' : option (list ascii)) (st st' : state) :
  wf_state st → add_critical_event serial' st = Returns tt st' → wf_state st'.
Proof.
  intros Hwf.
  pose proof Hwf as (Hinfo & Hnum & Hserial & Hret & Hev & Hevnum & Hevserial & Hheap).
  unfold add_critical_event. cbv zeta.
  destruct (decide (events_num (flow_control st) = FAKE_EVENTS_MAX)).
  { intros [= <-]. exact Hwf. }
  destruct (decide (0 ≤ events_num (flow_control st) < FAKE_EVENTS_MAX)%Z); [|done].
  destruct (events (flow_control st) !! Z.to_nat (events_num (flow_control st)))
    as [old|] eqn:Hold; [|done].
  intros [= <-]. unfold wf_state; simpl. rewrite length_insert.
  split_and!; try done; try lia.
  apply Forall_insert; [done|].
  destruct serial'; [|apply fits_nil].
  apply (fits_snprintf_s []).
Qed.

Lemma hlml_device_register_events_wf (device' : hlml_device_t) (event_types : Z)
    (set' : hlml_event_set_t) (st st' : state) (r : hlml_return_t) :
  wf_state st → valid_device device' →
  hlml_device_register_events device' event_types set' st = Returns r st' →
  wf_state st'.
Proof.
  intros Hwf Hvalid.
  pose proof Hwf as (Hinfo & Hnum & Hserial & Hret & Hev & Hevnum & Hevserial & Hheap).
  unfold hlml_device_register_events, RETURN_IF_FAKE_ERROR. cbv zeta.
  destruct (func_ret _ !! _) as [forced|]; [|done].
  destruct (decide (forced ≠ HLML_SUCCESS)); [by intros [= _ <-]|].
  destruct set' as [l|]; [|done]. cbn [heap log_call printf].
  destruct (heap st !! l) as [es|] eqn:Hes; [|done].
  destruct (register_loop device' _ _ _) as [[i slots]|] eqn:Hloop; [|done].
  pose proof (Hheap _ _ Hes) as [Hlen Hslots].
  apply register_loop_wf in Hloop as [Hlen' Hslots']; [|done..].
  assert (wf_state (set_heap (<[l:={| dev_events := slots |}]> (heap st))
                      (log_call "hlml_device_register_events" st))) as Hwf'.
  { unfold wf_state; simpl. split_and!; try done; try lia.
    apply map_Forall_insert_2; [|done]. split; simpl; [congruence|done]. }
  destruct (decide (Z.of_nat i = DEVICES_MAX)); by intros [= _ <-].
Qed.

Lemma hlml_event_set_wait_wf (set' : hlml_event_set_t) (data : option hlml_event_data)
    (timeoutms : Z) (st st' : state) (r : hlml_return_t * option hlml_event_data) :
  wf_state st → hlml_event_set_wait set' data timeoutms st = Returns r st' → wf_state st'.
Proof.
  intros Hwf Hrun.
  pose proof Hwf as (Hinfo & Hnum & Hserial & Hret & Hev & Hevnum & Hevserial & Hheap).
  unfold hlml_event_set_wait, RETURN_IF_FAKE_ERROR in Hrun. cbv zeta in Hrun.
  repeat case_match; simplify_eq; try exact Hwf.
  all: match goal with H : wait_loop _ _ _ _ _ = Some (Some _) |- _ =>
         apply wait_loop_found_positive in H; simpl in H end.
  all: unfold wf_state; simpl; split_and!; try done; try lia.
Qed.

Lemma run_call_wf (c : call) (st st' : state) (r : option hlml_return_t) :
  wf_state st → valid_call c → run_call c st = Returns r st' → wf_state st'.
Proof.
  intros Hwf Hvalid Hrun.
  pose proof Hwf as (Hinfo & Hnum & Hserial & Hret & Hev & Hevnum & Hevserial & Hheap).
  destruct c; simpl in Hrun, Hvalid.
  1: { destruct (add_device _ _ _ _ _ _) as [[] st1| |] eqn:Hop; simplify_eq/=.
       by eapply add_device_wf. }
  1: { destruct (reset st) as [[] st1| |] eqn:Hop; simplify_eq/=. by eapply reset_wf. }
  1: { destruct (add_critical_event _ _) as [[] st1| |] eqn:Hop; simplify_eq/=.
       by eapply add_critical_event_wf. }
  13: { destruct (hlml_device_register_events _ _ _ _) as [r1 st1| |] eqn:Hop;
          simplify_eq/=. by eapply hlml_device_register_events_wf. }
  15: { destruct (hlml_event_set_wait _ _ _ _) as [r1 st1| |] eqn:Hop;
          simplify_eq/=. by eapply hlml_event_set_wait_wf. }
  all: unfold_calls; cbv zeta in Hrun; repeat case_match; simplify_eq; try exact Hwf.
  - (* reset_events *)
    unfold wf_state; simpl. split_and!; try done; unfold FAKE_EVENTS_MAX; lia.
  - (* set_error *)
    unfold wf_state; simpl. rewrite length_insert. split_and!; try done; try lia.
  - (* hlml_event_set_create *)
    unfold wf_state; simpl. split_and!; try done; try lia.
    apply map_Forall_insert_2; [|done]. by apply (bool_decide_unpack _).
  - (* hlml_event_set_free *)
    unfold wf_state; simpl. split_and!; try done; try lia.
    by apply map_Forall_delete.
Qed.

Lemma run_calls_wf (cs : list call) (st st' : state) :
  wf_state st → Forall valid_call cs → run_calls cs st = Some st' → wf_state st'.
Proof.
  revert st. induction cs as [|c cs IH]; intros st Hwf Hvalid; simpl.
  - by intros [= <-].
  - apply Forall_cons in Hvalid as [Hc Hcs].
    destruct (run_call c st) as [r st1| |] eqn:Hrun; try done.
    apply IH; [|done]. eapply run_call_wf; eauto.
Qed.

(** ** The two lookups of the registry

    Both loops return the first entry, among the [devices_num] registered
    ones, that passes their test. *)

Lemma pci_bus_id_loop_find (devices : list device_info_t) (pci_addr' : list ascii)
    (todo n : nat) :
  n + todo ≤ length devices →
  pci_bus_id_loop devices pci_addr' n todo
  = Some ((λ found, n + found.1)
          <$> list_find (λ d, strncmp pci_addr' (pci_addr d) PCI_ADDR_LEN ≠ 0%Z)
                (take todo (drop n devices))).
Proof.
  revert n. induction todo as [|todo IH]; intros n Hlen; simpl; [done|].
  destruct (lookup_lt_is_Some_2 devices n) as [d Hd]; [lia|].
  rewrite Hd, (drop_S _ _ _ Hd). simpl.
  destruct (decide (strncmp pci_addr' (pci_addr d) PCI_ADDR_LEN ≠ 0%Z)); simpl.
  - do 3 f_equal. lia.
  - rewrite IH by lia. f_equal.
    destruct (list_find _ _) as [[k d']|]; simpl; [|done]. f_equal. lia.
Qed.

Lemma index_loop_find (devices : list device_info_t) (index' : Z) (todo n : nat) :
  n + todo ≤ length devices →
  index_loop devices index' n todo
  = Some ((λ found, n + found.1)
          <$> list_find (λ d, index' = index d) (take todo (drop n devices))).
Proof.
  revert n. induction todo as [|todo IH]; intros n Hlen; simpl; [done|].
  destruct (lookup_lt_is_Some_2 devices n) as [d Hd]; [lia|].
  rewrite Hd, (drop_S _ _ _ Hd). simpl.
  destruct (decide (index' = index d)); simpl.
  - do 3 f_equal. lia.
  - rewrite IH by lia. f_equal.
    destruct (list_find _ _) as [[k d']|]; simpl; [|done]. f_equal. lia.
Qed.

Lemma registered_devices_bound (st : state) :
  wf_state st →
  0 + Z.to_nat (devices_num (main_struct st)) ≤ length (devices_info (main_struct st)).
Proof. intros (Hinfo & Hnum & _). rewrite Hinfo. unfold DEVICES_MAX in *. lia. Qed.

(** C3. In the initialized state, with non-NULL arguments and no forced
    status, [hlml_device_get_handle_by_pci_bus_id] scans the registered devices
    in insertion order and returns Success with the first one whose stored
    address does not compare equal to the query under [strncmp]; it returns
    NotFound exactly when every registered device compares equal, as in an
    empty registry. The comparison is equality of the first [PCI_ADDR_LEN]
    bytes of the two strings. *)
Theorem hlml_device_get_handle_by_pci_bus_id_inverted
    (st : state) (addr : list ascii) (old : hlml_device_t) :
  wf_state st →
  initialized (main_struct st) = true →
  no_fake_error FAKE_DEVICE_GET_HANDLE_BY_PCI_BUS_ID st →
  let differs (d : device_info_t) := strncmp addr (pci_addr d) PCI_ADDR_LEN ≠ 0%Z in
  let st' := log_call "hlml_device_get_handle_by_pci_bus_id" st in
  (∀ (n : nat) (d : device_info_t),
     registered_devices st !! n = Some d →
     differs d →
     (∀ j d', j < n → registered_devices st !! j = Some d' → ¬ differs d') →
     hlml_device_get_handle_by_pci_bus_id (Some addr) (Some old) st
     = Returns (HLML_SUCCESS, Some (Some n)) st')
  ∧ (hlml_device_get_handle_by_pci_bus_id (Some addr) (Some old) st
     = Returns (HLML_ERROR_NOT_FOUND, Some old) st'
     ↔ ∀ d, d ∈ registered_devices st → ¬ differs d)
  ∧ (devices_num (main_struct st) = 0%Z →
     hlml_device_get_handle_by_pci_bus_id (Some addr) (Some old) st
     = Returns (HLML_ERROR_NOT_FOUND, Some old) st')
  ∧ (∀ d, ¬ differs d
          ↔ take PCI_ADDR_LEN (c_str addr) = take PCI_ADDR_LEN (c_str (pci_addr d))).
Proof.
  intros Hwf Hinit Hno differs st'.
  assert (hlml_device_get_handle_by_pci_bus_id (Some addr) (Some old) st
          = match list_find differs (registered_devices st) with
            | Some found => Returns (HLML_SUCCESS, Some (Some found.1)) st'
            | None => Returns (HLML_ERROR_NOT_FOUND, Some old) st'
            end) as Heq.
  { unfold hlml_device_get_handle_by_pci_bus_id. cbv zeta.
    rewrite RETURN_IF_FAKE_ERROR_none by done.
    change (main_struct (log_call _ st)) with (main_struct st). rewrite Hinit.
    cbn [negb]. rewrite pci_bus_id_loop_find by by apply registered_devices_bound.
    rewrite drop_0. unfold registered_devices, differs.
    by destruct (list_find _ _) as [[k d']|]. }
  split_and!.
  - intros n d Hn Hd Hfirst. rewrite Heq.
    assert (list_find differs (registered_devices st) = Some (n, d)) as ->; [|done].
    apply list_find_Some. eauto.
  - rewrite Heq. destruct (list_find _ _) as [[k d']|] eqn:Hfind.
    + split; [done|]. intros Hall. apply list_find_Some in Hfind as (Hk & Hd' & _).
      exfalso. eapply Hall; [|done]. by eapply list_elem_of_lookup_2.
    + split; [|done]. intros _. apply list_find_None in Hfind.
      intros d Hd. by eapply Forall_forall in Hfind.
  - intros Hzero. rewrite Heq. unfold registered_devices. by rewrite Hzero.
  - intros d. unfold differs. rewrite <- strncmp_zero.
    destruct (decide (strncmp addr (pci_addr d) PCI_ADDR_LEN = 0%Z)); split; tauto.
Qed.

(** C7, as amended. After initialization and with no forced status,
    [hlml_device_get_handle_by_index] reports InvalidArgument for a NULL
    output pointer and for every index from the device count up to [INT_MAX];
    for an index below the device count it returns the first registered
    device, in insertion order, whose [index] field equals the argument, and
    NotFound when there is none. So it returns a registered device [D] for
    [D.index] when that index is below the device count and no earlier device
    has it. *)
Theorem hlml_device_get_handle_by_index_first_match
    (st : state) (index' : Z) (old : hlml_device_t) :
  wf_state st →
  initialized (main_struct st) = true →
  no_fake_error FAKE_DEVICE_GET_HANDLE_BY_INDEX st →
  (0 ≤ index' < 2 ^ 31)%Z →
  let st' := log_call "hlml_device_get_handle_by_index" st in
  hlml_device_get_handle_by_index index' None st
  = Returns (HLML_ERROR_INVALID_ARGUMENT, None) st'
  ∧ ((devices_num (main_struct st) ≤ index')%Z →
     hlml_device_get_handle_by_index index' (Some old) st
     = Returns (HLML_ERROR_INVALID_ARGUMENT, Some old) st')
  ∧ (∀ (n : nat) (d : device_info_t),
       (index' < devices_num (main_struct st))%Z →
       registered_devices st !! n = Some d →
       index d = index' →
       (∀ j d', j < n → registered_devices st !! j = Some d' → index d' ≠ index') →
       hlml_device_get_handle_by_index index' (Some old) st
       = Returns (HLML_SUCCESS, Some (Some n)) st')
  ∧ ((index' < devices_num (main_struct st))%Z →
     (∀ d, d ∈ registered_devices st → index d ≠ index') →
     hlml_device_get_handle_by_index index' (Some old) st
     = Returns (HLML_ERROR_NOT_FOUND, Some old) st').
Proof.
  intros Hwf Hinit Hno Hrange st'.
  assert (∀ device',
    hlml_device_get_handle_by_index index' device' st
    = match device' with
      | None => Returns (HLML_ERROR_INVALID_ARGUMENT, device') st'
      | Some _ =>
          if decide (devices_num (main_struct st) ≤ index')%Z
          then Returns (HLML_ERROR_INVALID_ARGUMENT, device') st'
          else
            match list_find (λ d, index' = index d) (registered_devices st) with
            | Some found => Returns (HLML_SUCCESS, Some (Some found.1)) st'
            | None => Returns (HLML_ERROR_NOT_FOUND, device') st'
            end
      end) as Heq.
  { intros device'. unfold hlml_device_get_handle_by_index. cbv zeta.
    rewrite RETURN_IF_FAKE_ERROR_none by done.
    change (main_struct (log_call _ st)) with (main_struct st). rewrite Hinit.
    cbn [negb]. destruct device'; [|done].
    rewrite (to_int_small index') by done.
    destruct (decide (_ ≤ _)%Z); [done|].
    rewrite index_loop_find by by apply registered_devices_bound.
    rewrite drop_0. unfold registered_devices.
    by destruct (list_find _ _) as [[k d']|]. }
  split_and!.
  - by rewrite Heq.
  - intros Hge. rewrite Heq. by rewrite decide_True.
  - intros n d Hlt Hn Hd Hfirst. rewrite Heq. rewrite decide_False by lia.
    assert (list_find (λ d, index' = index d) (registered_devices st) = Some (n, d))
      as ->; [|done].
    apply list_find_Some. split_and!; [done|done|].
    intros j d' Hj Hjn Heq'. by eapply Hfirst.
  - intros Hlt Hnone. rewrite Heq. rewrite decide_False by lia.
    destruct (list_find _ _) as [[k d']|] eqn:Hfind; [|done].
    apply list_find_Some in Hfind as (Hk & Hd' & _).
    exfalso. eapply Hnone; [|done]. by eapply list_elem_of_lookup_2.
Qed.

(** ** Registration into an event set *)

Lemma register_loop_lookup_lt (device_info' : hlml_device_t)
    (slots slots' : list hlml_device_events) (todo i i' : nat) :
  register_loop device_info' slots i todo = Some (i', slots') →
  ∀ j, j < i → slots' !! j = slots !! j.
Proof.
  revert i. induction todo as [|todo IH]; intros i; simpl.
  - by intros [= <- <-].
  - destruct (slots !! i) as [s|] eqn:Hs; [|done].
    destruct (device_info s) as [p|].
    + destruct (decide (Some p = device_info')).
      * by intros [= <- <-].
      * intros Hloop j Hj. eapply IH; [done|lia].
    + intros [= <- <-] j Hj. apply list_lookup_insert_ne. lia.
Qed.

(** A scan that stopped before the end of the array stops at the same slot,
    and changes nothing, when it is run again on its own result. *)
Lemma register_loop_again (device_info' : hlml_device_t)
    (slots slots' : list hlml_device_events) (todo i i' : nat) :
  register_loop device_info' slots i todo = Some (i', slots') →
  i' < i + todo →
  register_loop device_info' slots' i todo = Some (i', slots').
Proof.
  revert i. induction todo as [|todo IH]; intros i; simpl.
  - intros [= <- <-]. lia.
  - destruct (slots !! i) as [s|] eqn:Hs; [|done].
    destruct (device_info s) as [p|] eqn:Hp.
    + destruct (decide (Some p = device_info')) as [Heq|Hne].
      * intros [= <- <-] _. rewrite Hs, Hp. by rewrite decide_True.
      * intros Hloop Hlt.
        rewrite (register_loop_lookup_lt _ _ _ _ _ _ Hloop i) by lia.
        rewrite Hs, Hp. rewrite decide_False by done. apply IH; [done|lia].
    + intros [= <- <-] _.
      rewrite list_lookup_insert_eq by (by eapply lookup_lt_Some). simpl.
      destruct device_info' as [p|].
      * by rewrite decide_True.
      * by rewrite list_insert_insert_eq.
Qed.

Lemma register_loop_found (device_info' : hlml_device_t)
    (slots slots' : list hlml_device_events) (todo i i' : nat) :
  register_loop device_info' slots i todo = Some (i', slots') →
  i' = i + todo ∨ (i' < i + todo ∧ slots' !! i' = Some {| device_info := device_info' |}).
Proof.
  revert i. induction todo as [|todo IH]; intros i; simpl.
  - intros [= <- <-]. left. lia.
  - destruct (slots !! i) as [[s]|] eqn:Hs; [|done]. simpl.
    destruct s as [p|].
    + destruct (decide (Some p = device_info')) as [<-|Hne].
      * intros [= <- <-]. right. split; [lia|done].
      * intros Hloop. apply IH in Hloop as [->|[Hlt Hslot]]; [left; lia|right].
        split; [lia|done].
    + intros [= <- <-]. right. split; [lia|].
      apply list_lookup_insert_eq. by eapply lookup_lt_Some.
Qed.

(** A scan over slots that all hold other devices runs to the end of the
    array and changes nothing. *)
Lemma register_loop_full (device_info' : hlml_device_t)
    (slots : list hlml_device_events) (todo i : nat) :
  i + todo ≤ length slots →
  (∀ j s, slots !! j = Some s → device_info s ≠ None ∧ device_info s ≠ device_info') →
  register_loop device_info' slots i todo = Some (i + todo, slots).
Proof.
  intros Hlen Hall. revert i Hlen. induction todo as [|todo IH]; intros i Hlen; simpl.
  - do 2 f_equal. lia.
  - destruct (lookup_lt_is_Some_2 slots i) as [s Hs]; [lia|].
    rewrite Hs. destruct (Hall _ _ Hs) as [Hnull Hother].
    destruct (device_info s) as [p|]; [|done].
    rewrite decide_False by done. rewrite IH by lia. do 2 f_equal. lia.
Qed.

(** A device that is among the registered ones is found by the scan, which
    changes nothing. *)
Lemma register_loop_registered (p : nat) (slots : list hlml_device_events) (todo i : nat) :
  i + todo = length slots →
  p ∈ registered (drop i slots) →
  ∃ i', i' < i + todo ∧ register_loop (Some p) slots i todo = Some (i', slots).
Proof.
  revert i. induction todo as [|todo IH]; intros i Hlen; simpl.
  - rewrite drop_ge by lia. simpl. by intros ?%elem_of_nil.
  - destruct (lookup_lt_is_Some_2 slots i) as [s Hs]; [lia|].
    rewrite Hs, (drop_S _ _ _ Hs). simpl.
    destruct (device_info s) as [q|]; [|by intros ?%elem_of_nil].
    destruct (decide (Some q = Some p)) as [Heq|Hne].
    + intros _. exists i. split; [lia|done].
    + intros [->|Hin]%elem_of_cons; [done|].
      destruct (IH (S i)) as (i' & Hlt & Hloop); [lia|done|].
      exists i'. split; [lia|done].
Qed.

(** C4. Registering a device into an event set is idempotent: when a call of
    [hlml_device_register_events] has returned Success, the same call again
    returns Success and leaves every event set, and so every slot, as the
    first call left it; more generally, registering a device that is already
    among the registered ones of the event set returns Success and changes no
    slot. When all 8 slots of the event set hold other devices the call
    returns InvalidArgument and leaves the event set as it was. *)
Theorem hlml_device_register_events_idempotent
    (device' : hlml_device_t) (event_types : Z) (set' : hlml_event_set_t) (st : state) :
  wf_state st →
  (∀ st1,
     hlml_device_register_events device' event_types set' st = Returns HLML_SUCCESS st1 →
     ∃ st2,
       hlml_device_register_events device' event_types set' st1 = Returns HLML_SUCCESS st2
       ∧ heap st2 = heap st1
       ∧ main_struct st2 = main_struct st1
       ∧ flow_control st2 = flow_control st1)
  ∧ (∀ (l p : nat) (es : hlml_event_set),
       set' = Some l →
       device' = Some p →
       heap st !! l = Some es →
       no_fake_error FAKE_DEVICE_REGISTER_EVENTS st →
       p ∈ registered (dev_events es) →
       ∃ st1,
         hlml_device_register_events device' event_types set' st
         = Returns HLML_SUCCESS st1
         ∧ heap st1 = heap st
         ∧ main_struct st1 = main_struct st
         ∧ flow_control st1 = flow_control st)
  ∧ (∀ (l : nat) (es : hlml_event_set),
       set' = Some l →
       heap st !! l = Some es →
       no_fake_error FAKE_DEVICE_REGISTER_EVENTS st →
       (∀ i s, dev_events es !! i = Some s →
               device_info s ≠ None ∧ device_info s ≠ device') →
       ∃ st1,
         hlml_device_register_events device' event_types set' st
         = Returns HLML_ERROR_INVALID_ARGUMENT st1
         ∧ heap st1 = heap st
         ∧ main_struct st1 = main_struct st
         ∧ flow_control st1 = flow_control st).
Proof.
  intros Hwf. split_and!.
  - intros st1. unfold hlml_device_register_events, RETURN_IF_FAKE_ERROR. cbv zeta.
    change (flow_control (log_call _ ?s)) with (flow_control s).
    destruct (func_ret (flow_control st) !! _) as [forced|] eqn:Hforced; [|done].
    destruct (decide (forced ≠ HLML_SUCCESS)) as [Hne|Heq]; [by intros [= -> _]|].
    destruct set' as [l|]; [|done].
    change (heap (log_call _ ?s)) with (heap s).
    destruct (heap st !! l) as [es|] eqn:Hes; [|done].
    destruct (register_loop device' (dev_events es) 0 (Z.to_nat DEVICES_MAX))
      as [[i slots]|] eqn:Hloop; [|done].
    destruct (decide (Z.of_nat i = DEVICES_MAX)) as [Hfull|Hfree]; [done|].
    intros [= <-].
    change (flow_control (set_heap _ ?s)) with (flow_control s).
    change (flow_control (log_call _ ?s)) with (flow_control s).
    rewrite Hforced. rewrite decide_False by done.
    cbn [heap set_heap log_call printf].
    rewrite lookup_insert_eq. cbn [dev_events].
    assert (i < 0 + Z.to_nat DEVICES_MAX) as Hlt.
    { destruct (register_loop_found _ _ _ _ _ _ Hloop) as [->|[Hlt _]]; [|done].
      unfold DEVICES_MAX in Hfree. simpl in Hfree. lia. }
    rewrite (register_loop_again _ _ _ _ _ _ Hloop) by done.
    rewrite decide_False by done.
    eexists. split; [reflexivity|]. cbn [heap set_heap log_call printf].
    split_and!; [|done..]. by rewrite insert_insert_eq.
  - intros l p es -> -> Hes Hno Hin.
    unfold hlml_device_register_events. cbv zeta.
    rewrite RETURN_IF_FAKE_ERROR_none by done.
    change (heap (log_call _ ?s)) with (heap s). rewrite Hes.
    destruct Hwf as (_ & _ & _ & _ & _ & _ & _ & Hheap).
    destruct (Hheap _ _ Hes) as [Hlen _].
    destruct (register_loop_registered p (dev_events es) (Z.to_nat DEVICES_MAX) 0)
      as (i & Hlt & Hloop); [lia|by rewrite drop_0|].
    rewrite Hloop. rewrite decide_False by (unfold DEVICES_MAX in *; lia).
    eexists. split; [reflexivity|]. cbn [heap set_heap log_call printf].
    split_and!; [|done..]. destruct es. by apply insert_id.
  - intros l es -> Hes Hno Hfull.
    unfold hlml_device_register_events. cbv zeta.
    rewrite RETURN_IF_FAKE_ERROR_none by done.
    change (heap (log_call _ ?s)) with (heap s). rewrite Hes.
    destruct Hwf as (_ & _ & _ & _ & _ & _ & _ & Hheap).
    destruct (Hheap _ _ Hes) as [Hlen _].
    rewrite (register_loop_full device' (dev_events es) (Z.to_nat DEVICES_MAX) 0)
      by (done || lia).
    rewrite decide_True by (unfold DEVICES_MAX; lia).
    eexists. split; [reflexivity|]. cbn [heap set_heap log_call printf].
    split_and!; [|done..]. destruct es. by apply insert_id.
Qed.

(** ** Waiting for an event *)

Lemma tail_event_Some (f : flow_control_t) (ev : list ascii) :
  tail_event f = Some ev →
  (0 < events_num f)%Z ∧ events f !! Z.to_nat (events_num f - 1) = Some ev.
Proof. unfold tail_event. by destruct (decide (0 < events_num f)%Z). Qed.

Lemma tail_event_None (st : state) :
  wf_state st → tail_event (flow_control st) = None →
  events_num (flow_control st) = 0%Z.
Proof.
  intros (_ & _ & _ & _ & Hev & Hevnum & _). unfold tail_event.
  destruct (decide (0 < events_num (flow_control st))%Z) as [Hpos|]; [|lia].
  intros Hnone. apply lookup_ge_None in Hnone.
  rewrite Hev in Hnone. unfold FAKE_EVENTS_MAX in *. lia.
Qed.

Lemma wait_loop_no_event (f : flow_control_t) (devices : list device_info_t)
    (slots : list hlml_device_events) (todo i : nat) :
  ¬ (0 < events_num f)%Z → i + todo ≤ length slots →
  wait_loop f devices slots i todo = Some None.
Proof.
  intros Hempty. revert i. induction todo as [|todo IH]; intros i Hlen; simpl; [done|].
  destruct (lookup_lt_is_Some_2 slots i) as [s Hs]; [lia|]. rewrite Hs.
  destruct (device_info s); [|done].
  rewrite decide_False by done. apply IH. lia.
Qed.

(** With a pending event [ev], the scan returns the first registered device
    of the event set whose serial is [ev]. *)
Lemma wait_loop_find (f : flow_control_t) (devices : list device_info_t)
    (slots : list hlml_device_events) (ev : list ascii) (todo i : nat) :
  tail_event f = Some ev →
  fits SERIAL_MAX ev →
  Forall (λ d, fits SERIAL_MAX (serial d)) devices →
  length devices = Z.to_nat DEVICES_MAX →
  Forall (λ s, valid_device (device_info s)) slots →
  i + todo = length slots →
  wait_loop f devices slots i todo
  = Some ((λ found, (i + found.1, found.2))
          <$> list_find (λ p, serial <$> (devices !! p) = Some ev)
                (registered (drop i slots))).
Proof.
  intros Htail Hev Hserial Hdevices Hvalid.
  apply tail_event_Some in Htail as [Hpos Hlast].
  revert i. induction todo as [|todo IH]; intros i Hlen; simpl.
  - rewrite drop_ge by lia. done.
  - destruct (lookup_lt_is_Some_2 slots i) as [s Hs]; [lia|].
    rewrite Hs, (drop_S _ _ _ Hs). simpl.
    destruct (device_info s) as [p|] eqn:Hp; [|done].
    rewrite decide_True by done. rewrite Hlast.
    assert (valid_device (Some p)) as Hvp.
    { rewrite <- Hp. by eapply (Forall_lookup_1 _ _ _ _ Hvalid). }
    destruct (lookup_lt_is_Some_2 devices p) as [d Hd].
    { simpl in Hvp. rewrite Hdevices. lia. }
    rewrite Hd. simpl. rewrite Hd. simpl.
    assert (fits SERIAL_MAX (serial d)) as Hfd
      by by eapply (Forall_lookup_1 _ _ _ _ Hserial).
    destruct (decide (strcmp ev (serial d) = 0%Z)) as [Hz|Hnz].
    + apply (strcmp_zero_fits _ _ _ Hev Hfd) in Hz as ->.
      rewrite decide_True by done. simpl. do 3 f_equal. lia.
    + rewrite decide_False.
      2: { intros [= Heq]. apply Hnz. by apply (strcmp_zero_fits _ _ _ Hev Hfd). }
      rewrite IH by lia. f_equal.
      destruct (list_find _ _) as [[k q]|]; simpl; [|done]. do 2 f_equal. lia.
Qed.

(** The result of [hlml_event_set_wait] in terms of the most recent event
    and of the registered devices of the event set. *)
Lemma hlml_event_set_wait_eq (st : state) (l : nat) (es : hlml_event_set)
    (old : hlml_event_data) (timeoutms : Z) :
  HLML_EVENT_CRITICAL_ERR ≠ 0%Z →
  wf_state st →
  initialized (main_struct st) = true →
  no_fake_error FAKE_EVENT_SET_WAIT st →
  heap st !! l = Some es →
  let st' := log_call "hlml_event_set_wait" st in
  hlml_event_set_wait (Some l) (Some old) timeoutms st
  = match tail_event (flow_control st) with
    | Some ev =>
        match list_find (λ p, serial_at st p = Some ev) (registered (dev_events es)) with
        | Some found =>
            Returns
              (HLML_SUCCESS,
               Some {| device := Some found.2; event_type := HLML_EVENT_CRITICAL_ERR |})
              (set_flow_control
                 (set_events_num (events_num (flow_control st) - 1) (flow_control st))
                 (printf ("fake HLML: event for device "
                          ++ string_of_list_ascii (c_str ev) ++ " found") st'))
        | None => Returns (HLML_ERROR_TIMEOUT, Some old) st'
        end
    | None => Returns (HLML_ERROR_TIMEOUT, Some old) st'
    end.
Proof.
  intros Hcrit Hwf Hinit Hno Hes st'.
  pose proof Hwf as (Hinfo & Hnum & Hserial & Hret & Hev & Hevnum & Hevserial & Hheap).
  destruct (Hheap _ _ Hes) as [Hlen Hslots].
  unfold hlml_event_set_wait. cbv zeta.
  rewrite RETURN_IF_FAKE_ERROR_none by done.
  change (main_struct (log_call _ st)) with (main_struct st). rewrite Hinit.
  cbn [negb]. change (heap (log_call _ st)) with (heap st). rewrite Hes.
  change (flow_control (log_call _ st)) with (flow_control st).
  destruct (tail_event (flow_control st)) as [ev|] eqn:Htail.
  - assert (fits SERIAL_MAX ev) as Hfits.
    { apply tail_event_Some in Htail as [_ Hlast].
      by eapply (Forall_lookup_1 _ _ _ _ Hevserial). }
    rewrite (wait_loop_find _ _ _ ev) by (done || lia).
    rewrite drop_0. unfold serial_at.
    destruct (list_find _ _) as [[k p]|] eqn:Hfind; simpl; [|done].
    apply list_find_Some in Hfind as (_ & Hp & _).
    rewrite Hp. simpl. rewrite decide_True by done. done.
  - apply (tail_event_None _ Hwf) in Htail.
    rewrite wait_loop_no_event; [done|lia|lia].
Qed.

(** C1. In an initialized state, with a live event set, a non-NULL output
    pointer and no forced status, [hlml_event_set_wait] goes through the
    registered devices of the event set in registration order. For the first
    one whose serial is the serial of the most recently queued event it takes
    that event from the tail of the queue (the count goes down by one, the
    entries stay) and returns Success with a record of that device and the
    critical-error event type. When no registered device has that serial, or
    the queue is empty, it returns Timeout and leaves the queue as it was.
    [timeoutms] has no effect. With devices of serials "S1" and "S2"
    registered in that order and an empty queue, after
    [add_critical_event("S2")] a wait returns the record of the second device
    and empties the queue, and the next wait returns Timeout. *)
Theorem hlml_event_set_wait_delivers_tail_event
    (st : state) (l : nat) (es : hlml_event_set) (old : hlml_event_data) (timeoutms : Z) :
  HLML_EVENT_CRITICAL_ERR ≠ 0%Z →
  wf_state st →
  initialized (main_struct st) = true →
  no_fake_error FAKE_EVENT_SET_WAIT st →
  heap st !! l = Some es →
  let f := flow_control st in
  let regs := registered (dev_events es) in
  (∀ (k p : nat) (ev : list ascii),
     tail_event f = Some ev →
     regs !! k = Some p →
     serial_at st p = Some ev →
     (∀ j q, j < k → regs !! j = Some q → serial_at st q ≠ Some ev) →
     ∃ st',
       hlml_event_set_wait (Some l) (Some old) timeoutms st
       = Returns (HLML_SUCCESS,
                  Some {| device := Some p; event_type := HLML_EVENT_CRITICAL_ERR |}) st'
       ∧ events_num (flow_control st') = (events_num f - 1)%Z
       ∧ events (flow_control st') = events f
       ∧ func_ret (flow_control st') = func_ret f
       ∧ main_struct st' = main_struct st
       ∧ heap st' = heap st)
  ∧ ((∀ p, p ∈ regs → serial_at st p ≠ tail_event f) →
     ∃ st',
       hlml_event_set_wait (Some l) (Some old) timeoutms st
       = Returns (HLML_ERROR_TIMEOUT, Some old) st'
       ∧ flow_control st' = f
       ∧ main_struct st' = main_struct st
       ∧ heap st' = heap st)
  ∧ (events_num f = 0%Z →
     hlml_event_set_wait (Some l) (Some old) timeoutms st
     = Returns (HLML_ERROR_TIMEOUT, Some old) (log_call "hlml_event_set_wait" st))
  ∧ (∀ set' data timeoutms',
       hlml_event_set_wait set' data timeoutms' st
       = hlml_event_set_wait set' data timeoutms st)
  ∧ (∀ a b : nat,
       regs = [a; b] →
       serial_at st a = Some (string_to_chars "S1") →
       serial_at st b = Some (string_to_chars "S2") →
       events_num f = 0%Z →
       ∃ st1 st2,
         add_critical_event (Some (string_to_chars "S2")) st = Returns tt st1
         ∧ hlml_event_set_wait (Some l) (Some old) timeoutms st1
           = Returns (HLML_SUCCESS,
                      Some {| device := Some b; event_type := HLML_EVENT_CRITICAL_ERR |})
               st2
         ∧ events_num (flow_control st2) = 0%Z
         ∧ ∀ old' timeoutms',
             hlml_event_set_wait (Some l) (Some old') timeoutms' st2
             = Returns (HLML_ERROR_TIMEOUT, Some old')
                 (log_call "hlml_event_set_wait" st2)).
Proof.
  intros Hcrit Hwf Hinit Hno Hes f regs.
  pose proof (hlml_event_set_wait_eq st l es old timeoutms Hcrit Hwf Hinit Hno Hes) as Heq.
  cbv zeta in Heq. split_and!.
  - intros k p ev Htail Hk Hp Hfirst. rewrite Heq. fold f. rewrite Htail.
    assert (list_find (λ p, serial_at st p = Some ev) (registered (dev_events es))
            = Some (k, p)) as ->.
    { apply list_find_Some. split_and!; [done|done|]. intros j q Hj Hlt. by eapply Hfirst. }
    eexists. split; [reflexivity|]. done.
  - intros Hnone. rewrite Heq. fold f.
    destruct (tail_event f) as [ev|] eqn:Htail; [|by eexists].
    destruct (list_find _ _) as [[k p]|] eqn:Hfind; [|by eexists].
    apply list_find_Some in Hfind as (Hk & Hp & _).
    exfalso. eapply Hnone; [|done]. by eapply list_elem_of_lookup_2.
  - intros Hzero. rewrite Heq. unfold tail_event. fold f. rewrite Hzero. done.
  - done.
  - intros a b Hregs Ha Hb Hzero.
    pose proof Hwf as (Hinfo & Hnum & Hserial & Hret & Hev & Hevnum & Hevserial & Hheap).
    destruct (lookup_lt_is_Some_2 (events f) 0) as [old_ev Hold_ev].
    { unfold f. rewrite Hev. unfold FAKE_EVENTS_MAX. simpl. lia. }
    assert (∃ st1, add_critical_event (Some (string_to_chars "S2")) st = Returns tt st1
              ∧ main_struct st1 = main_struct st ∧ heap st1 = heap st
              ∧ func_ret (flow_control st1) = func_ret f
              ∧ tail_event (flow_control st1) = Some (string_to_chars "S2")
              ∧ events_num (flow_control st1) = 1%Z) as (st1 & Hadd & Hm1 & Hh1 & Hf1 & Ht1 & Hn1).
    { unfold add_critical_event. cbv zeta. fold f. rewrite Hzero.
      rewrite decide_False by done. rewrite decide_True by done.
      change (Z.to_nat 0) with 0. rewrite Hold_ev.
      eexists. split; [reflexivity|]. split_and!; try done.
      unfold tail_event. simpl. apply list_lookup_insert_eq. by eapply lookup_lt_Some. }
    assert (wf_state st1) as Hwf1 by by eapply add_critical_event_wf.
    exists st1.
    assert (serial_at st1 a = Some (string_to_chars "S1")) as Ha1
      by (unfold serial_at; by rewrite Hm1).
    assert (serial_at st1 b = Some (string_to_chars "S2")) as Hb1
      by (unfold serial_at; by rewrite Hm1).
    pose proof (hlml_event_set_wait_eq st1 l es old timeoutms Hcrit Hwf1) as Heq1.
    cbv zeta in Heq1. rewrite Hm1, Hh1 in Heq1.
    specialize (Heq1 Hinit). unfold no_fake_error in Heq1. rewrite Hf1 in Heq1.
    specialize (Heq1 Hno Hes). rewrite Ht1 in Heq1. fold regs in Heq1.
    rewrite Hregs in Heq1. simpl in Heq1. rewrite Ha1, Hb1 in Heq1.
    rewrite decide_False in Heq1 by done. rewrite decide_True in Heq1 by done.
    simpl in Heq1. eexists. split; [done|]. split; [exact Heq1|].
    split; [simpl; lia|].
    intros old' timeoutms'.
    match goal with |- hlml_event_set_wait _ _ _ ?s = _ => set (st2 := s) end.
    assert (wf_state st2) as Hwf2.
    { by eapply (hlml_event_set_wait_wf (Some l) (Some old) timeoutms st1). }
    pose proof (hlml_event_set_wait_eq st2 l es old' timeoutms' Hcrit Hwf2) as Heq2.
    cbv zeta in Heq2. rewrite Heq2.
    + unfold tail_event. subst st2. simpl. rewrite Hn1. done.
    + subst st2. simpl. by rewrite Hm1.
    + subst st2. unfold no_fake_error. simpl. by rewrite Hf1.
    + subst st2. simpl. by rewrite Hh1.
Qed.

(** ** Reading the serial *)

Lemma hlml_device_get_serial_forced (st : state) (device' : hlml_device_t)
    (b : ascii) (rest : list ascii) (length' : Z) (forced : hlml_return_t) :
  (0 < length')%Z →
  func_ret (flow_control st) !! N.to_nat FAKE_DEVICE_GET_SERIAL = Some forced →
  forced ≠ HLML_SUCCESS →
  hlml_device_get_serial device' (Some (b :: rest)) length' st
  = Returns (forced, Some (NUL :: rest)) (log_call "hlml_device_get_serial" st).
Proof.
  intros Hpos Hforced Hne. unfold hlml_device_get_serial. cbv zeta.
  rewrite decide_True by done.
  change (flow_control (log_call _ st)) with (flow_control st).
  rewrite Hforced. by rewrite decide_True.
Qed.

Lemma hlml_device_get_serial_insufficient (st : state) (n : nat)
    (buf : list ascii) (length' : Z) :
  (0 < length')%Z →
  no_fake_error FAKE_DEVICE_GET_SERIAL st →
  (to_int length' < SERIAL_MAX)%Z →
  hlml_device_get_serial (Some n) (Some buf) length' st
  = Returns (HLML_ERROR_INSUFFICIENT_SIZE, Some buf) (log_call "hlml_device_get_serial" st).
Proof.
  intros Hpos Hno Hlt. unfold hlml_device_get_serial. cbv zeta.
  rewrite decide_True by done.
  change (flow_control (log_call _ st)) with (flow_control st).
  rewrite Hno. rewrite decide_False by (by intros []).
  by rewrite decide_True.
Qed.

Lemma hlml_device_get_serial_copy (st : state) (n : nat) (d : device_info_t)
    (buf : list ascii) (length' : Z) :
  (0 < length')%Z →
  no_fake_error FAKE_DEVICE_GET_SERIAL st →
  (SERIAL_MAX ≤ to_int length')%Z →
  devices_info (main_struct st) !! n = Some d →
  Z.to_nat length' ≤ length buf →
  hlml_device_get_serial (Some n) (Some buf) length' st
  = Returns (HLML_SUCCESS,
             Some (strncpy_bytes (serial d) (Z.to_nat length') ++ drop (Z.to_nat length') buf))
      (log_call "hlml_device_get_serial" st).
Proof.
  intros Hpos Hno Hge Hd Hlen. unfold hlml_device_get_serial. cbv zeta.
  rewrite decide_True by done.
  change (flow_control (log_call _ st)) with (flow_control st).
  rewrite Hno. rewrite decide_False by (by intros []).
  rewrite decide_False by lia.
  change (main_struct (log_call _ st)) with (main_struct st). rewrite Hd.
  unfold strncpy. by rewrite decide_True.
Qed.

(** The cases of [hlml_device_get_serial] with a non-NULL buffer and a
    positive length: a forced status is returned after the buffer has been
    made the empty string; otherwise a NULL device handle gives Success and
    the empty string; otherwise a length that is below 64 when read as an
    [int], that is a length below 64 or one of 2^31 and more, gives
    InsufficientSize and leaves the buffer alone; otherwise the call returns
    Success and the buffer holds the serial of the device. *)
Lemma hlml_device_get_serial_cases (st : state) (device' : hlml_device_t)
    (b : ascii) (rest : list ascii) (length' : Z) :
  wf_state st →
  (0 < length' < 2 ^ 32)%Z →
  let buf := b :: rest in
  let st' := log_call "hlml_device_get_serial" st in
  (∀ forced,
     func_ret (flow_control st) !! N.to_nat FAKE_DEVICE_GET_SERIAL = Some forced →
     forced ≠ HLML_SUCCESS →
     hlml_device_get_serial device' (Some buf) length' st
     = Returns (forced, Some (NUL :: rest)) st'
     ∧ c_str (NUL :: rest) = [])
  ∧ (no_fake_error FAKE_DEVICE_GET_SERIAL st →
     (device' = None →
      hlml_device_get_serial device' (Some buf) length' st
      = Returns (HLML_SUCCESS, Some (NUL :: rest)) st'
      ∧ c_str (NUL :: rest) = [])
     ∧ (∀ n, device' = Some n →
          (length' < SERIAL_MAX ∨ 2 ^ 31 ≤ length')%Z →
          hlml_device_get_serial device' (Some buf) length' st
          = Returns (HLML_ERROR_INSUFFICIENT_SIZE, Some buf) st')
     ∧ (∀ n d, device' = Some n →
          devices_info (main_struct st) !! n = Some d →
          (SERIAL_MAX ≤ length' < 2 ^ 31)%Z →
          Z.to_nat length' ≤ length buf →
          ∃ buf',
            hlml_device_get_serial device' (Some buf) length' st
            = Returns (HLML_SUCCESS, Some buf') st'
            ∧ c_str buf' = serial d
            ∧ length buf' = length buf)).
Proof.
  intros Hwf [Hpos Hmax] buf st'. split.
  - intros forced Hforced Hne. split; [by apply hlml_device_get_serial_forced|].
    reflexivity.
  - intros Hno. split_and!.
    + intros ->. split; [|reflexivity].
      unfold hlml_device_get_serial. cbv zeta. rewrite decide_True by done.
      change (flow_control (log_call _ st)) with (flow_control st).
      rewrite Hno. by rewrite decide_False by (by intros []).
    + intros n -> Hsmall. apply hlml_device_get_serial_insufficient; [done|done|].
      unfold SERIAL_MAX in *. destruct Hsmall as [Hlt|Hge].
      * rewrite to_int_small; lia.
      * rewrite to_int_large; lia.
    + intros n d -> Hd Hrange Hlen.
      rewrite (hlml_device_get_serial_copy st n d buf length'); try done.
      2: { rewrite to_int_small; unfold SERIAL_MAX in *; lia. }
      eexists. split; [reflexivity|].
      destruct Hwf as (_ & _ & Hserial & _).
      split.
      * apply c_str_strncpy_bytes; [by eapply (Forall_lookup_1 _ _ _ _ Hserial)|lia].
      * rewrite length_app, length_drop. unfold strncpy_bytes, strlen.
        rewrite length_app, length_take, length_replicate. lia.
Qed.

(** ** Forced statuses *)

Lemma run_call_keeps_error (op : call_identity_t) (c : call) (st st' : state)
    (r : option hlml_return_t) :
  keeps_error op c →
  run_call c st = Returns r st' →
  func_ret (flow_control st') !! N.to_nat op = func_ret (flow_control st) !! N.to_nat op.
Proof.
  intros Hkeep Hrun. destruct c; simpl in Hrun, Hkeep; try done;
    unfold_calls; cbv zeta in Hrun; repeat case_match; simplify_eq; try done.
  simpl. apply list_lookup_insert_ne. lia.
Qed.

Lemma run_calls_keep_error (op : call_identity_t) (cs : list call) (st st' : state) :
  Forall (keeps_error op) cs →
  run_calls cs st = Some st' →
  func_ret (flow_control st') !! N.to_nat op = func_ret (flow_control st) !! N.to_nat op.
Proof.
  revert st. induction cs as [|c cs IH]; intros st Hkeep; simpl.
  - by intros [= <-].
  - apply Forall_cons in Hkeep as [Hc Hcs].
    destruct (run_call c st) as [r st1| |] eqn:Hrun; try done.
    intros Hrest. rewrite (IH _ Hcs Hrest). by eapply run_call_keeps_error.
Qed.

Lemma run_call_forced (op : call_identity_t) (forced : hlml_return_t) (c : call)
    (st : state) :
  func_ret (flow_control st) !! N.to_nat op = Some forced →
  forced ≠ HLML_SUCCESS →
  call_identity c = Some op →
  checks_table_first c →
  ∃ st', run_call c st = Returns (Some forced) st' ∧ same_library_state st st'.
Proof.
  intros Hforced Hne Hid Hchecks.
  destruct c; simpl in Hid, Hchecks; try done; injection Hid as <-; simpl;
    unfold hlml_init, hlml_init_with_flags, hlml_shutdown, hlml_device_get_count,
      hlml_device_get_handle_by_pci_bus_id, hlml_device_get_handle_by_index,
      hlml_device_get_pci_info, hlml_device_register_events, hlml_event_set_create,
      hlml_event_set_free, hlml_event_set_wait; cbv zeta;
    rewrite (RETURN_IF_FAKE_ERROR_forced _ _ _ _ forced) by done;
    simpl; by eexists.
Qed.

(** C2, as amended. After [set_error(op, S)] with [S] other than Success, and
    whatever calls follow other than [reset] and a [set_error] for [op], the
    table still holds [S] for [op]; every entry point that opens with
    [RETURN_IF_FAKE_ERROR(op)] then returns exactly [S], whatever its
    arguments, and changes nothing but the call log. [hlml_device_get_serial]
    asserts a non-NULL buffer and a positive length before it looks at the
    table, and it makes the buffer the empty string before it returns [S]. *)
Theorem injected_error_short_circuits
    (op : call_identity_t) (forced : hlml_return_t) (st st1 st2 : state) (cs : list call) :
  forced ≠ HLML_SUCCESS →
  set_error op forced st = Returns tt st1 →
  Forall (keeps_error op) cs →
  run_calls cs st1 = Some st2 →
  func_ret (flow_control st2) !! N.to_nat op = Some forced
  ∧ (∀ c : call,
       call_identity c = Some op →
       checks_table_first c →
       ∃ st3, run_call c st2 = Returns (Some forced) st3 ∧ same_library_state st2 st3)
  ∧ (op = FAKE_DEVICE_GET_SERIAL →
     (∀ device' b rest length',
        (0 < length')%Z →
        hlml_device_get_serial device' (Some (b :: rest)) length' st2
        = Returns (forced, Some (NUL :: rest)) (log_call "hlml_device_get_serial" st2))
     ∧ (∀ device' length', hlml_device_get_serial device' None length' st2 = Aborts)
     ∧ (∀ device' serial' length',
          (length' ≤ 0)%Z →
          hlml_device_get_serial device' serial' length' st2 = Aborts)).
Proof.
  intros Hne Hset Hkeep Hrun.
  assert (func_ret (flow_control st2) !! N.to_nat op = Some forced) as Hforced.
  { rewrite (run_calls_keep_error _ _ _ _ Hkeep Hrun).
    unfold set_error in Hset.
    destruct (decide (op < FAKE_CALL_IDENTITY_MAX)%N); [|done].
    destruct (decide (N.to_nat op < length (func_ret (flow_control st)))); [|done].
    injection Hset as <-. simpl. by apply list_lookup_insert_eq. }
  split_and!; [done| |].
  - intros c Hid Hchecks. by eapply run_call_forced.
  - intros ->. split_and!.
    + intros device' b rest length' Hpos. by apply hlml_device_get_serial_forced.
    + done.
    + intros device' serial' length' Hle. unfold hlml_device_get_serial.
      destruct serial'; [|done]. by rewrite decide_False by lia.
Qed.

(** ** Registering devices *)

(** What [add_device] stores and where, when it returns. *)
Lemma add_device_eq (pci_addr' serial' : option (list ascii)) (device_hex vendor_hex : list ascii)
    (index' : Z) (st : state) (d : device_info_t) :
  (0 ≤ devices_num (main_struct st) < DEVICES_MAX)%Z →
  devices_info (main_struct st) !! Z.to_nat (devices_num (main_struct st)) = Some d →
  add_device pci_addr' (Some device_hex) (Some vendor_hex) serial' index' st
  = Returns tt
      (set_main_struct
         (set_devices_num (devices_num (main_struct st) + 1)
            (set_devices_info
               (<[Z.to_nat (devices_num (main_struct st)) :=
                    {| pci_addr :=
                         match pci_addr' with
                         | Some s => snprintf_s (pci_addr d) PCI_ADDR_LEN s
                         | None => []
                         end;
                       device_id := default (device_id d) (sscanf_x device_hex);
                       vendor_id := default (vendor_id d) (sscanf_x vendor_hex);
                       serial := take 63 (c_str (default [] serial'));
                       index := index' |}]>
                  (devices_info (main_struct st)))
               (main_struct st))) st).
Proof.
  intros Hnum Hd. unfold add_device. cbv zeta.
  rewrite decide_True by done. rewrite Hd. by destruct serial'.
Qed.

Lemma add_device_inv (pci_addr' pci_device_id pci_vendor_id serial' : option (list ascii))
    (index' : Z) (st st' : state) :
  add_device pci_addr' pci_device_id pci_vendor_id serial' index' st = Returns tt st' →
  ∃ device_hex vendor_hex d,
    pci_device_id = Some device_hex ∧ pci_vendor_id = Some vendor_hex
    ∧ (0 ≤ devices_num (main_struct st) < DEVICES_MAX)%Z
    ∧ devices_info (main_struct st) !! Z.to_nat (devices_num (main_struct st)) = Some d.
Proof.
  unfold add_device. cbv zeta.
  destruct (decide _) as [Hlt|]; [|done].
  destruct (devices_info _ !! _) as [d|]; [|done].
  destruct pci_device_id; [|done]. destruct pci_vendor_id; [|done]. by eauto 8.
Qed.

(** When [add_device] returns, the new entry is the last registered device
    and nothing else has changed. *)
Lemma add_device_effect
    (pci_addr' pci_device_id pci_vendor_id serial' : option (list ascii))
    (index' : Z) (st st' : state) :
  wf_state st →
  add_device pci_addr' pci_device_id pci_vendor_id serial' index' st = Returns tt st' →
  devices_num (main_struct st') = (devices_num (main_struct st) + 1)%Z
  ∧ (∃ d,
       registered_devices st' = registered_devices st ++ [d]
       ∧ index d = index'
       ∧ serial d = take 63 (c_str (default [] serial')))
  ∧ initialized (main_struct st') = initialized (main_struct st)
  ∧ flow_control st' = flow_control st
  ∧ heap st' = heap st
  ∧ stdout st' = stdout st.
Proof.
  intros (Hinfo & Hnum & _) Hadd. unfold DEVICES_MAX in *.
  destruct (add_device_inv _ _ _ _ _ _ _ Hadd)
    as (device_hex & vendor_hex & d & -> & -> & Hlt & Hd).
  rewrite (add_device_eq _ _ _ _ _ _ d) in Hadd by done. injection Hadd as <-.
  cbn [main_struct flow_control heap stdout set_main_struct set_devices_num
       set_devices_info devices_num devices_info initialized].
  split_and!; try done.
  eexists. split.
  { unfold registered_devices.
    cbn [main_struct set_main_struct set_devices_num set_devices_info devices_num
         devices_info].
    replace (Z.to_nat (devices_num (main_struct st) + 1))
      with (S (Z.to_nat (devices_num (main_struct st)))) by lia.
    erewrite take_S_r.
    2: { apply list_lookup_insert_eq. by eapply lookup_lt_Some. }
    by rewrite take_insert_ge by lia. }
  split; reflexivity.
Qed.

(** X1. [add_device] has no capacity check of its own: in a well-formed state
    it returns exactly when fewer than 8 devices are registered and both id
    strings are non-NULL. When it returns, the device count has grown by one,
    the new entry is the last registered device, with the index it was given
    and its serial cut to 63 characters (empty for a NULL serial), and the
    devices registered before, the flag, the table, the queue and the event
    sets are as they were. *)
Theorem add_device_appends
    (pci_addr' pci_device_id pci_vendor_id serial' : option (list ascii))
    (index' : Z) (st : state) :
  wf_state st →
  ((∃ st', add_device pci_addr' pci_device_id pci_vendor_id serial' index' st
           = Returns tt st')
   ↔ (devices_num (main_struct st) < DEVICES_MAX)%Z
     ∧ is_Some pci_device_id ∧ is_Some pci_vendor_id)
  ∧ (∀ st',
       add_device pci_addr' pci_device_id pci_vendor_id serial' index' st
       = Returns tt st' →
       devices_num (main_struct st') = (devices_num (main_struct st) + 1)%Z
       ∧ (∃ d,
            registered_devices st' = registered_devices st ++ [d]
            ∧ index d = index'
            ∧ serial d = take 63 (c_str (default [] serial')))
       ∧ initialized (main_struct st') = initialized (main_struct st)
       ∧ flow_control st' = flow_control st
       ∧ heap st' = heap st
       ∧ stdout st' = stdout st).
Proof.
  intros Hwf. split; [|intros st'; by apply add_device_effect].
  destruct Hwf as (Hinfo & Hnum & _). unfold DEVICES_MAX in *. split.
  - intros [st' Hadd].
    apply add_device_inv in Hadd as (? & ? & ? & -> & -> & Hlt & _).
    unfold DEVICES_MAX in Hlt. split_and!; [lia|done|done].
  - intros (Hlt & [device_hex ->] & [vendor_hex ->]).
    destruct (lookup_lt_is_Some_2 (devices_info (main_struct st))
                (Z.to_nat (devices_num (main_struct st)))) as [d Hd].
    { rewrite Hinfo. simpl. lia. }
    eexists. apply add_device_eq; [unfold DEVICES_MAX; lia|exact Hd].
Qed.

(** X2. A serial given to [add_device] is read back by
    [hlml_device_get_serial] through the handle of the new device: with no
    forced status and a buffer of 64 bytes or more (below 2^31), the call
    returns Success and the buffer holds the first 63 characters of the
    serial. *)
Theorem add_device_get_serial_round_trip
    (pci_addr' pci_device_id pci_vendor_id serial' : option (list ascii))
    (index' : Z) (st st' : state) (buf : list ascii) (length' : Z) :
  wf_state st →
  add_device pci_addr' pci_device_id pci_vendor_id serial' index' st = Returns tt st' →
  no_fake_error FAKE_DEVICE_GET_SERIAL st →
  (SERIAL_MAX ≤ length' < 2 ^ 31)%Z →
  Z.to_nat length' ≤ length buf →
  ∃ buf',
    hlml_device_get_serial (Some (Z.to_nat (devices_num (main_struct st))))
      (Some buf) length' st'
    = Returns (HLML_SUCCESS, Some buf') (log_call "hlml_device_get_serial" st')
    ∧ c_str buf' = take 63 (c_str (default [] serial'))
    ∧ length buf' = length buf.
Proof.
  intros Hwf Hadd Hno Hrange Hlen.
  pose proof (add_device_wf _ _ _ _ _ _ _ Hwf Hadd) as Hwf'.
  assert (∃ d, devices_info (main_struct st') !! Z.to_nat (devices_num (main_struct st))
               = Some d
               ∧ serial d = take 63 (c_str (default [] serial'))
               ∧ flow_control st' = flow_control st) as (d & Hd & Hserial & Hflow).
  { destruct (add_device_inv _ _ _ _ _ _ _ Hadd)
      as (device_hex & vendor_hex & d & -> & -> & Hlt & Hold).
    rewrite (add_device_eq _ _ _ _ _ _ d) in Hadd by done. injection Hadd as <-.
    eexists. split.
    { cbn [main_struct set_main_struct set_devices_num set_devices_info devices_info].
      apply list_lookup_insert_eq. by eapply lookup_lt_Some. }
    done. }
  unfold SERIAL_MAX in *.
  rewrite (hlml_device_get_serial_copy st' _ d buf length'); try done.
  - eexists. split; [reflexivity|]. split.
    + rewrite <- Hserial. apply c_str_strncpy_bytes; [|unfold SERIAL_MAX; lia].
      destruct Hwf' as (_ & _ & Hfits & _). by eapply (Forall_lookup_1 _ _ _ _ Hfits).
    + rewrite length_app, length_drop. unfold strncpy_bytes, strlen.
      rewrite length_app, length_take, length_replicate. lia.
  - lia.
  - unfold no_fake_error. by rewrite Hflow.
  - rewrite to_int_small; unfold SERIAL_MAX; lia.
Qed.

(** ** Initialization *)

Lemma wf_state_same (st st' : state) :
  wf_state st →
  devices_info (main_struct st') = devices_info (main_struct st) →
  devices_num (main_struct st') = devices_num (main_struct st) →
  flow_control st' = flow_control st →
  heap st' = heap st →
  wf_state st'.
Proof. unfold wf_state. by intros Hwf -> -> -> ->. Qed.

Lemma hlml_init_eq (st : state) (forced_init forced_flags : hlml_return_t) :
  func_ret (flow_control st) !! N.to_nat FAKE_INIT = Some forced_init →
  func_ret (flow_control st) !! N.to_nat FAKE_INIT_WITH_FLAGS = Some forced_flags →
  hlml_init st
  = if decide (forced_init ≠ HLML_SUCCESS)
    then Returns forced_init (log_call "hlml_init" st)
    else if decide (forced_flags ≠ HLML_SUCCESS)
    then Returns forced_flags (log_call "hlml_init_with_flags" (log_call "hlml_init" st))
    else Returns HLML_SUCCESS
           (set_main_struct (set_initialized true (main_struct st))
              (log_call "hlml_init_with_flags" (log_call "hlml_init" st))).
Proof.
  intros Hinit Hflags. unfold hlml_init, hlml_init_with_flags, RETURN_IF_FAKE_ERROR.
  cbv zeta. change (flow_control (log_call _ ?s)) with (flow_control s).
  rewrite Hinit. destruct (decide (forced_init ≠ _)); [done|].
  change (flow_control (log_call _ ?s)) with (flow_control s).
  rewrite Hflags. by destruct (decide (forced_flags ≠ _)).
Qed.

(** A successful [hlml_init] sets the flag and changes nothing else but the
    call log. *)
Lemma hlml_init_success (st st' : state) :
  hlml_init st = Returns HLML_SUCCESS st' →
  initialized (main_struct st') = true
  ∧ devices_info (main_struct st') = devices_info (main_struct st)
  ∧ devices_num (main_struct st') = devices_num (main_struct st)
  ∧ flow_control st' = flow_control st
  ∧ heap st' = heap st.
Proof.
  unfold hlml_init, hlml_init_with_flags, RETURN_IF_FAKE_ERROR. cbv zeta.
  change (flow_control (log_call _ ?s)) with (flow_control s).
  destruct (func_ret _ !! N.to_nat FAKE_INIT) as [e0|]; [|done].
  destruct (decide (e0 ≠ _)); [by intros [= -> _]|].
  change (flow_control (log_call _ ?s)) with (flow_control s).
  destruct (func_ret _ !! N.to_nat FAKE_INIT_WITH_FLAGS) as [e1|]; [|done].
  destruct (decide (e1 ≠ _)); [by intros [= -> _]|].
  by intros [= <-].
Qed.

(** X3. [hlml_init] answers to two entries of the error-injection table, its
    own and that of [hlml_init_with_flags], to which it delegates: a status
    forced for [FAKE_INIT] is returned first; otherwise a status forced for
    [FAKE_INIT_WITH_FLAGS] is returned; in both cases the flag and the rest of
    the library state stay as they were. With neither forced the call returns
    Success and sets the flag, whatever it was, and changes nothing else. The
    [flags] of [hlml_init_with_flags] are not looked at. *)
Theorem hlml_init_two_table_entries
    (st : state) (forced_init forced_flags : hlml_return_t) :
  func_ret (flow_control st) !! N.to_nat FAKE_INIT = Some forced_init →
  func_ret (flow_control st) !! N.to_nat FAKE_INIT_WITH_FLAGS = Some forced_flags →
  (forced_init ≠ HLML_SUCCESS →
   ∃ st', hlml_init st = Returns forced_init st' ∧ same_library_state st st')
  ∧ (forced_init = HLML_SUCCESS → forced_flags ≠ HLML_SUCCESS →
     ∃ st', hlml_init st = Returns forced_flags st' ∧ same_library_state st st')
  ∧ (forced_init = HLML_SUCCESS → forced_flags = HLML_SUCCESS →
     ∃ st',
       hlml_init st = Returns HLML_SUCCESS st'
       ∧ initialized (main_struct st') = true
       ∧ devices_info (main_struct st') = devices_info (main_struct st)
       ∧ devices_num (main_struct st') = devices_num (main_struct st)
       ∧ flow_control st' = flow_control st
       ∧ heap st' = heap st
       ∧ stdout st'
         = stdout st ++ ["hlml_init called" ++ newline;
                         "hlml_init_with_flags called" ++ newline]%string)
  ∧ (∀ flags, hlml_init_with_flags flags st = hlml_init_with_flags 0 st).
Proof.
  intros Hinit Hflags. rewrite (hlml_init_eq _ _ _ Hinit Hflags). split_and!.
  - intros Hne. rewrite decide_True by done. by eexists.
  - intros -> Hne. rewrite decide_False by (by intros []).
    rewrite decide_True by done. by eexists.
  - intros -> ->. rewrite !decide_False by (by intros []).
    eexists. split; [reflexivity|]. simpl. split_and!; try done.
    by rewrite <- app_assoc.
  - done.
Qed.

(** ** Round trips through the registry *)

Lemma hlml_device_get_handle_by_index_eq (st : state) (index' : Z) (old : hlml_device_t) :
  wf_state st →
  initialized (main_struct st) = true →
  no_fake_error FAKE_DEVICE_GET_HANDLE_BY_INDEX st →
  (0 ≤ index' < devices_num (main_struct st))%Z →
  hlml_device_get_handle_by_index index' (Some old) st
  = match list_find (λ d, index' = index d) (registered_devices st) with
    | Some found =>
        Returns (HLML_SUCCESS, Some (Some found.1))
          (log_call "hlml_device_get_handle_by_index" st)
    | None =>
        Returns (HLML_ERROR_NOT_FOUND, Some old)
          (log_call "hlml_device_get_handle_by_index" st)
    end.
Proof.
  intros Hwf Hinit Hno Hrange.
  unfold hlml_device_get_handle_by_index. cbv zeta.
  rewrite RETURN_IF_FAKE_ERROR_none by done.
  change (main_struct (log_call _ st)) with (main_struct st). rewrite Hinit.
  cbn [negb].
  rewrite to_int_small.
  2: { destruct Hwf as (_ & Hnum & _). unfold DEVICES_MAX in Hnum. lia. }
  rewrite decide_False by lia.
  rewrite index_loop_find by by apply registered_devices_bound.
  rewrite drop_0. unfold registered_devices.
  by destruct (list_find _ _) as [[k d']|].
Qed.

(** X4. A device added with an index that no registered device has, and that
    is not above the device count, is found by
    [hlml_device_get_handle_by_index] once the library is initialized: the
    lookup of that index returns the handle of the new device. *)
Theorem add_device_lookup_by_index_round_trip
    (pci_addr' pci_device_id pci_vendor_id serial' : option (list ascii))
    (index' : Z) (st st1 st2 : state) (old : hlml_device_t) :
  wf_state st →
  add_device pci_addr' pci_device_id pci_vendor_id serial' index' st = Returns tt st1 →
  hlml_init st1 = Returns HLML_SUCCESS st2 →
  no_fake_error FAKE_DEVICE_GET_HANDLE_BY_INDEX st →
  (0 ≤ index' ≤ devices_num (main_struct st))%Z →
  (∀ d, d ∈ registered_devices st → index d ≠ index') →
  hlml_device_get_handle_by_index index' (Some old) st2
  = Returns (HLML_SUCCESS, Some (Some (Z.to_nat (devices_num (main_struct st)))))
      (log_call "hlml_device_get_handle_by_index" st2).
Proof.
  intros Hwf Hadd Hstart Hno Hrange Hfresh.
  pose proof (add_device_wf _ _ _ _ _ _ _ Hwf Hadd) as Hwf1.
  destruct (add_device_effect _ _ _ _ _ _ _ Hwf Hadd)
    as (Hnum & (d & Hregs & Hindex & _) & _ & Hflow & _).
  destruct (hlml_init_success _ _ Hstart) as (Hinit2 & Hinfo2 & Hnum2 & Hflow2 & Hheap2).
  assert (wf_state st2) as Hwf2 by by eapply wf_state_same.
  rewrite hlml_device_get_handle_by_index_eq; try done.
  - assert (registered_devices st2 = registered_devices st ++ [d]) as ->.
    { rewrite <- Hregs. unfold registered_devices. by rewrite Hinfo2, Hnum2. }
    assert (length (registered_devices st) = Z.to_nat (devices_num (main_struct st)))
      as Hlen.
    { unfold registered_devices. rewrite length_take.
      destruct Hwf as (Hinfo & Hbound & _). rewrite Hinfo.
      unfold DEVICES_MAX in *. lia. }
    assert (list_find (λ d, index' = index d) (registered_devices st ++ [d])
            = Some (Z.to_nat (devices_num (main_struct st)), d)) as ->; [|done].
    apply list_find_Some. split_and!.
    + rewrite lookup_app_r by lia. by rewrite Hlen, Nat.sub_diag.
    + done.
    + intros j y Hj Hlt Hy. rewrite lookup_app_l in Hj by lia.
      apply (Hfresh y); [by eapply list_elem_of_lookup_2|done].
  - unfold no_fake_error. by rewrite Hflow2, Hflow.
  - rewrite Hnum2, Hnum. lia.
Qed.


(** ** What the operations leave alone *)

(** X6. Every operation that returns leaves alone each part of the library
    state it has no assignment to: the registry changes only in [add_device]
    and [reset], the flag only in the two inits, [hlml_shutdown] and [reset],
    the error table only in [set_error] and [reset], the queue only in
    [add_critical_event], [reset_events], [reset] and [hlml_event_set_wait],
    the event sets only in create, free and register; the lookups, the
    getters and the stubs change nothing. No operation removes printed
    output. *)
Theorem run_call_frame (c : call) (st st' : state) (r : option hlml_return_t) :
  run_call c st = Returns r st' →
  (∀ k : component, k ∉ writes c → unchanged k st st')
  ∧ ∃ lines, stdout st' = stdout st ++ lines.
Proof.
  intros Hrun. split.
  - intros k Hk. destruct c; simpl in Hrun; unfold_calls; cbv zeta in Hrun;
      repeat case_match; simplify_eq;
      destruct k; simpl in Hk; try done;
      try (exfalso; apply Hk; repeat constructor; fail).
  - destruct c; simpl in Hrun; unfold_calls; cbv zeta in Hrun;
      repeat case_match; simplify_eq; simpl;
      first [ by exists [] ; rewrite app_nil_r
            | by eexists
            | rewrite <- app_assoc; by eexists ].
Qed.

(** ** The initialized flag and the life of an event set *)

Lemma run_call_uninitialized (c : call) (op : call_identity_t) (st : state) :
  initialized (main_struct st) = false →
  tests_initialized c →
  call_identity c = Some op →
  no_fake_error op st →
  ∃ st',
    run_call c st = Returns (Some HLML_ERROR_UNINITIALIZED) st'
    ∧ same_library_state st st'.
Proof.
  intros Huninit Htests Hid Hno.
  destruct c; simpl in Htests, Hid; try done; injection Hid as <-; simpl;
    unfold hlml_device_get_handle_by_pci_bus_id, hlml_device_get_handle_by_index,
      hlml_device_get_pci_info, hlml_event_set_create, hlml_event_set_free,
      hlml_event_set_wait; cbv zeta;
    rewrite RETURN_IF_FAKE_ERROR_none by done;
    change (main_struct (log_call _ st)) with (main_struct st);
    rewrite Huninit; simpl; by eexists.
Qed.

(** X7. The initialized flag is tested before the arguments: with no status
    forced for them, the two lookups, [hlml_device_get_pci_info] and the
    event-set create, free and wait return Uninitialized in an uninitialized
    library, and again after every [hlml_shutdown] that returned Success,
    whatever their arguments (NULL pointers and dead handles included), and
    they change nothing but the call log. *)
Theorem uninitialized_before_arguments
    (c : call) (op : call_identity_t) (st : state) :
  tests_initialized c →
  call_identity c = Some op →
  no_fake_error op st →
  (initialized (main_struct st) = false →
   ∃ st',
     run_call c st = Returns (Some HLML_ERROR_UNINITIALIZED) st'
     ∧ same_library_state st st')
  ∧ (∀ st1,
       hlml_shutdown st = Returns HLML_SUCCESS st1 →
       ∃ st2,
         run_call c st1 = Returns (Some HLML_ERROR_UNINITIALIZED) st2
         ∧ same_library_state st1 st2).
Proof.
  intros Htests Hid Hno. split.
  - intros Huninit. by eapply run_call_uninitialized.
  - intros st1. unfold hlml_shutdown, RETURN_IF_FAKE_ERROR. cbv zeta.
    destruct (func_ret _ !! _) as [e|]; [|done].
    destruct (decide (e ≠ _)); [by intros [= -> _]|]. intros [= <-].
    by eapply run_call_uninitialized.
Qed.

Lemma wait_loop_first_empty (f : flow_control_t) (devices : list device_info_t)
    (slots : list hlml_device_events) (todo : nat) :
  registered slots = [] → 0 < length slots →
  wait_loop f devices slots 0 (S todo) = Some None.
Proof.
  destruct slots as [|[[p|]] rest]; simpl; [lia|done|done].
Qed.

(** X8. In an initialized library with no forced status,
    [hlml_event_set_create] with a non-NULL output pointer returns
    OutOfMemory and changes nothing when [calloc] fails; otherwise it returns
    Success with a handle that was not live, whose event set has no
    registered device, and leaves the other event sets, the registry and the
    queue as they were. A wait on the new event set returns Timeout whatever
    is queued. *)
Theorem hlml_event_set_create_fresh (st : state) (old : hlml_event_set_t) :
  wf_state st →
  initialized (main_struct st) = true →
  no_fake_error FAKE_EVENT_SET_CREATE st →
  hlml_event_set_create true (Some old) st
  = Returns (HLML_ERROR_MEMORY, Some old) (log_call "hlml_event_set_create" st)
  ∧ ∃ (l : nat) (st' : state),
      hlml_event_set_create false (Some old) st
      = Returns (HLML_SUCCESS, Some (Some l)) st'
      ∧ heap st !! l = None
      ∧ heap st' !! l = Some zero_event_set
      ∧ (∀ l', l' ≠ l → heap st' !! l' = heap st !! l')
      ∧ registered (dev_events zero_event_set) = []
      ∧ main_struct st' = main_struct st
      ∧ flow_control st' = flow_control st
      ∧ wf_state st'
      ∧ (no_fake_error FAKE_EVENT_SET_WAIT st →
         ∀ data timeoutms,
           hlml_event_set_wait (Some l) (Some data) timeoutms st'
           = Returns (HLML_ERROR_TIMEOUT, Some data)
               (log_call "hlml_event_set_wait" st')).
Proof.
  intros Hwf Hinit Hno. unfold hlml_event_set_create. cbv zeta.
  rewrite !RETURN_IF_FAKE_ERROR_none by done.
  change (main_struct (log_call _ st)) with (main_struct st). rewrite Hinit.
  cbn [negb]. split; [done|].
  change (heap (log_call _ st)) with (heap st).
  eexists _, _. split; [reflexivity|].
  cbn [heap set_heap main_struct flow_control log_call printf].
  assert (heap st !! fresh (dom (heap st)) = None) as Hfresh.
  { apply not_elem_of_dom. apply is_fresh. }
  split_and!; try done.
  - apply lookup_insert_eq.
  - intros l' Hne. by apply lookup_insert_ne.
  - destruct Hwf as (? & ? & ? & ? & ? & ? & ? & Hheap).
    unfold wf_state. cbn [heap set_heap main_struct flow_control log_call printf].
    split_and!; try done; try lia.
    apply map_Forall_insert_2; [|done]. by apply (bool_decide_unpack _).
  - intros Hnw data timeoutms. unfold hlml_event_set_wait. cbv zeta.
    rewrite RETURN_IF_FAKE_ERROR_none by done.
    cbn [heap set_heap main_struct flow_control log_call printf].
    rewrite Hinit. cbn [negb]. rewrite lookup_insert_eq.
    change (Z.to_nat DEVICES_MAX) with 8.
    by rewrite wait_loop_first_empty by (done || (simpl; lia)).
Qed.

(** X9. Creating an event set and freeing it again gives back the event sets
    there were before; the registry, the table and the queue are untouched.
    After the free the handle is dead: freeing it once more, or registering
    into it or waiting on it, goes through a dangling pointer. A NULL handle
    is refused with InvalidArgument. *)
Theorem hlml_event_set_create_free_round_trip
    (st st1 : state) (old : hlml_event_set_t) (l : nat) :
  wf_state st →
  hlml_event_set_create false (Some old) st = Returns (HLML_SUCCESS, Some (Some l)) st1 →
  no_fake_error FAKE_EVENT_SET_FREE st →
  ∃ st2,
    hlml_event_set_free (Some l) st1 = Returns HLML_SUCCESS st2
    ∧ heap st2 = heap st
    ∧ main_struct st2 = main_struct st
    ∧ flow_control st2 = flow_control st
    ∧ hlml_event_set_free (Some l) st2 = Undefined
    ∧ hlml_event_set_free None st2
      = Returns HLML_ERROR_INVALID_ARGUMENT (log_call "hlml_event_set_free" st2)
    ∧ (no_fake_error FAKE_DEVICE_REGISTER_EVENTS st →
       ∀ device' event_types,
         hlml_device_register_events device' event_types (Some l) st2 = Undefined)
    ∧ (no_fake_error FAKE_EVENT_SET_WAIT st →
       ∀ data timeoutms,
         hlml_event_set_wait (Some l) (Some data) timeoutms st2 = Undefined).
Proof.
  intros Hwf Hcreate Hno.
  unfold hlml_event_set_create, RETURN_IF_FAKE_ERROR in Hcreate. cbv zeta in Hcreate.
  change (flow_control (log_call _ st)) with (flow_control st) in Hcreate.
  change (main_struct (log_call _ st)) with (main_struct st) in Hcreate.
  change (heap (log_call _ st)) with (heap st) in Hcreate.
  destruct (func_ret _ !! _) as [e|]; [|done].
  destruct (decide (e ≠ _)); [by injection Hcreate as -> _|].
  destruct (initialized (main_struct st)) eqn:Hinit; [|done]. cbn [negb] in Hcreate.
  injection Hcreate as <- <-.
  assert (heap st !! fresh (dom (heap st)) = None) as Hfresh.
  { apply not_elem_of_dom. apply is_fresh. }
  unfold hlml_event_set_free, hlml_device_register_events, hlml_event_set_wait. cbv zeta.
  rewrite !RETURN_IF_FAKE_ERROR_none by done.
  cbn [heap set_heap main_struct flow_control log_call printf].
  rewrite Hinit. cbn [negb]. rewrite lookup_insert_eq.
  eexists. split; [reflexivity|].
  cbn [heap set_heap main_struct flow_control log_call printf].
  rewrite delete_insert_eq, (delete_id _ _ Hfresh).
  split_and!; try done.
  - rewrite RETURN_IF_FAKE_ERROR_none by done.
    cbn [heap set_heap main_struct flow_control log_call printf].
    by rewrite Hinit, Hfresh.
  - rewrite RETURN_IF_FAKE_ERROR_none by done.
    cbn [heap set_heap main_struct flow_control log_call printf].
    by rewrite Hinit.
  - intros Hnr device' event_types. rewrite RETURN_IF_FAKE_ERROR_none by done.
    cbn [heap set_heap main_struct flow_control log_call printf]. by rewrite Hfresh.
  - intros Hnw data timeoutms. rewrite RETURN_IF_FAKE_ERROR_none by done.
    cbn [heap set_heap main_struct flow_control log_call printf].
    by rewrite Hinit, Hfresh.
Qed.

(** X10. [reset_events] clears the count of pending events and nothing else:
    the registry, the flag, the error table, the event sets and the stored
    entries stay. After it every wait on a live event set of an initialized
    library returns Timeout. *)
Theorem reset_events_only_empties_queue (st : state) :
  wf_state st →
  ∃ st',
    reset_events st = Returns tt st'
    ∧ events_num (flow_control st') = 0%Z
    ∧ events (flow_control st') = events (flow_control st)
    ∧ func_ret (flow_control st') = func_ret (flow_control st)
    ∧ main_struct st' = main_struct st
    ∧ heap st' = heap st
    ∧ stdout st' = stdout st
    ∧ (initialized (main_struct st) = true →
       no_fake_error FAKE_EVENT_SET_WAIT st →
       ∀ l es data timeoutms,
         heap st !! l = Some es →
         hlml_event_set_wait (Some l) (Some data) timeoutms st'
         = Returns (HLML_ERROR_TIMEOUT, Some data) (log_call "hlml_event_set_wait" st')).
Proof.
  intros Hwf. eexists. split; [reflexivity|].
  cbn [heap set_flow_control set_events_num main_struct flow_control events_num events
       func_ret stdout].
  split_and!; try done.
  intros Hinit Hno l es data timeoutms Hes.
  unfold hlml_event_set_wait. cbv zeta.
  rewrite RETURN_IF_FAKE_ERROR_none by done.
  cbn [heap set_flow_control main_struct flow_control log_call printf].
  rewrite Hinit, Hes. cbn [negb].
  destruct Hwf as (_ & _ & _ & _ & _ & _ & _ & Hheap).
  destruct (Hheap _ _ Hes) as [Hlen _].
  rewrite wait_loop_no_event; [done|simpl; lia|lia].
Qed.

(** ** Registration order *)

Lemma registered_app (regs : list nat) (rest : list hlml_device_events) :
  registered ((slot_of <$> regs) ++ rest) = regs ++ registered rest.
Proof.
  induction regs as [|p regs IH]; [done|].
  rewrite fmap_cons. change (registered ((slot_of p :: (slot_of <$> regs)) ++ rest))
    with (p :: registered ((slot_of <$> regs) ++ rest)).
  by rewrite IH.
Qed.

Lemma registered_empty_slots (k : nat) : registered (replicate k empty_slot) = [].
Proof. by destruct k. Qed.

(** On slots that hold [regs] and then at least one empty slot, the scan for
    a device that is not in [regs] claims the first empty slot. *)
Lemma register_loop_append (p : nat) (regs : list nat) (rest : list hlml_device_events)
    (todo i : nat) :
  p ∉ regs →
  i ≤ length regs < i + todo →
  register_loop (Some p) ((slot_of <$> regs) ++ empty_slot :: rest) i todo
  = Some (length regs, (slot_of <$> regs) ++ slot_of p :: rest).
Proof.
  intros Hnew. revert i. induction todo as [|todo IH]; intros i Hi; [lia|].
  cbn [register_loop].
  destruct (decide (i = length regs)) as [->|Hne].
  - rewrite lookup_app_r by (rewrite length_fmap; lia).
    rewrite length_fmap, Nat.sub_diag. cbn [lookup list_lookup empty_slot device_info].
    rewrite insert_app_r_alt by (rewrite length_fmap; lia).
    rewrite length_fmap, Nat.sub_diag. done.
  - destruct (lookup_lt_is_Some_2 regs i) as [q Hq]; [lia|].
    rewrite lookup_app_l by (rewrite length_fmap; lia).
    rewrite list_lookup_fmap, Hq. cbn [fmap option_fmap option_map slot_of device_info].
    rewrite decide_False.
    2: { intros [= ->]. apply Hnew. by eapply list_elem_of_lookup_2. }
    apply IH. lia.
Qed.

Lemma register_loop_null (regs : list nat) (rest : list hlml_device_events)
    (todo i : nat) :
  i ≤ length regs < i + todo →
  register_loop None ((slot_of <$> regs) ++ empty_slot :: rest) i todo
  = Some (length regs, (slot_of <$> regs) ++ empty_slot :: rest).
Proof.
  revert i. induction todo as [|todo IH]; intros i Hi; [lia|].
  cbn [register_loop].
  destruct (decide (i = length regs)) as [->|Hne].
  - rewrite lookup_app_r by (rewrite length_fmap; lia).
    rewrite length_fmap, Nat.sub_diag. cbn [lookup list_lookup empty_slot device_info].
    rewrite insert_app_r_alt by (rewrite length_fmap; lia).
    rewrite length_fmap, Nat.sub_diag. done.
  - destruct (lookup_lt_is_Some_2 regs i) as [q Hq]; [lia|].
    rewrite lookup_app_l by (rewrite length_fmap; lia).
    rewrite list_lookup_fmap, Hq. cbn [fmap option_fmap option_map slot_of device_info].
    rewrite decide_False by done. apply IH. lia.
Qed.

(** X11. Registration keeps the order of arrival: in an event set whose slots
    hold the devices [regs] followed by empty slots, as every event set built
    by create and register does, registering a device that is not among
    [regs] returns Success and puts it in the first empty slot, so that the
    registered devices become [regs ++ [p]]; the other event sets, the
    registry and the queue stay. Registering a NULL device returns Success and
    registers nothing. *)
Theorem hlml_device_register_events_appends
    (p : nat) (regs : list nat) (k : nat) (event_types : Z) (l : nat)
    (es : hlml_event_set) (st : state) :
  heap st !! l = Some es →
  dev_events es = (slot_of <$> regs) ++ replicate (S k) empty_slot →
  (Z.of_nat (length regs) < DEVICES_MAX)%Z →
  no_fake_error FAKE_DEVICE_REGISTER_EVENTS st →
  (p ∉ regs →
   ∃ st',
     hlml_device_register_events (Some p) event_types (Some l) st
     = Returns HLML_SUCCESS st'
     ∧ heap st'
       = <[l := {| dev_events := (slot_of <$> (regs ++ [p])) ++ replicate k empty_slot |}]>
           (heap st)
     ∧ registered ((slot_of <$> (regs ++ [p])) ++ replicate k empty_slot) = regs ++ [p]
     ∧ main_struct st' = main_struct st
     ∧ flow_control st' = flow_control st)
  ∧ (∃ st',
       hlml_device_register_events None event_types (Some l) st
       = Returns HLML_SUCCESS st'
       ∧ heap st' = heap st
       ∧ main_struct st' = main_struct st
       ∧ flow_control st' = flow_control st)
  ∧ registered (dev_events es) = regs.
Proof.
  intros Hes Hslots Hroom Hno.
  unfold hlml_device_register_events. cbv zeta.
  change (Z.to_nat DEVICES_MAX) with 8. unfold DEVICES_MAX in *.
  rewrite !RETURN_IF_FAKE_ERROR_none by done.
  change (heap (log_call _ st)) with (heap st). rewrite Hes, Hslots.
  change (replicate (S k) empty_slot) with (empty_slot :: replicate k empty_slot).
  split_and!.
  - intros Hnew. rewrite register_loop_append by (done || lia).
    rewrite decide_False by lia.
    eexists. split; [reflexivity|].
    cbn [heap set_heap main_struct flow_control log_call printf].
    rewrite fmap_app. simpl. rewrite <- app_assoc. simpl.
    split_and!; try done.
    rewrite registered_app. simpl. by rewrite registered_empty_slots.
  - rewrite register_loop_null by lia.
    rewrite decide_False by lia.
    eexists. split; [reflexivity|].
    cbn [heap set_heap main_struct flow_control log_call printf].
    split_and!; try done. apply insert_id. rewrite Hes. f_equal.
    destruct es as [slots]. simpl in Hslots. by rewrite Hslots.
  - rewrite registered_app. simpl. by rewrite app_nil_r.
Qed.

(** ** The queue as a stack *)

Lemma tail_event_at (f : flow_control_t) (n : nat) (ev : list ascii) :
  events_num f = (Z.of_nat n + 1)%Z →
  events f !! n = Some ev →
  tail_event f = Some ev.
Proof.
  intros Hnum Hev. unfold tail_event. rewrite Hnum.
  rewrite decide_True by lia.
  by replace (Z.to_nat (Z.of_nat n + 1 - 1)) with n by lia.
Qed.

(** Queueing an event in a queue that is not full. *)
Lemma add_critical_event_push (serial' : option (list ascii)) (st : state) :
  wf_state st →
  (events_num (flow_control st) < FAKE_EVENTS_MAX)%Z →
  ∃ st',
    add_critical_event serial' st = Returns tt st'
    ∧ wf_state st'
    ∧ main_struct st' = main_struct st
    ∧ heap st' = heap st
    ∧ func_ret (flow_control st') = func_ret (flow_control st)
    ∧ events_num (flow_control st') = (events_num (flow_control st) + 1)%Z
    ∧ events (flow_control st')
      = <[Z.to_nat (events_num (flow_control st)) := take 63 (c_str (default [] serial'))]>
          (events (flow_control st))
    ∧ tail_event (flow_control st') = Some (take 63 (c_str (default [] serial'))).
Proof.
  intros Hwf Hroom.
  pose proof Hwf as (_ & _ & _ & _ & Hev & Hevnum & _). unfold FAKE_EVENTS_MAX in *.
  destruct (lookup_lt_is_Some_2 (events (flow_control st))
              (Z.to_nat (events_num (flow_control st)))) as [old Hold].
  { rewrite Hev. simpl. lia. }
  assert (add_critical_event serial' st
          = Returns tt
              (set_flow_control
                 (set_events_num (events_num (flow_control st) + 1)
                    (set_events
                       (<[Z.to_nat (events_num (flow_control st)) :=
                            take 63 (c_str (default [] serial'))]>
                          (events (flow_control st)))
                       (flow_control st))) st)) as Hadd.
  { unfold add_critical_event. cbv zeta.
    rewrite decide_False by (unfold FAKE_EVENTS_MAX; lia).
    rewrite decide_True by (unfold FAKE_EVENTS_MAX; lia).
    rewrite Hold. by destruct serial'. }
  eexists. split; [exact Hadd|].
  split; [by eapply add_critical_event_wf|].
  cbn [heap set_flow_control set_events_num set_events main_struct flow_control
       events_num events func_ret].
  split_and!; try done.
  apply (tail_event_at _ (Z.to_nat (events_num (flow_control st)))).
  - cbn [events_num set_events_num]. lia.
  - cbn [events set_events set_events_num]. apply list_lookup_insert_eq.
    by eapply lookup_lt_Some.
Qed.

(** A wait that finds the tail event's device. *)
Lemma hlml_event_set_wait_pop (st : state) (l : nat) (es : hlml_event_set)
    (old : hlml_event_data) (timeoutms : Z) (ev : list ascii) (k p : nat) :
  HLML_EVENT_CRITICAL_ERR ≠ 0%Z →
  wf_state st →
  initialized (main_struct st) = true →
  no_fake_error FAKE_EVENT_SET_WAIT st →
  heap st !! l = Some es →
  tail_event (flow_control st) = Some ev →
  list_find (λ q, serial_at st q = Some ev) (registered (dev_events es)) = Some (k, p) →
  ∃ st',
    hlml_event_set_wait (Some l) (Some old) timeoutms st
    = Returns (HLML_SUCCESS,
               Some {| device := Some p; event_type := HLML_EVENT_CRITICAL_ERR |}) st'
    ∧ wf_state st'
    ∧ main_struct st' = main_struct st
    ∧ heap st' = heap st
    ∧ func_ret (flow_control st') = func_ret (flow_control st)
    ∧ events (flow_control st') = events (flow_control st)
    ∧ events_num (flow_control st') = (events_num (flow_control st) - 1)%Z.
Proof.
  intros Hcrit Hwf Hinit Hno Hes Htail Hfind.
  pose proof (hlml_event_set_wait_eq st l es old timeoutms Hcrit Hwf Hinit Hno Hes) as Heq.
  cbv zeta in Heq. rewrite Htail, Hfind in Heq.
  eexists. split; [exact Heq|].
  split; [by eapply hlml_event_set_wait_wf|]. done.
Qed.

(** X12. The queue is a stack: with two events queued one after the other in
    a queue with room for both, the first wait delivers the device of the
    second event and the next wait the device of the first, each being the
    first registered device of the event set with the queued serial (cut to
    63 characters); afterwards the count of pending events is what it was. *)
Theorem hlml_event_set_wait_last_in_first_out
    (st : state) (l : nat) (es : hlml_event_set) (old : hlml_event_data)
    (timeoutms : Z) (serial1 serial2 : option (list ascii)) (k1 p1 k2 p2 : nat) :
  HLML_EVENT_CRITICAL_ERR ≠ 0%Z →
  wf_state st →
  initialized (main_struct st) = true →
  no_fake_error FAKE_EVENT_SET_WAIT st →
  heap st !! l = Some es →
  (events_num (flow_control st) + 2 ≤ FAKE_EVENTS_MAX)%Z →
  list_find (λ q, serial_at st q = Some (take 63 (c_str (default [] serial1))))
    (registered (dev_events es)) = Some (k1, p1) →
  list_find (λ q, serial_at st q = Some (take 63 (c_str (default [] serial2))))
    (registered (dev_events es)) = Some (k2, p2) →
  ∃ st1 st2 st3 st4,
    add_critical_event serial1 st = Returns tt st1
    ∧ add_critical_event serial2 st1 = Returns tt st2
    ∧ hlml_event_set_wait (Some l) (Some old) timeoutms st2
      = Returns (HLML_SUCCESS,
                 Some {| device := Some p2; event_type := HLML_EVENT_CRITICAL_ERR |}) st3
    ∧ hlml_event_set_wait (Some l) (Some old) timeoutms st3
      = Returns (HLML_SUCCESS,
                 Some {| device := Some p1; event_type := HLML_EVENT_CRITICAL_ERR |}) st4
    ∧ events_num (flow_control st4) = events_num (flow_control st).
Proof.
  intros Hcrit Hwf Hinit Hno Hes Hroom Hfind1 Hfind2.
  pose proof Hwf as (_ & _ & _ & _ & Hev & Hevnum & _). unfold FAKE_EVENTS_MAX in *.
  destruct (add_critical_event_push serial1 st Hwf)
    as (st1 & Hadd1 & Hwf1 & Hm1 & Hh1 & Hf1 & Hn1 & He1 & Ht1);
    [unfold FAKE_EVENTS_MAX; lia|].
  destruct (add_critical_event_push serial2 st1 Hwf1)
    as (st2 & Hadd2 & Hwf2 & Hm2 & Hh2 & Hf2 & Hn2 & He2 & Ht2);
    [unfold FAKE_EVENTS_MAX; lia|].
  destruct (hlml_event_set_wait_pop st2 l es old timeoutms
              (take 63 (c_str (default [] serial2))) k2 p2 Hcrit Hwf2)
    as (st3 & Hwait3 & Hwf3 & Hm3 & Hh3 & Hf3 & He3 & Hn3); try done.
  { by rewrite Hm2, Hm1. }
  { unfold no_fake_error. by rewrite Hf2, Hf1. }
  { by rewrite Hh2, Hh1. }
  { unfold serial_at. by rewrite Hm2, Hm1. }
  assert (tail_event (flow_control st3) = Some (take 63 (c_str (default [] serial1))))
    as Ht3.
  { apply (tail_event_at _ (Z.to_nat (events_num (flow_control st)))); [lia|].
    rewrite He3, He2, Hn1, He1.
    rewrite list_lookup_insert_ne by lia.
    apply list_lookup_insert_eq. rewrite Hev. simpl. lia. }
  destruct (hlml_event_set_wait_pop st3 l es old timeoutms
              (take 63 (c_str (default [] serial1))) k1 p1 Hcrit Hwf3)
    as (st4 & Hwait4 & Hwf4 & Hm4 & Hh4 & Hf4 & He4 & Hn4); try done.
  { by rewrite Hm3, Hm2, Hm1. }
  { unfold no_fake_error. by rewrite Hf3, Hf2, Hf1. }
  { by rewrite Hh3, Hh2, Hh1. }
  { unfold serial_at. by rewrite Hm3, Hm2, Hm1. }
  exists st1, st2, st3, st4. split_and!; try done. lia.
Qed.

(** ** Handles that outlive a reset, and events that cannot be delivered *)

Lemma reset_eq (st : state) :
  wf_state st →
  reset st
  = Returns tt
      (set_flow_control
         (set_func_ret (replicate (N.to_nat FAKE_CALL_IDENTITY_MAX) HLML_SUCCESS)
            (set_events_num 0 (flow_control st)))
         (set_main_struct (set_devices_num 0 (set_initialized false (main_struct st))) st)).
Proof.
  intros (_ & _ & _ & Hret & _). unfold reset. cbv zeta.
  change (func_ret (set_events_num 0 (flow_control st)))
    with (func_ret (flow_control st)).
  by rewrite (reset_loop_all _ Hret).
Qed.

(** X13. [reset] neither frees the event sets nor wipes the device records,
    and a device handle is an address into the registry: an event set made
    before a [reset] is still live after it and still delivers the events of
    the devices registered in it, although the registry counts no device.
    After [reset], [hlml_init] and [add_critical_event(s)], a wait on such an
    event set returns the first of its devices whose old record has serial
    [s]. *)
Theorem reset_keeps_event_sets_and_records
    (st : state) (l : nat) (es : hlml_event_set) (old : hlml_event_data)
    (timeoutms : Z) (serial' : option (list ascii)) (k p : nat) :
  HLML_EVENT_CRITICAL_ERR ≠ 0%Z →
  wf_state st →
  heap st !! l = Some es →
  list_find (λ q, serial_at st q = Some (take 63 (c_str (default [] serial'))))
    (registered (dev_events es)) = Some (k, p) →
  ∃ st1 st2 st3 st4,
    reset st = Returns tt st1
    ∧ heap st1 = heap st
    ∧ devices_info (main_struct st1) = devices_info (main_struct st)
    ∧ registered_devices st1 = []
    ∧ hlml_init st1 = Returns HLML_SUCCESS st2
    ∧ add_critical_event serial' st2 = Returns tt st3
    ∧ hlml_event_set_wait (Some l) (Some old) timeoutms st3
      = Returns (HLML_SUCCESS,
                 Some {| device := Some p; event_type := HLML_EVENT_CRITICAL_ERR |}) st4
    ∧ devices_num (main_struct st4) = 0%Z.
Proof.
  intros Hcrit Hwf Hes Hfind.
  pose proof (reset_eq st Hwf) as Hreset.
  match type of Hreset with _ = Returns tt ?s => set (st1 := s) in * end.
  assert (wf_state st1) as Hwf1 by by eapply reset_wf.
  assert (∀ op : call_identity_t, (op < FAKE_CALL_IDENTITY_MAX)%N → no_fake_error op st1)
    as Hclean.
  { intros op Hop. unfold no_fake_error. subst st1.
    cbn [flow_control set_flow_control func_ret set_func_ret].
    apply lookup_replicate_2. lia. }
  pose proof (hlml_init_eq st1 HLML_SUCCESS HLML_SUCCESS
                (Hclean FAKE_INIT eq_refl) (Hclean FAKE_INIT_WITH_FLAGS eq_refl)) as Hstart.
  rewrite !decide_False in Hstart by (by intros []).
  match type of Hstart with _ = Returns _ ?s => set (st2 := s) in * end.
  assert (wf_state st2) as Hwf2 by by eapply (wf_state_same st1).
  destruct (add_critical_event_push serial' st2 Hwf2)
    as (st3 & Hadd & Hwf3 & Hm3 & Hh3 & Hf3 & Hn3 & He3 & Ht3); [done|].
  assert (devices_info (main_struct st3) = devices_info (main_struct st)) as Hinfo3
    by by rewrite Hm3.
  destruct (hlml_event_set_wait_pop st3 l es old timeoutms
              (take 63 (c_str (default [] serial'))) k p Hcrit Hwf3)
    as (st4 & Hwait & Hwf4 & Hm4 & _); try done.
  { by rewrite Hm3. }
  { unfold no_fake_error. rewrite Hf3. by apply (Hclean FAKE_EVENT_SET_WAIT). }
  { by rewrite Hh3. }
  { unfold serial_at. by rewrite Hinfo3. }
  exists st1, st2, st3, st4. split_and!; try done.
  by rewrite Hm4, Hm3.
Qed.

Lemma hlml_event_set_wait_timeout (st : state) (l : nat) (es : hlml_event_set)
    (old : hlml_event_data) (timeoutms : Z) :
  HLML_EVENT_CRITICAL_ERR ≠ 0%Z →
  wf_state st →
  initialized (main_struct st) = true →
  no_fake_error FAKE_EVENT_SET_WAIT st →
  heap st !! l = Some es →
  (∀ p, p ∈ registered (dev_events es) → serial_at st p ≠ tail_event (flow_control st)) →
  hlml_event_set_wait (Some l) (Some old) timeoutms st
  = Returns (HLML_ERROR_TIMEOUT, Some old) (log_call "hlml_event_set_wait" st).
Proof.
  intros Hcrit Hwf Hinit Hno Hes Hnone.
  rewrite (hlml_event_set_wait_eq st l es old timeoutms Hcrit Hwf Hinit Hno Hes).
  destruct (tail_event (flow_control st)) as [ev|] eqn:Htail; [|done].
  destruct (list_find _ _) as [[k p]|] eqn:Hfind; [|done].
  apply list_find_Some in Hfind as (Hk & Hp & _).
  exfalso. apply (Hnone p); [by eapply list_elem_of_lookup_2|done].
Qed.

(** X14. An event that no registered device of the event set has the serial
    of blocks the queue: as long as it is the most recent one, every wait on
    that event set returns Timeout and leaves the queue as it is, however
    often it is repeated, so the older events stay undelivered even when
    their devices are registered. *)
Theorem undeliverable_tail_event_blocks_queue
    (st : state) (l : nat) (es : hlml_event_set) (old : hlml_event_data)
    (timeoutms : Z) (m : nat) :
  HLML_EVENT_CRITICAL_ERR ≠ 0%Z →
  wf_state st →
  initialized (main_struct st) = true →
  no_fake_error FAKE_EVENT_SET_WAIT st →
  heap st !! l = Some es →
  (∀ p, p ∈ registered (dev_events es) → serial_at st p ≠ tail_event (flow_control st)) →
  ∃ st',
    run_calls (replicate m (Call_hlml_event_set_wait (Some l) (Some old) timeoutms)) st
    = Some st'
    ∧ same_library_state st st'
    ∧ hlml_event_set_wait (Some l) (Some old) timeoutms st'
      = Returns (HLML_ERROR_TIMEOUT, Some old) (log_call "hlml_event_set_wait" st').
Proof.
  intros Hcrit. revert st.
  induction m as [|m IH]; intros st Hwf Hinit Hno Hes Hnone.
  - exists st. split; [done|]. split; [done|]. by apply (hlml_event_set_wait_timeout _ _ es).
  - cbn [replicate run_calls run_call].
    rewrite (hlml_event_set_wait_timeout _ _ es) by done. cbn [status_only].
    destruct (IH (log_call "hlml_event_set_wait" st)) as (st' & Hrun & Hsame & Hwait);
      try done.
    exists st'. split; [done|]. split; [|done].
    destruct Hsame as (? & ? & ?). by split_and!.
Qed.

(** X15. The registry and the queue cut a serial in the same way, so a device
    is matched by the event queued under the serial it was added with,
    whatever the length of that serial: if a later state still holds the
    record that [add_device] wrote and its queue has room, then after
    [add_critical_event] with the same serial the record's serial is the most
    recent event, and a wait on an event set in which that device is the
    first registered one with this serial returns it. *)
Theorem serial_matches_its_event
    (pci_addr' pci_device_id pci_vendor_id serial' : option (list ascii))
    (index' : Z) (st st1 st2 : state) (l : nat) (es : hlml_event_set)
    (old : hlml_event_data) (timeoutms : Z) (k : nat) :
  HLML_EVENT_CRITICAL_ERR ≠ 0%Z →
  wf_state st →
  add_device pci_addr' pci_device_id pci_vendor_id serial' index' st = Returns tt st1 →
  wf_state st2 →
  devices_info (main_struct st2) !! Z.to_nat (devices_num (main_struct st))
  = devices_info (main_struct st1) !! Z.to_nat (devices_num (main_struct st)) →
  (events_num (flow_control st2) < FAKE_EVENTS_MAX)%Z →
  ∃ st3,
    add_critical_event serial' st2 = Returns tt st3
    ∧ serial_at st3 (Z.to_nat (devices_num (main_struct st)))
      = tail_event (flow_control st3)
    ∧ (initialized (main_struct st2) = true →
       no_fake_error FAKE_EVENT_SET_WAIT st2 →
       heap st2 !! l = Some es →
       registered (dev_events es) !! k = Some (Z.to_nat (devices_num (main_struct st))) →
       (∀ j q, j < k → registered (dev_events es) !! j = Some q →
               serial_at st2 q ≠ Some (take 63 (c_str (default [] serial')))) →
       ∃ st4,
         hlml_event_set_wait (Some l) (Some old) timeoutms st3
         = Returns (HLML_SUCCESS,
                    Some {| device := Some (Z.to_nat (devices_num (main_struct st)));
                            event_type := HLML_EVENT_CRITICAL_ERR |}) st4).
Proof.
  intros Hcrit Hwf Hadd Hwf2 Hsame Hroom.
  assert (serial_at st1 (Z.to_nat (devices_num (main_struct st)))
          = Some (take 63 (c_str (default [] serial')))) as Hkey.
  { destruct (add_device_inv _ _ _ _ _ _ _ Hadd)
      as (device_hex & vendor_hex & d & -> & -> & Hlt & Hold).
    rewrite (add_device_eq _ _ _ _ _ _ d) in Hadd by done. injection Hadd as <-.
    unfold serial_at.
    cbn [main_struct set_main_struct set_devices_num set_devices_info devices_info].
    rewrite list_lookup_insert_eq by (by eapply lookup_lt_Some). done. }
  destruct (add_critical_event_push serial' st2 Hwf2 Hroom)
    as (st3 & Hpush & Hwf3 & Hm3 & Hh3 & Hf3 & Hn3 & He3 & Ht3).
  assert (serial_at st3 (Z.to_nat (devices_num (main_struct st)))
          = Some (take 63 (c_str (default [] serial')))) as Hkey3.
  { unfold serial_at in *. by rewrite Hm3, Hsame. }
  exists st3. split; [done|]. split; [by rewrite Hkey3, Ht3|].
  intros Hinit Hno Hes Hk Hfirst.
  destruct (hlml_event_set_wait_pop st3 l es old timeoutms
              (take 63 (c_str (default [] serial'))) k
              (Z.to_nat (devices_num (main_struct st))) Hcrit Hwf3)
    as (st4 & Hwait & _); try done.
  - by rewrite Hm3.
  - unfold no_fake_error. by rewrite Hf3.
  - by rewrite Hh3.
  - apply list_find_Some. split_and!; [done|done|].
    intros j q Hj Hlt. unfold serial_at. rewrite Hm3. by eapply Hfirst.
  - by exists st4.
Qed.

(** ** What holds of every state the library can reach *)

(** X16. Every state reached from the freshly loaded library by a run of
    operations that all return, with device handles that point into the
    registry, is well formed: at most 8 devices and 8 pending events are
    counted, every stored serial and event is NUL-free and shorter than 64,
    the table has its 14 entries, and every slot of every live event set is
    empty or points into the registry. *)
Theorem reachable_states_well_formed (cs : list call) (st : state) :
  Forall valid_call cs →
  run_calls cs initial_state = Some st →
  wf_state st.
Proof. intros Hvalid Hrun. eapply run_calls_wf; [apply wf_initial_state|done..]. Qed.

Lemma register_loop_compact (device' : hlml_device_t) (es : hlml_event_set)
    (i : nat) (slots : list hlml_device_events) :
  length (dev_events es) = Z.to_nat DEVICES_MAX →
  compact_event_set es →
  register_loop device' (dev_events es) 0 (Z.to_nat DEVICES_MAX) = Some (i, slots) →
  compact_event_set {| dev_events := slots |}.
Proof.
  change (Z.to_nat DEVICES_MAX) with 8.
  intros Hlen (regs & k & Hslots & Hdup) Hloop.
  assert (length regs + k = 8) as Hsum.
  { rewrite Hslots in Hlen. rewrite length_app, length_fmap, length_replicate in Hlen. lia. }
  assert (registered (dev_events es) = regs) as Hregs.
  { rewrite Hslots, registered_app, registered_empty_slots. apply app_nil_r. }
  assert (compact_event_set {| dev_events := dev_events es |}) as Hsame
    by (exists regs, k; by split).
  destruct device' as [p|].
  - destruct (decide (p ∈ regs)) as [Hin|Hnew].
    + destruct (register_loop_registered p (dev_events es) 8 0) as (i' & _ & Hfound);
        [lia|by rewrite drop_0, Hregs|].
      rewrite Hfound in Hloop. by injection Hloop as <- <-.
    + destruct k as [|k].
      * rewrite register_loop_full in Hloop.
        -- by injection Hloop as <- <-.
        -- lia.
        -- intros j s Hs. rewrite Hslots in Hs. simpl in Hs. rewrite app_nil_r in Hs.
           apply list_lookup_fmap_Some_1 in Hs as (q & -> & Hq). simpl.
           split; [done|]. intros [= ->]. apply Hnew. by eapply list_elem_of_lookup_2.
      * rewrite Hslots in Hloop.
        change (replicate (S k) empty_slot) with (empty_slot :: replicate k empty_slot)
          in Hloop.
        rewrite register_loop_append in Hloop by (done || lia).
        injection Hloop as <- <-. exists (regs ++ [p]), k. split.
        -- cbn [dev_events]. rewrite fmap_app. simpl. by rewrite <- app_assoc.
        -- apply NoDup_app. split_and!; [done| |apply NoDup_singleton].
           intros q Hq ->%list_elem_of_singleton. done.
  - destruct k as [|k].
    + rewrite register_loop_full in Hloop.
      * by injection Hloop as <- <-.
      * lia.
      * intros j s Hs. rewrite Hslots in Hs. simpl in Hs. rewrite app_nil_r in Hs.
        by apply list_lookup_fmap_Some_1 in Hs as (q & -> & Hq).
    + rewrite Hslots in Hloop.
      change (replicate (S k) empty_slot) with (empty_slot :: replicate k empty_slot)
        in Hloop.
      rewrite register_loop_null in Hloop by lia.
      injection Hloop as <- <-. exists regs, (S k). by split.
Qed.

Lemma run_call_compact (c : call) (st st' : state) (r : option hlml_return_t) :
  wf_state st →
  map_Forall (λ _ es, compact_event_set es) (heap st) →
  run_call c st = Returns r st' →
  map_Forall (λ _ es, compact_event_set es) (heap st').
Proof.
  intros Hwf Hcompact Hrun.
  pose proof Hwf as (_ & _ & _ & _ & _ & _ & _ & Hheap).
  destruct c; simpl in Hrun; unfold_calls; cbv zeta in Hrun;
    repeat case_match; simplify_eq; try exact Hcompact;
    cbn [heap set_heap set_flow_control set_main_struct log_call printf] in *.
  - apply map_Forall_insert_2; [|done].
    match goal with H : heap st !! _ = Some _ |- _ =>
      eapply register_loop_compact; [by apply (Hheap _ _ H)|by apply (Hcompact _ _ H)|done]
    end.
  - apply map_Forall_insert_2; [|done].
    match goal with H : heap st !! _ = Some _ |- _ =>
      eapply register_loop_compact; [by apply (Hheap _ _ H)|by apply (Hcompact _ _ H)|done]
    end.
  - apply map_Forall_insert_2; [|done].
    exists [], 8. split; [done|apply NoDup_nil_2].
  - by apply map_Forall_delete.
Qed.

(** X17. In every state the library reaches, no live event set holds a device
    twice and none has a hole: the slots hold distinct devices and after them
    only empty slots, so the registered devices of an event set are all the
    devices in its slots and there are at most 8 of them. *)
Theorem reachable_event_sets_compact (cs : list call) (st : state) :
  Forall valid_call cs →
  run_calls cs initial_state = Some st →
  ∀ (l : nat) (es : hlml_event_set),
    heap st !! l = Some es →
    compact_event_set es
    ∧ NoDup (registered (dev_events es))
    ∧ length (registered (dev_events es)) ≤ 8
    ∧ ∀ i p, dev_events es !! i = Some (slot_of p) → p ∈ registered (dev_events es).
Proof.
  intros Hvalid Hrun.
  assert (wf_state st ∧ map_Forall (λ _ es, compact_event_set es) (heap st))
    as [Hwf Hcompact].
  { assert (wf_state initial_state
            ∧ map_Forall (λ _ es, compact_event_set es) (heap initial_state)) as Hstart.
    { split; [apply wf_initial_state|]. apply map_Forall_empty. }
    revert Hvalid Hrun Hstart. generalize initial_state.
    induction cs as [|c cs IH]; intros st0 Hvalid Hrun [Hwf0 Hc0]; simpl in Hrun.
    - by injection Hrun as <-.
    - apply Forall_cons in Hvalid as [Hc Hcs].
      destruct (run_call c st0) as [r st1| |] eqn:Hstep; try done.
      apply (IH st1); [done|done|]. split.
      + by eapply run_call_wf.
      + by eapply run_call_compact. }
  intros l es Hes.
  pose proof (Hcompact _ _ Hes) as Hc. destruct Hc as (regs & k & Hslots & Hdup).
  destruct Hwf as (_ & _ & _ & _ & _ & _ & _ & Hheap).
  destruct (Hheap _ _ Hes) as [Hlen _].
  assert (registered (dev_events es) = regs) as ->.
  { rewrite Hslots, registered_app, registered_empty_slots. apply app_nil_r. }
  split_and!.
  - by exists regs, k.
  - done.
  - rewrite Hslots, length_app, length_fmap in Hlen.
    change (Z.to_nat DEVICES_MAX) with 8 in Hlen. lia.
  - intros i p Hi. rewrite Hslots in Hi.
    apply lookup_app_Some in Hi as [Hi|[_ Hi]].
    + apply list_lookup_fmap_Some_1 in Hi as (q & [= ->] & Hq).
      by eapply list_elem_of_lookup_2.
    + apply lookup_replicate in Hi as [[=] _].
Qed.

(** X18. The error-injection table is an array of independent cells: for
    enumerated identities, two [set_error] calls for different operations
    commute, a second [set_error] for the same operation overrides the first,
    and setting an entry back to the value it had gives back the state there
    was, so [set_error(op, Success)] undoes an injection made in a clean
    table. *)
Theorem set_error_cells (op1 op2 : call_identity_t) (e1 e2 : hlml_return_t) (st : state) :
  wf_state st →
  (op1 < FAKE_CALL_IDENTITY_MAX)%N →
  (op2 < FAKE_CALL_IDENTITY_MAX)%N →
  ∃ st1 st2 st12,
    set_error op1 e1 st = Returns tt st1
    ∧ set_error op2 e2 st = Returns tt st2
    ∧ set_error op2 e2 st1 = Returns tt st12
    ∧ (op1 ≠ op2 → set_error op1 e1 st2 = Returns tt st12)
    ∧ (op1 = op2 → st12 = st2)
    ∧ ∀ e0, func_ret (flow_control st) !! N.to_nat op1 = Some e0 →
            set_error op1 e0 st1 = Returns tt st.
Proof.
  intros (_ & _ & _ & Hret & _) Hop1 Hop2.
  unfold set_error. rewrite !decide_True by done.
  rewrite !decide_True by lia.
  eexists _, _, _. split; [reflexivity|]. split; [reflexivity|].
  cbn [flow_control set_flow_control func_ret set_func_ret].
  rewrite !decide_True by (done || (rewrite ?length_insert; lia)).
  split; [reflexivity|]. split_and!.
  - intros Hne. unfold set_flow_control, set_func_ret. simpl. do 3 f_equal.
    apply list_insert_insert_ne. lia.
  - intros ->. unfold set_flow_control, set_func_ret. simpl.
    by rewrite list_insert_insert_eq.
  - intros e0 He0. unfold set_flow_control, set_func_ret. simpl.
    rewrite list_insert_insert_eq, (list_insert_id _ _ _ He0).
    rewrite !decide_True by (done || (rewrite ?length_insert; lia)).
    by destruct st as [? []].
Qed.

End Hlml.

(** ** The theorems at concrete inputs

    The parameters are instantiated with a PCI address buffer of 15 bytes and
    the event-type bit [2]; the states are those of the example runs. *)

Ltac by_computation := apply (bool_decide_unpack _); vm_compute; exact I.

Lemma hlml_event_set_wait_delivers_tail_event_witness :
  (2 ≠ 0)%Z
  ∧ wf_state (state_after 15 2 two_devices_armed)
  ∧ initialized (main_struct (state_after 15 2 two_devices_armed)) = true
  ∧ no_fake_error FAKE_EVENT_SET_WAIT (state_after 15 2 two_devices_armed)
  ∧ heap (state_after 15 2 two_devices_armed) !! 0 = Some armed_event_set
  ∧ ∃ st1 st2,
      add_critical_event (Some (string_to_chars "S2")) (state_after 15 2 two_devices_armed)
      = Returns tt st1
      ∧ hlml_event_set_wait 2 (Some 0) (Some {| device := None; event_type := 0 |}) 1000 st1
        = Returns (HLML_SUCCESS, Some {| device := Some 1; event_type := 2 |}) st2
      ∧ events_num (flow_control st2) = 0%Z
      ∧ ∀ old' timeoutms',
          hlml_event_set_wait 2 (Some 0) (Some old') timeoutms' st2
          = Returns (HLML_ERROR_TIMEOUT, Some old') (log_call "hlml_event_set_wait" st2).
Proof.
  assert (2 ≠ 0)%Z as Hcrit by discriminate.
  assert (wf_state (state_after 15 2 two_devices_armed)) as Hwf by by_computation.
  assert (initialized (main_struct (state_after 15 2 two_devices_armed)) = true)
    as Hinit by (vm_compute; reflexivity).
  assert (no_fake_error FAKE_EVENT_SET_WAIT (state_after 15 2 two_devices_armed))
    as Hno by (vm_compute; reflexivity).
  assert (heap (state_after 15 2 two_devices_armed) !! 0 = Some armed_event_set)
    as Hes by (vm_compute; reflexivity).
  repeat (split; [assumption|]).
  destruct (hlml_event_set_wait_delivers_tail_event 2 _ 0 armed_event_set
              {| device := None; event_type := 0 |} 1000 Hcrit Hwf Hinit Hno Hes)
    as (_ & _ & _ & _ & Hscenario).
  apply (Hscenario 0 1); vm_compute; reflexivity.
Defined.

Lemma injected_error_short_circuits_witness :
  HLML_ERROR_NOT_FOUND ≠ HLML_SUCCESS
  ∧ set_error FAKE_DEVICE_GET_COUNT HLML_ERROR_NOT_FOUND initial_state
    = Returns tt
        (state_after 15 2 [Call_set_error FAKE_DEVICE_GET_COUNT HLML_ERROR_NOT_FOUND])
  ∧ Forall (keeps_error FAKE_DEVICE_GET_COUNT) two_devices_armed
  ∧ run_calls 15 2 two_devices_armed
      (state_after 15 2 [Call_set_error FAKE_DEVICE_GET_COUNT HLML_ERROR_NOT_FOUND])
    = Some (state_after 15 2
              (Call_set_error FAKE_DEVICE_GET_COUNT HLML_ERROR_NOT_FOUND :: two_devices_armed))
  ∧ ∃ st3,
      run_call 15 2 (Call_hlml_device_get_count (Some 7%Z))
        (state_after 15 2
           (Call_set_error FAKE_DEVICE_GET_COUNT HLML_ERROR_NOT_FOUND :: two_devices_armed))
      = Returns (Some HLML_ERROR_NOT_FOUND) st3
      ∧ same_library_state
          (state_after 15 2
             (Call_set_error FAKE_DEVICE_GET_COUNT HLML_ERROR_NOT_FOUND :: two_devices_armed))
          st3.
Proof.
  assert (HLML_ERROR_NOT_FOUND ≠ HLML_SUCCESS) as Hne by discriminate.
  assert (set_error FAKE_DEVICE_GET_COUNT HLML_ERROR_NOT_FOUND initial_state
          = Returns tt
              (state_after 15 2 [Call_set_error FAKE_DEVICE_GET_COUNT HLML_ERROR_NOT_FOUND]))
    as Hset by (vm_compute; reflexivity).
  assert (Forall (keeps_error FAKE_DEVICE_GET_COUNT) two_devices_armed) as Hkeep
    by (repeat constructor).
  assert (run_calls 15 2 two_devices_armed
            (state_after 15 2 [Call_set_error FAKE_DEVICE_GET_COUNT HLML_ERROR_NOT_FOUND])
          = Some (state_after 15 2
                    (Call_set_error FAKE_DEVICE_GET_COUNT HLML_ERROR_NOT_FOUND
                     :: two_devices_armed)))
    as Hrun by (vm_compute; reflexivity).
  repeat (split; [assumption|]).
  destruct (injected_error_short_circuits 15 2 _ _ _ _ _ _ Hne Hset Hkeep Hrun)
    as (_ & Hcalls & _).
  apply (Hcalls (Call_hlml_device_get_count (Some 7%Z))); [reflexivity|].
  simpl. by eexists.
Defined.

(** The claim C2 fails at [hlml_device_get_name], which returns Success
    whatever is forced for [FAKE_DEVICE_GET_NAME], and at
    [hlml_device_get_serial], which aborts on a NULL buffer before it looks at
    the table and overwrites the first byte of the buffer when it returns the
    forced status. *)
Lemma injected_error_counterexample :
  set_error FAKE_DEVICE_GET_NAME HLML_ERROR_TIMEOUT initial_state
  = Returns tt (state_after 15 2 [Call_set_error FAKE_DEVICE_GET_NAME HLML_ERROR_TIMEOUT])
  ∧ hlml_device_get_name None (Some (string_to_chars "abc")) 3
      (state_after 15 2 [Call_set_error FAKE_DEVICE_GET_NAME HLML_ERROR_TIMEOUT])
    = Returns (HLML_SUCCESS, Some (string_to_chars "abc"))
        (log_call "hlml_device_get_name"
           (state_after 15 2 [Call_set_error FAKE_DEVICE_GET_NAME HLML_ERROR_TIMEOUT]))
  ∧ HLML_SUCCESS ≠ HLML_ERROR_TIMEOUT
  ∧ set_error FAKE_DEVICE_GET_SERIAL HLML_ERROR_TIMEOUT initial_state
    = Returns tt (state_after 15 2 [Call_set_error FAKE_DEVICE_GET_SERIAL HLML_ERROR_TIMEOUT])
  ∧ hlml_device_get_serial None None 64
      (state_after 15 2 [Call_set_error FAKE_DEVICE_GET_SERIAL HLML_ERROR_TIMEOUT])
    = Aborts
  ∧ hlml_device_get_serial None (Some (string_to_chars "abc")) 3
      (state_after 15 2 [Call_set_error FAKE_DEVICE_GET_SERIAL HLML_ERROR_TIMEOUT])
    = Returns (HLML_ERROR_TIMEOUT, Some (NUL :: string_to_chars "bc"))
        (log_call "hlml_device_get_serial"
           (state_after 15 2 [Call_set_error FAKE_DEVICE_GET_SERIAL HLML_ERROR_TIMEOUT]))
  ∧ NUL :: string_to_chars "bc" ≠ string_to_chars "abc".
Proof.
  split_and!; try (vm_compute; reflexivity); discriminate.
Qed.

Lemma hlml_device_get_handle_by_pci_bus_id_inverted_witness :
  wf_state (state_after 15 2 two_devices)
  ∧ initialized (main_struct (state_after 15 2 two_devices)) = true
  ∧ no_fake_error FAKE_DEVICE_GET_HANDLE_BY_PCI_BUS_ID (state_after 15 2 two_devices)
  ∧ hlml_device_get_handle_by_pci_bus_id 15 (Some (string_to_chars "0000:19:00.0"))
      (Some None) (state_after 15 2 two_devices)
    = Returns (HLML_SUCCESS, Some (Some 1))
        (log_call "hlml_device_get_handle_by_pci_bus_id" (state_after 15 2 two_devices)).
Proof.
  assert (wf_state (state_after 15 2 two_devices)) as Hwf by by_computation.
  assert (initialized (main_struct (state_after 15 2 two_devices)) = true)
    as Hinit by (vm_compute; reflexivity).
  assert (no_fake_error FAKE_DEVICE_GET_HANDLE_BY_PCI_BUS_ID (state_after 15 2 two_devices))
    as Hno by (vm_compute; reflexivity).
  repeat (split; [assumption|]).
  destruct (hlml_device_get_handle_by_pci_bus_id_inverted 15 _
              (string_to_chars "0000:19:00.0") None Hwf Hinit Hno) as (Hfirst & _).
  apply (Hfirst 1
           {| pci_addr := string_to_chars "0000:1a:00.0"; device_id := 4128;
              vendor_id := 7587; serial := string_to_chars "S2"; index := 1 |}).
  - vm_compute; reflexivity.
  - vm_compute; discriminate.
  - intros [|j] d' Hj Hd'; [|lia].
    vm_compute in Hd'. injection Hd' as <-. vm_compute. intros Hdiff. by apply Hdiff.
Defined.

Lemma hlml_device_register_events_idempotent_witness :
  wf_state (state_after 15 2 two_devices_armed)
  ∧ wf_state (state_after 15 2 eight_devices_armed)
  ∧ (∃ st1 st2,
       hlml_device_register_events (Some 1) 2 (Some 0) (state_after 15 2 two_devices_armed)
       = Returns HLML_SUCCESS st1
       ∧ hlml_device_register_events (Some 1) 2 (Some 0) st1 = Returns HLML_SUCCESS st2
       ∧ heap st2 = heap st1)
  ∧ (∃ st1,
       hlml_device_register_events None 2 (Some 0) (state_after 15 2 eight_devices_armed)
       = Returns HLML_ERROR_INVALID_ARGUMENT st1
       ∧ heap st1 = heap (state_after 15 2 eight_devices_armed)).
Proof.
  assert (wf_state (state_after 15 2 two_devices_armed)) as Hwf by by_computation.
  assert (wf_state (state_after 15 2 eight_devices_armed)) as Hwf8 by by_computation.
  repeat (split; [assumption|]). split.
  - destruct (hlml_device_register_events_idempotent (Some 1) 2 (Some 0) _ Hwf)
      as (Hagain & _).
    exists (state_after 15 2
              (two_devices_armed
               ++ [Call_hlml_device_register_events (Some 1) 2 (Some 0)])).
    assert (hlml_device_register_events (Some 1) 2 (Some 0)
              (state_after 15 2 two_devices_armed)
            = Returns HLML_SUCCESS
                (state_after 15 2
                   (two_devices_armed
                    ++ [Call_hlml_device_register_events (Some 1) 2 (Some 0)])))
      as Hfirst by (vm_compute; reflexivity).
    destruct (Hagain _ Hfirst) as (st2 & Hsecond & Hheap & _).
    exists st2. split; [exact Hfirst|]. split; [exact Hsecond|exact Hheap].
  - destruct (hlml_device_register_events_idempotent None 2 (Some 0) _ Hwf8)
      as (_ & _ & Hfull).
    destruct (Hfull 0 full_event_set) as (st1 & Hcall & Hheap & _).
    + reflexivity.
    + vm_compute; reflexivity.
    + vm_compute; reflexivity.
    + intros i s Hs. do 8 (destruct i as [|i]; [injection Hs as <-; by split|]).
      discriminate.
    + exists st1. split; [exact Hcall|exact Hheap].
Defined.

Lemma events_num_never_exceeds_bound_witness :
  (0 ≤ events_num
         (flow_control
            (state_after 15 2 (replicate 8 (Call_add_critical_event
                                              (Some (string_to_chars "S1"))))))
   ≤ FAKE_EVENTS_MAX)%Z
  ∧ events_num
      (flow_control
         (state_after 15 2 (replicate 8 (Call_add_critical_event
                                           (Some (string_to_chars "S1"))))))
    = 8%Z
  ∧ ∃ st',
      add_critical_event (Some (string_to_chars "S2"))
        (state_after 15 2 (replicate 8 (Call_add_critical_event
                                          (Some (string_to_chars "S1")))))
      = Returns tt st'
      ∧ flow_control st'
        = flow_control
            (state_after 15 2 (replicate 8 (Call_add_critical_event
                                              (Some (string_to_chars "S1"))))).
Proof.
  assert (0 ≤ events_num
                (flow_control
                   (state_after 15 2 (replicate 8 (Call_add_critical_event
                                                     (Some (string_to_chars "S1"))))))
          ≤ FAKE_EVENTS_MAX)%Z as Hbound by (vm_compute; split; discriminate).
  split; [assumption|]. split; [vm_compute; reflexivity|].
  destruct (events_num_never_exceeds_bound 15 2 _ Hbound) as (Hfull & _).
  destruct (Hfull (Some (string_to_chars "S2"))) as (st' & Hadd & Hflow & _).
  - vm_compute; reflexivity.
  - by exists st'.
Defined.

Lemma reset_idempotent_and_clears_witness :
  wf_state (state_after 15 2
              (Call_set_error FAKE_SHUTDOWN HLML_ERROR_MEMORY :: two_devices_armed
               ++ [Call_add_critical_event (Some (string_to_chars "S2"))]))
  ∧ ∃ st1,
      reset (state_after 15 2
               (Call_set_error FAKE_SHUTDOWN HLML_ERROR_MEMORY :: two_devices_armed
                ++ [Call_add_critical_event (Some (string_to_chars "S2"))]))
      = Returns tt st1
      ∧ reset st1 = Returns tt st1
      ∧ devices_num (main_struct st1) = 0%Z
      ∧ initialized (main_struct st1) = false
      ∧ func_ret (flow_control st1) !! N.to_nat FAKE_SHUTDOWN = Some HLML_SUCCESS
      ∧ events_num (flow_control st1) = 0%Z.
Proof.
  assert (wf_state (state_after 15 2
            (Call_set_error FAKE_SHUTDOWN HLML_ERROR_MEMORY :: two_devices_armed
             ++ [Call_add_critical_event (Some (string_to_chars "S2"))])))
    as Hwf by by_computation.
  split; [assumption|].
  destruct (reset_idempotent_and_clears _ Hwf)
    as (st1 & Hreset & Hagain & Hnum & Hinit & _ & Htable & Hevents).
  exists st1. repeat split; try assumption. by apply Htable.
Defined.

Lemma hlml_device_get_handle_by_index_first_match_witness :
  wf_state (state_after 15 2 two_devices)
  ∧ initialized (main_struct (state_after 15 2 two_devices)) = true
  ∧ no_fake_error FAKE_DEVICE_GET_HANDLE_BY_INDEX (state_after 15 2 two_devices)
  ∧ (0 ≤ 1 < 2 ^ 31)%Z
  ∧ hlml_device_get_handle_by_index 1 (Some None) (state_after 15 2 two_devices)
    = Returns (HLML_SUCCESS, Some (Some 1))
        (log_call "hlml_device_get_handle_by_index" (state_after 15 2 two_devices))
  ∧ hlml_device_get_handle_by_index 2 (Some None) (state_after 15 2 two_devices)
    = Returns (HLML_ERROR_INVALID_ARGUMENT, Some None)
        (log_call "hlml_device_get_handle_by_index" (state_after 15 2 two_devices)).
Proof.
  assert (wf_state (state_after 15 2 two_devices)) as Hwf by by_computation.
  assert (initialized (main_struct (state_after 15 2 two_devices)) = true)
    as Hinit by (vm_compute; reflexivity).
  assert (no_fake_error FAKE_DEVICE_GET_HANDLE_BY_INDEX (state_after 15 2 two_devices))
    as Hno by (vm_compute; reflexivity).
  assert (0 ≤ 1 < 2 ^ 31)%Z as Hone by (split; [discriminate|reflexivity]).
  assert (0 ≤ 2 < 2 ^ 31)%Z as Htwo by (split; [discriminate|reflexivity]).
  repeat (split; [assumption|]). split.
  - destruct (hlml_device_get_handle_by_index_first_match _ 1 None Hwf Hinit Hno Hone)
      as (_ & _ & Hfound & _).
    apply (Hfound 1
             {| pci_addr := string_to_chars "0000:1a:00.0"; device_id := 4128;
                vendor_id := 7587; serial := string_to_chars "S2"; index := 1 |}).
    + vm_compute; reflexivity.
    + vm_compute; reflexivity.
    + reflexivity.
    + intros [|j] d' Hj Hd'; [|lia].
      vm_compute in Hd'. injection Hd' as <-. simpl. discriminate.
  - destruct (hlml_device_get_handle_by_index_first_match _ 2 None Hwf Hinit Hno Htwo)
      as (_ & Hinvalid & _).
    apply Hinvalid. vm_compute. discriminate.
Defined.

(** The claim C7 fails for a registered device whose [index] is not below
    the device count: the single device of [one_device 5] has index 5 and the
    lookup of 5 reports InvalidArgument. *)
Lemma hlml_device_get_handle_by_index_counterexample :
  initialized (main_struct (state_after 15 2 (one_device 5))) = true
  ∧ no_fake_error FAKE_DEVICE_GET_HANDLE_BY_INDEX (state_after 15 2 (one_device 5))
  ∧ index <$> (registered_devices (state_after 15 2 (one_device 5)) !! 0) = Some 5%Z
  ∧ hlml_device_get_handle_by_index 5 (Some None) (state_after 15 2 (one_device 5))
    = Returns (HLML_ERROR_INVALID_ARGUMENT, Some None)
        (log_call "hlml_device_get_handle_by_index" (state_after 15 2 (one_device 5))).
Proof.
  split_and!; vm_compute; reflexivity.
Qed.

(** C8. For a non-NULL device, a buffer of 2^31 bytes and no forced status,
    [hlml_device_get_serial] reports InsufficientSize although the length is
    not below the maximum serial length of 64: the comparison reads the
    length as an [int], and 2^31 is negative there. For every length below
    2^31 the call does what is specified ([hlml_device_get_serial_cases]). *)
Theorem hlml_device_get_serial_huge_buffer :
  length huge_buffer = Z.to_nat huge_length
  ∧ (SERIAL_MAX ≤ huge_length < 2 ^ 32)%Z
  ∧ no_fake_error FAKE_DEVICE_GET_SERIAL (state_after 15 2 two_devices)
  ∧ serial_at (state_after 15 2 two_devices) 1 = Some (string_to_chars "S2")
  ∧ hlml_device_get_serial (Some 1) (Some huge_buffer) huge_length
      (state_after 15 2 two_devices)
    = Returns (HLML_ERROR_INSUFFICIENT_SIZE, Some huge_buffer)
        (log_call "hlml_device_get_serial" (state_after 15 2 two_devices)).
Proof.
  split; [apply length_replicate|].
  split; [split; [discriminate|reflexivity]|].
  assert (no_fake_error FAKE_DEVICE_GET_SERIAL (state_after 15 2 two_devices)) as Hno
    by (vm_compute; reflexivity).
  split; [assumption|].
  split; [vm_compute; reflexivity|].
  apply hlml_device_get_serial_insufficient; [reflexivity|assumption|reflexivity].
Qed.

(** The same call with a buffer of 64 bytes copies the serial. *)
Lemma hlml_device_get_serial_64 :
  ∃ buf',
    hlml_device_get_serial (Some 1) (Some (replicate 64 "x"%char)) 64
      (state_after 15 2 two_devices)
    = Returns (HLML_SUCCESS, Some buf')
        (log_call "hlml_device_get_serial" (state_after 15 2 two_devices))
    ∧ c_str buf' = string_to_chars "S2"
    ∧ length buf' = 64.
Proof.
  assert (wf_state (state_after 15 2 two_devices)) as Hwf by by_computation.
  assert (0 < 64 < 2 ^ 32)%Z as Hlen by (vm_compute; split; reflexivity).
  destruct (hlml_device_get_serial_cases _ (Some 1) "x"%char (replicate 63 "x"%char)
              64 Hwf Hlen) as (_ & Hrest).
  destruct Hrest as (_ & _ & Hcopy); [vm_compute; reflexivity|].
  apply (Hcopy 1
           {| pci_addr := string_to_chars "0000:1a:00.0"; device_id := 4128;
              vendor_id := 7587; serial := string_to_chars "S2"; index := 1 |}).
  - reflexivity.
  - vm_compute; reflexivity.
  - vm_compute. split; [discriminate|reflexivity].
  - vm_compute. lia.
Qed.

Lemma set_error_overwrites_one_entry_witness :
  wf_state initial_state
  ∧ (FAKE_EVENT_SET_WAIT < FAKE_CALL_IDENTITY_MAX)%N
  ∧ ∃ st',
      set_error FAKE_EVENT_SET_WAIT HLML_ERROR_TIMEOUT initial_state = Returns tt st'
      ∧ func_ret (flow_control st') !! N.to_nat FAKE_EVENT_SET_WAIT
        = Some HLML_ERROR_TIMEOUT
      ∧ func_ret (flow_control st') !! N.to_nat FAKE_INIT = Some HLML_SUCCESS.
Proof.
  assert (wf_state initial_state) as Hwf by by_computation.
  assert (FAKE_EVENT_SET_WAIT < FAKE_CALL_IDENTITY_MAX)%N as Hlt by reflexivity.
  repeat (split; [assumption|]).
  destruct (set_error_overwrites_one_entry FAKE_EVENT_SET_WAIT HLML_ERROR_TIMEOUT _ Hwf)
    as (Hin & _).
  destruct (Hin Hlt) as (st' & Hset & Hnew & Hother & _).
  exists st'. repeat split; try assumption.
  rewrite (Hother FAKE_INIT); [reflexivity|discriminate].
Defined.

Lemma hlml_device_get_count_ignores_initialized_witness :
  wf_state (state_after 15 2 eight_devices)
  ∧ no_fake_error FAKE_DEVICE_GET_COUNT (state_after 15 2 eight_devices)
  ∧ initialized (main_struct (state_after 15 2 eight_devices)) = false
  ∧ hlml_device_get_count (Some 0%Z) (state_after 15 2 eight_devices)
    = Returns (HLML_SUCCESS, Some 8%Z)
        (log_call "hlml_device_get_count" (state_after 15 2 eight_devices)).
Proof.
  assert (wf_state (state_after 15 2 eight_devices)) as Hwf by by_computation.
  assert (no_fake_error FAKE_DEVICE_GET_COUNT (state_after 15 2 eight_devices))
    as Hno by (vm_compute; reflexivity).
  repeat (split; [assumption|]). split; [vm_compute; reflexivity|].
  destruct (hlml_device_get_count_ignores_initialized 15 _ Hwf Hno) as (Hcount & _).
  apply Hcount.
Defined.

(** ** The further properties at concrete inputs *)

Lemma add_device_appends_witness :
  wf_state (state_after 15 2 two_devices)
  ∧ ∃ st',
      add_device 15 (Some (string_to_chars "0000:1b:00.0")) (Some (string_to_chars "1020"))
        (Some (string_to_chars "1da3")) (Some (string_to_chars "S3")) 2
        (state_after 15 2 two_devices)
      = Returns tt st'
      ∧ devices_num (main_struct st') = 3%Z.
Proof.
  assert (wf_state (state_after 15 2 two_devices)) as Hwf by by_computation.
  split; [assumption|].
  destruct (add_device_appends 15 (Some (string_to_chars "0000:1b:00.0"))
              (Some (string_to_chars "1020")) (Some (string_to_chars "1da3"))
              (Some (string_to_chars "S3")) 2 _ Hwf) as [Hiff Heffect].
  destruct (proj2 Hiff) as [st' Hst'].
  { split; [vm_compute; reflexivity|]. split; eexists; reflexivity. }
  exists st'. split; [exact Hst'|].
  destruct (Heffect st' Hst') as [Hnum _].
  rewrite Hnum. vm_compute. reflexivity.
Defined.

Lemma add_device_get_serial_round_trip_witness :
  wf_state initial_state
  ∧ add_device 15 (Some (string_to_chars "0000:19:00.0")) (Some (string_to_chars "1020"))
      (Some (string_to_chars "1da3")) (Some (string_to_chars "S1")) 0 initial_state
    = Returns tt (state_after 15 2 [Call_add_device (Some (string_to_chars "0000:19:00.0"))
                                      (Some (string_to_chars "1020"))
                                      (Some (string_to_chars "1da3"))
                                      (Some (string_to_chars "S1")) 0])
  ∧ no_fake_error FAKE_DEVICE_GET_SERIAL initial_state
  ∧ (SERIAL_MAX ≤ 64 < 2 ^ 31)%Z
  ∧ Z.to_nat 64 ≤ length (replicate 64 "x"%char)
  ∧ ∃ buf',
      hlml_device_get_serial (Some (Z.to_nat (devices_num (main_struct initial_state))))
        (Some (replicate 64 "x"%char)) 64
        (state_after 15 2 [Call_add_device (Some (string_to_chars "0000:19:00.0"))
                             (Some (string_to_chars "1020"))
                             (Some (string_to_chars "1da3"))
                             (Some (string_to_chars "S1")) 0])
      = Returns (HLML_SUCCESS, Some buf')
          (log_call "hlml_device_get_serial"
             (state_after 15 2 [Call_add_device (Some (string_to_chars "0000:19:00.0"))
                                  (Some (string_to_chars "1020"))
                                  (Some (string_to_chars "1da3"))
                                  (Some (string_to_chars "S1")) 0]))
      ∧ c_str buf' = take 63 (c_str (default [] (Some (string_to_chars "S1"))))
      ∧ length buf' = length (replicate 64 "x"%char).
Proof.
  assert (wf_state initial_state) as Hwf by by_computation.
  assert (add_device 15 (Some (string_to_chars "0000:19:00.0"))
            (Some (string_to_chars "1020")) (Some (string_to_chars "1da3"))
            (Some (string_to_chars "S1")) 0 initial_state
          = Returns tt (state_after 15 2 [Call_add_device
                                            (Some (string_to_chars "0000:19:00.0"))
                                            (Some (string_to_chars "1020"))
                                            (Some (string_to_chars "1da3"))
                                            (Some (string_to_chars "S1")) 0]))
    as Hadd by (vm_compute; reflexivity).
  assert (no_fake_error FAKE_DEVICE_GET_SERIAL initial_state) as Hno
    by (vm_compute; reflexivity).
  assert (SERIAL_MAX ≤ 64 < 2 ^ 31)%Z as Hlen by (unfold SERIAL_MAX; lia).
  assert (Z.to_nat 64 ≤ length (replicate 64 "x"%char)) as Hbuf by by_computation.
  repeat (split; [assumption|]).
  exact (add_device_get_serial_round_trip 15 _ _ _ _ _ _ _ _ _ Hwf Hadd Hno Hlen Hbuf).
Defined.

Lemma hlml_init_two_table_entries_witness :
  func_ret (flow_control
              (state_after 15 2 [Call_set_error FAKE_INIT_WITH_FLAGS HLML_ERROR_NOT_FOUND]))
    !! N.to_nat FAKE_INIT = Some HLML_SUCCESS
  ∧ func_ret (flow_control
                (state_after 15 2 [Call_set_error FAKE_INIT_WITH_FLAGS HLML_ERROR_NOT_FOUND]))
      !! N.to_nat FAKE_INIT_WITH_FLAGS = Some HLML_ERROR_NOT_FOUND
  ∧ ∃ st',
      hlml_init (state_after 15 2 [Call_set_error FAKE_INIT_WITH_FLAGS HLML_ERROR_NOT_FOUND])
      = Returns HLML_ERROR_NOT_FOUND st'
      ∧ same_library_state
          (state_after 15 2 [Call_set_error FAKE_INIT_WITH_FLAGS HLML_ERROR_NOT_FOUND]) st'.
Proof.
  assert (func_ret (flow_control
                      (state_after 15 2
                         [Call_set_error FAKE_INIT_WITH_FLAGS HLML_ERROR_NOT_FOUND]))
            !! N.to_nat FAKE_INIT = Some HLML_SUCCESS) as Hinit
    by (vm_compute; reflexivity).
  assert (func_ret (flow_control
                      (state_after 15 2
                         [Call_set_error FAKE_INIT_WITH_FLAGS HLML_ERROR_NOT_FOUND]))
            !! N.to_nat FAKE_INIT_WITH_FLAGS = Some HLML_ERROR_NOT_FOUND) as Hflags
    by (vm_compute; reflexivity).
  repeat (split; [assumption|]).
  destruct (hlml_init_two_table_entries _ _ _ Hinit Hflags) as (_ & Hsecond & _).
  apply Hsecond; [reflexivity|discriminate].
Defined.

Lemma add_device_lookup_by_index_round_trip_witness :
  wf_state initial_state
  ∧ add_device 15 (Some (string_to_chars "0000:19:00.0")) (Some (string_to_chars "1020"))
      (Some (string_to_chars "1da3")) (Some (string_to_chars "S1")) 0 initial_state
    = Returns tt (state_after 15 2 [Call_add_device (Some (string_to_chars "0000:19:00.0"))
                                      (Some (string_to_chars "1020"))
                                      (Some (string_to_chars "1da3"))
                                      (Some (string_to_chars "S1")) 0])
  ∧ hlml_init (state_after 15 2 [Call_add_device (Some (string_to_chars "0000:19:00.0"))
                                   (Some (string_to_chars "1020"))
                                   (Some (string_to_chars "1da3"))
                                   (Some (string_to_chars "S1")) 0])
    = Returns HLML_SUCCESS (state_after 15 2 (one_device 0))
  ∧ no_fake_error FAKE_DEVICE_GET_HANDLE_BY_INDEX initial_state
  ∧ (0 ≤ 0 ≤ devices_num (main_struct initial_state))%Z
  ∧ (∀ d, d ∈ registered_devices initial_state → index d ≠ 0%Z)
  ∧ hlml_device_get_handle_by_index 0 (Some None) (state_after 15 2 (one_device 0))
    = Returns (HLML_SUCCESS,
               Some (Some (Z.to_nat (devices_num (main_struct initial_state)))))
        (log_call "hlml_device_get_handle_by_index" (state_after 15 2 (one_device 0))).
Proof.
  assert (wf_state initial_state) as Hwf by by_computation.
  assert (add_device 15 (Some (string_to_chars "0000:19:00.0"))
            (Some (string_to_chars "1020")) (Some (string_to_chars "1da3"))
            (Some (string_to_chars "S1")) 0 initial_state
          = Returns tt (state_after 15 2 [Call_add_device
                                            (Some (string_to_chars "0000:19:00.0"))
                                            (Some (string_to_chars "1020"))
                                            (Some (string_to_chars "1da3"))
                                            (Some (string_to_chars "S1")) 0]))
    as Hadd by (vm_compute; reflexivity).
  assert (hlml_init (state_after 15 2 [Call_add_device
                                         (Some (string_to_chars "0000:19:00.0"))
                                         (Some (string_to_chars "1020"))
                                         (Some (string_to_chars "1da3"))
                                         (Some (string_to_chars "S1")) 0])
          = Returns HLML_SUCCESS (state_after 15 2 (one_device 0)))
    as Hinit by (vm_compute; reflexivity).
  assert (no_fake_error FAKE_DEVICE_GET_HANDLE_BY_INDEX initial_state) as Hno
    by (vm_compute; reflexivity).
  assert (0 ≤ 0 ≤ devices_num (main_struct initial_state))%Z as Hindex
    by (split; vm_compute; discriminate).
  assert (∀ d, d ∈ registered_devices initial_state → index d ≠ 0%Z) as Hfresh.
  { intros d Hd. vm_compute in Hd. inversion Hd. }
  repeat (split; [assumption|]).
  exact (add_device_lookup_by_index_round_trip 15 _ _ _ _ _ _ _ _ None
           Hwf Hadd Hinit Hno Hindex Hfresh).
Defined.


Lemma run_call_frame_witness :
  run_call 15 2 (Call_add_critical_event (Some (string_to_chars "S2")))
    (state_after 15 2 two_devices_armed)
  = Returns None
      (state_after 15 2
         (two_devices_armed ++ [Call_add_critical_event (Some (string_to_chars "S2"))]))
  ∧ unchanged Device_registry (state_after 15 2 two_devices_armed)
      (state_after 15 2
         (two_devices_armed ++ [Call_add_critical_event (Some (string_to_chars "S2"))]))
  ∧ unchanged Event_sets (state_after 15 2 two_devices_armed)
      (state_after 15 2
         (two_devices_armed ++ [Call_add_critical_event (Some (string_to_chars "S2"))])).
Proof.
  assert (run_call 15 2 (Call_add_critical_event (Some (string_to_chars "S2")))
            (state_after 15 2 two_devices_armed)
          = Returns None
              (state_after 15 2
                 (two_devices_armed
                  ++ [Call_add_critical_event (Some (string_to_chars "S2"))])))
    as Hrun by (vm_compute; reflexivity).
  split; [assumption|].
  destruct (run_call_frame 15 2 _ _ _ _ Hrun) as [Hframe _].
  split; apply Hframe; by_computation.
Defined.

Lemma uninitialized_before_arguments_witness :
  tests_initialized (Call_hlml_event_set_create false None)
  ∧ call_identity (Call_hlml_event_set_create false None) = Some FAKE_EVENT_SET_CREATE
  ∧ no_fake_error FAKE_EVENT_SET_CREATE initial_state
  ∧ ∃ st',
      run_call 15 2 (Call_hlml_event_set_create false None) initial_state
      = Returns (Some HLML_ERROR_UNINITIALIZED) st'
      ∧ same_library_state initial_state st'.
Proof.
  assert (tests_initialized (Call_hlml_event_set_create false None)) as Htests by exact I.
  assert (call_identity (Call_hlml_event_set_create false None)
          = Some FAKE_EVENT_SET_CREATE) as Hop by reflexivity.
  assert (no_fake_error FAKE_EVENT_SET_CREATE initial_state) as Hno
    by (vm_compute; reflexivity).
  repeat (split; [assumption|]).
  destruct (uninitialized_before_arguments 15 2 _ _ _ Htests Hop Hno) as [Hclear _].
  apply Hclear. vm_compute. reflexivity.
Defined.

Lemma hlml_event_set_create_fresh_witness :
  wf_state (state_after 15 2 two_devices)
  ∧ initialized (main_struct (state_after 15 2 two_devices)) = true
  ∧ no_fake_error FAKE_EVENT_SET_CREATE (state_after 15 2 two_devices)
  ∧ ∃ l st',
      hlml_event_set_create false (Some None) (state_after 15 2 two_devices)
      = Returns (HLML_SUCCESS, Some (Some l)) st'
      ∧ heap (state_after 15 2 two_devices) !! l = None
      ∧ heap st' !! l = Some zero_event_set.
Proof.
  assert (wf_state (state_after 15 2 two_devices)) as Hwf by by_computation.
  assert (initialized (main_struct (state_after 15 2 two_devices)) = true) as Hinit
    by (vm_compute; reflexivity).
  assert (no_fake_error FAKE_EVENT_SET_CREATE (state_after 15 2 two_devices)) as Hno
    by (vm_compute; reflexivity).
  repeat (split; [assumption|]).
  destruct (hlml_event_set_create_fresh 2 _ None Hwf Hinit Hno)
    as (_ & l & st' & Hcreate & Hfresh & Hzero & _).
  exists l, st'. split; [exact Hcreate|]. split; [exact Hfresh|exact Hzero].
Defined.

Lemma hlml_event_set_create_free_round_trip_witness :
  wf_state (state_after 15 2 two_devices)
  ∧ hlml_event_set_create false (Some None) (state_after 15 2 two_devices)
    = Returns (HLML_SUCCESS, Some (Some 0))
        (state_after 15 2 (two_devices ++ [Call_hlml_event_set_create false (Some None)]))
  ∧ no_fake_error FAKE_EVENT_SET_FREE (state_after 15 2 two_devices)
  ∧ ∃ st2,
      hlml_event_set_free (Some 0)
        (state_after 15 2 (two_devices ++ [Call_hlml_event_set_create false (Some None)]))
      = Returns HLML_SUCCESS st2
      ∧ heap st2 = heap (state_after 15 2 two_devices)
      ∧ hlml_event_set_free (Some 0) st2 = Undefined.
Proof.
  assert (wf_state (state_after 15 2 two_devices)) as Hwf by by_computation.
  assert (hlml_event_set_create false (Some None) (state_after 15 2 two_devices)
          = Returns (HLML_SUCCESS, Some (Some 0))
              (state_after 15 2
                 (two_devices ++ [Call_hlml_event_set_create false (Some None)])))
    as Hcreate by (vm_compute; reflexivity).
  assert (no_fake_error FAKE_EVENT_SET_FREE (state_after 15 2 two_devices)) as Hno
    by (vm_compute; reflexivity).
  repeat (split; [assumption|]).
  destruct (hlml_event_set_create_free_round_trip 2 _ _ _ _ Hwf Hcreate Hno)
    as (st2 & Hfree & Hheap & _ & _ & Hagain & _).
  exists st2. split; [exact Hfree|]. split; [exact Hheap|exact Hagain].
Defined.

Lemma reset_events_only_empties_queue_witness :
  wf_state (state_after 15 2
              (two_devices_armed ++ [Call_add_critical_event (Some (string_to_chars "S2"))]))
  ∧ ∃ st',
      reset_events
        (state_after 15 2
           (two_devices_armed ++ [Call_add_critical_event (Some (string_to_chars "S2"))]))
      = Returns tt st'
      ∧ events_num (flow_control st') = 0%Z
      ∧ events (flow_control st')
        = events (flow_control
                    (state_after 15 2
                       (two_devices_armed
                        ++ [Call_add_critical_event (Some (string_to_chars "S2"))]))).
Proof.
  assert (wf_state (state_after 15 2
                      (two_devices_armed
                       ++ [Call_add_critical_event (Some (string_to_chars "S2"))])))
    as Hwf by by_computation.
  split; [assumption|].
  destruct (reset_events_only_empties_queue 2 _ Hwf) as (st' & Hreset & Hnum & Hevents & _).
  exists st'. split; [exact Hreset|]. split; [exact Hnum|exact Hevents].
Defined.

Lemma hlml_device_register_events_appends_witness :
  heap (state_after 15 2
          (two_devices ++ [Call_hlml_event_set_create false (Some None);
                           Call_hlml_device_register_events (Some 0) 2 (Some 0)]))
    !! 0 = Some {| dev_events := (slot_of <$> [0]) ++ replicate 7 empty_slot |}
  ∧ dev_events {| dev_events := (slot_of <$> [0]) ++ replicate 7 empty_slot |}
    = (slot_of <$> [0]) ++ replicate 7 empty_slot
  ∧ (Z.of_nat (length [0]) < DEVICES_MAX)%Z
  ∧ no_fake_error FAKE_DEVICE_REGISTER_EVENTS
      (state_after 15 2
         (two_devices ++ [Call_hlml_event_set_create false (Some None);
                          Call_hlml_device_register_events (Some 0) 2 (Some 0)]))
  ∧ (1 ∉ [0])
  ∧ ∃ st',
      hlml_device_register_events (Some 1) 2 (Some 0)
        (state_after 15 2
           (two_devices ++ [Call_hlml_event_set_create false (Some None);
                            Call_hlml_device_register_events (Some 0) 2 (Some 0)]))
      = Returns HLML_SUCCESS st'
      ∧ heap st'
        = <[0 := {| dev_events := (slot_of <$> [0] ++ [1]) ++ replicate 6 empty_slot |}]>
            (heap (state_after 15 2
                     (two_devices
                      ++ [Call_hlml_event_set_create false (Some None);
                          Call_hlml_device_register_events (Some 0) 2 (Some 0)]))).
Proof.
  assert (heap (state_after 15 2
                  (two_devices ++ [Call_hlml_event_set_create false (Some None);
                                   Call_hlml_device_register_events (Some 0) 2 (Some 0)]))
            !! 0 = Some {| dev_events := (slot_of <$> [0]) ++ replicate 7 empty_slot |})
    as Hes by (vm_compute; reflexivity).
  assert (dev_events {| dev_events := (slot_of <$> [0]) ++ replicate 7 empty_slot |}
          = (slot_of <$> [0]) ++ replicate 7 empty_slot) as Hslots by reflexivity.
  assert (Z.of_nat (length [0]) < DEVICES_MAX)%Z as Hroom by (vm_compute; reflexivity).
  assert (no_fake_error FAKE_DEVICE_REGISTER_EVENTS
            (state_after 15 2
               (two_devices ++ [Call_hlml_event_set_create false (Some None);
                                Call_hlml_device_register_events (Some 0) 2 (Some 0)])))
    as Hno by (vm_compute; reflexivity).
  assert (1 ∉ [0]) as Hnew by by_computation.
  repeat (split; [assumption|]).
  destruct (hlml_device_register_events_appends 1 [0] 6 2 0 _ _ Hes Hslots Hroom Hno)
    as (Happend & _).
  destruct (Happend Hnew) as (st' & Hregister & Hheap & _).
  exists st'. split; [exact Hregister|exact Hheap].
Defined.

Lemma hlml_event_set_wait_last_in_first_out_witness :
  (2 ≠ 0)%Z
  ∧ wf_state (state_after 15 2 two_devices_armed)
  ∧ initialized (main_struct (state_after 15 2 two_devices_armed)) = true
  ∧ no_fake_error FAKE_EVENT_SET_WAIT (state_after 15 2 two_devices_armed)
  ∧ heap (state_after 15 2 two_devices_armed) !! 0 = Some armed_event_set
  ∧ (events_num (flow_control (state_after 15 2 two_devices_armed)) + 2 ≤ FAKE_EVENTS_MAX)%Z
  ∧ list_find
      (λ q, serial_at (state_after 15 2 two_devices_armed) q
            = Some (take 63 (c_str (default [] (Some (string_to_chars "S1"))))))
      (registered (dev_events armed_event_set)) = Some (0, 0)
  ∧ list_find
      (λ q, serial_at (state_after 15 2 two_devices_armed) q
            = Some (take 63 (c_str (default [] (Some (string_to_chars "S2"))))))
      (registered (dev_events armed_event_set)) = Some (1, 1)
  ∧ ∃ st1 st2 st3 st4,
      add_critical_event (Some (string_to_chars "S1")) (state_after 15 2 two_devices_armed)
      = Returns tt st1
      ∧ add_critical_event (Some (string_to_chars "S2")) st1 = Returns tt st2
      ∧ hlml_event_set_wait 2 (Some 0) (Some {| device := None; event_type := 0 |}) 1000 st2
        = Returns (HLML_SUCCESS, Some {| device := Some 1; event_type := 2 |}) st3
      ∧ hlml_event_set_wait 2 (Some 0) (Some {| device := None; event_type := 0 |}) 1000 st3
        = Returns (HLML_SUCCESS, Some {| device := Some 0; event_type := 2 |}) st4
      ∧ events_num (flow_control st4)
        = events_num (flow_control (state_after 15 2 two_devices_armed)).
Proof.
  assert (2 ≠ 0)%Z as Hcrit by discriminate.
  assert (wf_state (state_after 15 2 two_devices_armed)) as Hwf by by_computation.
  assert (initialized (main_struct (state_after 15 2 two_devices_armed)) = true)
    as Hinit by (vm_compute; reflexivity).
  assert (no_fake_error FAKE_EVENT_SET_WAIT (state_after 15 2 two_devices_armed))
    as Hno by (vm_compute; reflexivity).
  assert (heap (state_after 15 2 two_devices_armed) !! 0 = Some armed_event_set)
    as Hes by (vm_compute; reflexivity).
  assert (events_num (flow_control (state_after 15 2 two_devices_armed)) + 2
          ≤ FAKE_EVENTS_MAX)%Z as Hroom by (vm_compute; discriminate).
  assert (list_find
            (λ q, serial_at (state_after 15 2 two_devices_armed) q
                  = Some (take 63 (c_str (default [] (Some (string_to_chars "S1"))))))
            (registered (dev_events armed_event_set)) = Some (0, 0))
    as Hfirst by (vm_compute; reflexivity).
  assert (list_find
            (λ q, serial_at (state_after 15 2 two_devices_armed) q
                  = Some (take 63 (c_str (default [] (Some (string_to_chars "S2"))))))
            (registered (dev_events armed_event_set)) = Some (1, 1))
    as Hsecond by (vm_compute; reflexivity).
  repeat (split; [assumption|]).
  exact (hlml_event_set_wait_last_in_first_out 2 _ 0 armed_event_set
           {| device := None; event_type := 0 |} 1000 _ _ 0 0 1 1
           Hcrit Hwf Hinit Hno Hes Hroom Hfirst Hsecond).
Defined.

Lemma reset_keeps_event_sets_and_records_witness :
  (2 ≠ 0)%Z
  ∧ wf_state (state_after 15 2 two_devices_armed)
  ∧ heap (state_after 15 2 two_devices_armed) !! 0 = Some armed_event_set
  ∧ list_find
      (λ q, serial_at (state_after 15 2 two_devices_armed) q
            = Some (take 63 (c_str (default [] (Some (string_to_chars "S2"))))))
      (registered (dev_events armed_event_set)) = Some (1, 1)
  ∧ ∃ st1 st2 st3 st4,
      reset (state_after 15 2 two_devices_armed) = Returns tt st1
      ∧ registered_devices st1 = []
      ∧ hlml_init st1 = Returns HLML_SUCCESS st2
      ∧ add_critical_event (Some (string_to_chars "S2")) st2 = Returns tt st3
      ∧ hlml_event_set_wait 2 (Some 0) (Some {| device := None; event_type := 0 |}) 1000 st3
        = Returns (HLML_SUCCESS, Some {| device := Some 1; event_type := 2 |}) st4
      ∧ devices_num (main_struct st4) = 0%Z.
Proof.
  assert (2 ≠ 0)%Z as Hcrit by discriminate.
  assert (wf_state (state_after 15 2 two_devices_armed)) as Hwf by by_computation.
  assert (heap (state_after 15 2 two_devices_armed) !! 0 = Some armed_event_set)
    as Hes by (vm_compute; reflexivity).
  assert (list_find
            (λ q, serial_at (state_after 15 2 two_devices_armed) q
                  = Some (take 63 (c_str (default [] (Some (string_to_chars "S2"))))))
            (registered (dev_events armed_event_set)) = Some (1, 1))
    as Hfind by (vm_compute; reflexivity).
  repeat (split; [assumption|]).
  destruct (reset_keeps_event_sets_and_records 2 _ 0 armed_event_set
              {| device := None; event_type := 0 |} 1000 _ 1 1 Hcrit Hwf Hes Hfind)
    as (st1 & st2 & st3 & st4 & Hreset & _ & _ & Hnone & Hinit & Hadd & Hwait & Hnum).
  exists st1, st2, st3, st4.
  split; [exact Hreset|]. split; [exact Hnone|]. split; [exact Hinit|].
  split; [exact Hadd|]. split; [exact Hwait|exact Hnum].
Defined.

Lemma undeliverable_tail_event_blocks_queue_witness :
  (2 ≠ 0)%Z
  ∧ wf_state (state_after 15 2
                (two_devices_armed ++ [Call_add_critical_event (Some (string_to_chars "S2"));
                                       Call_add_critical_event (Some (string_to_chars "S9"))]))
  ∧ initialized
      (main_struct
         (state_after 15 2
            (two_devices_armed ++ [Call_add_critical_event (Some (string_to_chars "S2"));
                                   Call_add_critical_event (Some (string_to_chars "S9"))])))
    = true
  ∧ no_fake_error FAKE_EVENT_SET_WAIT
      (state_after 15 2
         (two_devices_armed ++ [Call_add_critical_event (Some (string_to_chars "S2"));
                                Call_add_critical_event (Some (string_to_chars "S9"))]))
  ∧ heap (state_after 15 2
            (two_devices_armed ++ [Call_add_critical_event (Some (string_to_chars "S2"));
                                   Call_add_critical_event (Some (string_to_chars "S9"))]))
      !! 0 = Some armed_event_set
  ∧ (∀ p, p ∈ registered (dev_events armed_event_set) →
          serial_at
            (state_after 15 2
               (two_devices_armed
                ++ [Call_add_critical_event (Some (string_to_chars "S2"));
                    Call_add_critical_event (Some (string_to_chars "S9"))])) p
          ≠ tail_event
              (flow_control
                 (state_after 15 2
                    (two_devices_armed
                     ++ [Call_add_critical_event (Some (string_to_chars "S2"));
                         Call_add_critical_event (Some (string_to_chars "S9"))]))))
  ∧ ∃ st',
      run_calls 15 2
        (replicate 3 (Call_hlml_event_set_wait (Some 0)
                        (Some {| device := None; event_type := 0 |}) 1000))
        (state_after 15 2
           (two_devices_armed ++ [Call_add_critical_event (Some (string_to_chars "S2"));
                                  Call_add_critical_event (Some (string_to_chars "S9"))]))
      = Some st'
      ∧ events_num (flow_control st') = 2%Z.
Proof.
  assert (2 ≠ 0)%Z as Hcrit by discriminate.
  assert (wf_state (state_after 15 2
                      (two_devices_armed
                       ++ [Call_add_critical_event (Some (string_to_chars "S2"));
                           Call_add_critical_event (Some (string_to_chars "S9"))])))
    as Hwf by by_computation.
  assert (initialized
            (main_struct
               (state_after 15 2
                  (two_devices_armed
                   ++ [Call_add_critical_event (Some (string_to_chars "S2"));
                       Call_add_critical_event (Some (string_to_chars "S9"))])))
          = true) as Hinit by (vm_compute; reflexivity).
  assert (no_fake_error FAKE_EVENT_SET_WAIT
            (state_after 15 2
               (two_devices_armed
                ++ [Call_add_critical_event (Some (string_to_chars "S2"));
                    Call_add_critical_event (Some (string_to_chars "S9"))])))
    as Hno by (vm_compute; reflexivity).
  assert (heap (state_after 15 2
                  (two_devices_armed
                   ++ [Call_add_critical_event (Some (string_to_chars "S2"));
                       Call_add_critical_event (Some (string_to_chars "S9"))]))
            !! 0 = Some armed_event_set) as Hes by (vm_compute; reflexivity).
  assert (Forall
            (λ p, serial_at
                    (state_after 15 2
                       (two_devices_armed
                        ++ [Call_add_critical_event (Some (string_to_chars "S2"));
                            Call_add_critical_event (Some (string_to_chars "S9"))])) p
                  ≠ tail_event
                      (flow_control
                         (state_after 15 2
                            (two_devices_armed
                             ++ [Call_add_critical_event (Some (string_to_chars "S2"));
                                 Call_add_critical_event (Some (string_to_chars "S9"))]))))
            (registered (dev_events armed_event_set))) as Hall by by_computation.
  pose proof (proj1 (Forall_forall _ _) Hall) as Hnone.
  repeat (split; [assumption|]).
  destruct (undeliverable_tail_event_blocks_queue 15 2 _ 0 armed_event_set
              {| device := None; event_type := 0 |} 1000 3 Hcrit Hwf Hinit Hno Hes Hnone)
    as (st' & Hrun & (_ & Hflow & _) & _).
  exists st'. split; [exact Hrun|].
  rewrite Hflow. vm_compute. reflexivity.
Defined.

Lemma serial_matches_its_event_witness :
  (2 ≠ 0)%Z
  ∧ wf_state initial_state
  ∧ add_device 15 (Some (string_to_chars "0000:19:00.0")) (Some (string_to_chars "1020"))
      (Some (string_to_chars "1da3")) (Some (string_to_chars "S1")) 0 initial_state
    = Returns tt (state_after 15 2 [Call_add_device (Some (string_to_chars "0000:19:00.0"))
                                      (Some (string_to_chars "1020"))
                                      (Some (string_to_chars "1da3"))
                                      (Some (string_to_chars "S1")) 0])
  ∧ wf_state (state_after 15 2 two_devices_armed)
  ∧ devices_info (main_struct (state_after 15 2 two_devices_armed))
      !! Z.to_nat (devices_num (main_struct initial_state))
    = devices_info
        (main_struct
           (state_after 15 2 [Call_add_device (Some (string_to_chars "0000:19:00.0"))
                                (Some (string_to_chars "1020"))
                                (Some (string_to_chars "1da3"))
                                (Some (string_to_chars "S1")) 0]))
        !! Z.to_nat (devices_num (main_struct initial_state))
  ∧ (events_num (flow_control (state_after 15 2 two_devices_armed)) < FAKE_EVENTS_MAX)%Z
  ∧ ∃ st3,
      add_critical_event (Some (string_to_chars "S1")) (state_after 15 2 two_devices_armed)
      = Returns tt st3
      ∧ serial_at st3 (Z.to_nat (devices_num (main_struct initial_state)))
        = tail_event (flow_control st3).
Proof.
  assert (2 ≠ 0)%Z as Hcrit by discriminate.
  assert (wf_state initial_state) as Hwf by by_computation.
  assert (add_device 15 (Some (string_to_chars "0000:19:00.0"))
            (Some (string_to_chars "1020")) (Some (string_to_chars "1da3"))
            (Some (string_to_chars "S1")) 0 initial_state
          = Returns tt (state_after 15 2 [Call_add_device
                                            (Some (string_to_chars "0000:19:00.0"))
                                            (Some (string_to_chars "1020"))
                                            (Some (string_to_chars "1da3"))
                                            (Some (string_to_chars "S1")) 0]))
    as Hadd by (vm_compute; reflexivity).
  assert (wf_state (state_after 15 2 two_devices_armed)) as Hwf2 by by_computation.
  assert (devices_info (main_struct (state_after 15 2 two_devices_armed))
            !! Z.to_nat (devices_num (main_struct initial_state))
          = devices_info
              (main_struct
                 (state_after 15 2 [Call_add_device
                                      (Some (string_to_chars "0000:19:00.0"))
                                      (Some (string_to_chars "1020"))
                                      (Some (string_to_chars "1da3"))
                                      (Some (string_to_chars "S1")) 0]))
              !! Z.to_nat (devices_num (main_struct initial_state)))
    as Hsame by (vm_compute; reflexivity).
  assert (events_num (flow_control (state_after 15 2 two_devices_armed))
          < FAKE_EVENTS_MAX)%Z as Hroom by (vm_compute; reflexivity).
  repeat (split; [assumption|]).
  destruct (serial_matches_its_event 15 2 _ _ _ _ _ _ _ _ 0 armed_event_set
              {| device := None; event_type := 0 |} 1000 0
              Hcrit Hwf Hadd Hwf2 Hsame Hroom) as (st3 & Hevent & Hmatch & _).
  exists st3. split; [exact Hevent|exact Hmatch].
Defined.

Lemma reachable_states_well_formed_witness :
  Forall valid_call two_devices_armed
  ∧ run_calls 15 2 two_devices_armed initial_state
    = Some (state_after 15 2 two_devices_armed)
  ∧ wf_state (state_after 15 2 two_devices_armed).
Proof.
  assert (Forall valid_call two_devices_armed) as Hvalid.
  { unfold two_devices_armed, two_devices. cbn [app]. repeat constructor. }
  assert (run_calls 15 2 two_devices_armed initial_state
          = Some (state_after 15 2 two_devices_armed)) as Hrun
    by (vm_compute; reflexivity).
  repeat (split; [assumption|]).
  exact (reachable_states_well_formed 15 2 _ _ Hvalid Hrun).
Defined.

Lemma reachable_event_sets_compact_witness :
  Forall valid_call two_devices_armed
  ∧ run_calls 15 2 two_devices_armed initial_state
    = Some (state_after 15 2 two_devices_armed)
  ∧ heap (state_after 15 2 two_devices_armed) !! 0 = Some armed_event_set
  ∧ NoDup (registered (dev_events armed_event_set))
  ∧ length (registered (dev_events armed_event_set)) ≤ 8.
Proof.
  assert (Forall valid_call two_devices_armed) as Hvalid.
  { unfold two_devices_armed, two_devices. cbn [app]. repeat constructor. }
  assert (run_calls 15 2 two_devices_armed initial_state
          = Some (state_after 15 2 two_devices_armed)) as Hrun
    by (vm_compute; reflexivity).
  assert (heap (state_after 15 2 two_devices_armed) !! 0 = Some armed_event_set)
    as Hes by (vm_compute; reflexivity).
  repeat (split; [assumption|]).
  destruct (reachable_event_sets_compact 15 2 _ _ Hvalid Hrun 0 armed_event_set Hes)
    as (_ & Hdup & Hlen & _).
  split; [exact Hdup|exact Hlen].
Defined.

Lemma set_error_cells_witness :
  wf_state initial_state
  ∧ (FAKE_INIT < FAKE_CALL_IDENTITY_MAX)%N
  ∧ (FAKE_SHUTDOWN < FAKE_CALL_IDENTITY_MAX)%N
  ∧ ∃ st1 st2 st12,
      set_error FAKE_INIT HLML_ERROR_NOT_FOUND initial_state = Returns tt st1
      ∧ set_error FAKE_SHUTDOWN HLML_ERROR_UNINITIALIZED initial_state = Returns tt st2
      ∧ set_error FAKE_SHUTDOWN HLML_ERROR_UNINITIALIZED st1 = Returns tt st12
      ∧ set_error FAKE_INIT HLML_ERROR_NOT_FOUND st2 = Returns tt st12
      ∧ set_error FAKE_INIT HLML_SUCCESS st1 = Returns tt initial_state.
Proof.
  assert (wf_state initial_state) as Hwf by by_computation.
  assert (FAKE_INIT < FAKE_CALL_IDENTITY_MAX)%N as Hop1 by (vm_compute; reflexivity).
  assert (FAKE_SHUTDOWN < FAKE_CALL_IDENTITY_MAX)%N as Hop2 by (vm_compute; reflexivity).
  repeat (split; [assumption|]).
  destruct (set_error_cells FAKE_INIT FAKE_SHUTDOWN HLML_ERROR_NOT_FOUND
              HLML_ERROR_UNINITIALIZED _ Hwf Hop1 Hop2)
    as (st1 & st2 & st12 & H1 & H2 & H12 & Hcommute & _ & Hundo).
  exists st1, st2, st12.
  split; [exact H1|]. split; [exact H2|]. split; [exact H12|].
  split; [apply Hcommute; discriminate|].
  apply Hundo. vm_compute. reflexivity.
Defined.
